(** * verify_example.py: the configuration-analysis verifier

    A shallow embedding of [verify_example.py] and the properties of its
    verification pipeline: the remote-access adapter
    ([github_api_request]), the document loader
    ([load_analysis_results]), the three validators
    ([verify_commit_data], [verify_parameter_changes], [verify_issues])
    and the driver ([main]).

    Conventions of the embedding.
    - A Python [str] is the [string] of its UTF-8 bytes.  Prefix and
      substring tests on UTF-8 bytes agree with the tests on code points.
      [lower] maps the ASCII letters only, and [\d] is the ASCII digits:
      the embedding is exact on text whose cased letters and digits are
      ASCII (every string of the script is).  Statements that depend on
      what [lower] answers are made for text that [lower_exact] accepts.
    - [str] of an integer and [int] of a numeral convert every integer.
      CPython 3.11 and later refuse, by default, a conversion of more
      than 4300 digits with a [ValueError]; earlier versions convert.
      Statements about a line that prints a value are made for values
      that are [printable]: they hold no integer of more than 4300
      digits, and every version converts them.
    - A JSON value is a [value]; a dict is an association list in
      insertion order, looked up by its first binding.  Values are
      compared by content, object identity is not modelled, and floats
      are the finite and the infinite ones (no NaN).
    - A function of the script returns an [M A]: its outcome (a result,
      an exception that leaves the function, or an exhausted loop
      budget) together with the lines it printed.
    - The Python library ([base64], [json]), the module-level tables
      ([CONFIG], [SAMPLE_ANALYSIS]) and the [requests] module are
      parameters of the functions that read them; the values the script
      binds them to are defined below under the script's names. *)

From Stdlib Require Import ZArith List Bool Ascii String Lia DecimalString.
From Stdlib Require DecimalPos.
Import ListNotations.
Local Open Scope string_scope.
Local Open Scope Z_scope.
Local Open Scope list_scope.
Local Set Warnings "-register-all".

(* ================================================================= *)
(** ** Python values *)

(** A float: [FFin m e] is the number [m * 2^e]. *)
Inductive pyfloat : Type :=
| FInf (negative : bool)
| FFin (m e : Z).

Inductive value : Type :=
| VNone
| VBool (b : bool)
| VInt (z : Z)
| VFloat (f : pyfloat)
| VStr (s : string)
| VList (l : list value)
| VDict (d : list (string * value)).

Inductive exn : Type :=
| AttributeError | TypeError | KeyError | ValueError | RequestException.

(** *** Numbers: [bool], [int] and [float] compare by numeric value *)

Definition as_num (v : value) : option pyfloat :=
  match v with
  | VBool b => Some (FFin (if b then 1 else 0) 0)
  | VInt z => Some (FFin z 0)
  | VFloat f => Some f
  | _ => None
  end.

Definition num_compare (x y : pyfloat) : comparison :=
  match x, y with
  | FInf true, FInf true => Eq
  | FInf true, _ => Lt
  | _, FInf true => Gt
  | FInf false, FInf false => Eq
  | FInf false, _ => Gt
  | _, FInf false => Lt
  | FFin m1 e1, FFin m2 e2 =>
      let e := Z.min e1 e2 in
      Z.compare (m1 * 2 ^ (e1 - e)) (m2 * 2 ^ (e2 - e))
  end.

Definition num_eqb (x y : pyfloat) : bool :=
  match num_compare x y with Eq => true | _ => false end.

Definition num_leb (x y : pyfloat) : bool :=
  match num_compare x y with Gt => false | _ => true end.

(** *** Dicts *)

Fixpoint lookup (k : string) (d : list (string * value)) : option value :=
  match d with
  | [] => None
  | (k', v) :: d' => if String.eqb k k' then Some v else lookup k d'
  end.

Definition has_key (k : string) (d : list (string * value)) : bool :=
  match lookup k d with Some _ => true | None => false end.

(** *** [a == b] *)

Fixpoint py_eq (a b : value) {struct a} : bool :=
  match a, b with
  | VNone, VNone => true
  | VStr s, VStr t => String.eqb s t
  | VList l, VList m =>
      (fix all2 (l m : list value) : bool :=
         match l, m with
         | [], [] => true
         | x :: l', y :: m' => py_eq x y && all2 l' m'
         | _, _ => false
         end) l m
  | VDict d, VDict e =>
      (Nat.eqb (List.length d) (List.length e))
      && (fix all (d : list (string * value)) : bool :=
            match d with
            | [] => true
            | (k, v) :: d' =>
                match lookup k e with
                | Some w => py_eq v w
                | None => false
                end && all d'
            end) d
  | _, _ =>
      match as_num a, as_num b with
      | Some x, Some y => num_eqb x y
      | _, _ => false
      end
  end.

(** *** [bool(v)]: the truth value tested by [if v] and [not v] *)

Definition truthy (v : value) : bool :=
  match v with
  | VNone => false
  | VBool b => b
  | VInt z => negb (z =? 0)
  | VFloat (FFin m _) => negb (m =? 0)
  | VFloat (FInf _) => true
  | VStr s => negb (String.eqb s "")
  | VList l => match l with [] => false | _ => true end
  | VDict d => match d with [] => false | _ => true end
  end.

(** *** [a <= b]: numbers, strings and lists are ordered, the rest is a
    [TypeError] *)

Fixpoint py_le (a b : value) {struct a} : exn + bool :=
  match a, b with
  | VStr s, VStr t => inr (String.leb s t)
  | VList l, VList m =>
      (fix lex (l m : list value) : exn + bool :=
         match l, m with
         | [], _ => inr true
         | _ :: _, [] => inr false
         | x :: l', y :: m' => if py_eq x y then lex l' m' else py_le x y
         end) l m
  | _, _ =>
      match as_num a, as_num b with
      | Some x, Some y => inr (num_leb x y)
      | _, _ => inl TypeError
      end
  end.

(* ================================================================= *)
(** ** Strings *)

Definition is_upper (c : ascii) : bool :=
  let n := N_of_ascii c in (65 <=? n)%N && (n <=? 90)%N.

Definition lower_ascii (c : ascii) : ascii :=
  if is_upper c then ascii_of_N (N_of_ascii c + 32) else c.

(** [s.lower()], on text whose cased letters are ASCII *)
Fixpoint lower (s : string) : string :=
  match s with
  | EmptyString => EmptyString
  | String c s' => String (lower_ascii c) (lower s')
  end.

(** [s.startswith(p)] *)
Definition startswith (s p : string) : bool := String.prefix p s.

(** [sub in s] on two strings *)
Fixpoint contains (sub s : string) : bool :=
  String.prefix sub s
  || match s with
     | EmptyString => false
     | String _ s' => contains sub s'
     end.

(** [s.split("/")[-1]]: what follows the last slash *)
Fixpoint last_segment_from (acc s : string) : string :=
  match s with
  | EmptyString => acc
  | String c s' =>
      if Ascii.eqb c "/" then last_segment_from s' s'
      else last_segment_from acc s'
  end.

Definition last_segment (s : string) : string := last_segment_from s s.

Definition is_digit (c : ascii) : bool :=
  let n := N_of_ascii c in (48 <=? n)%N && (n <=? 57)%N.

Definition is_hex_letter (c : ascii) : bool :=
  let n := N_of_ascii (lower_ascii c) in (97 <=? n)%N && (n <=? 102)%N.

(** The blanks that [int] skips around an ASCII numeral: tab to carriage
    return, and the space. *)
Definition is_space (c : ascii) : bool :=
  let n := N_of_ascii c in
  ((9 <=? n)%N && (n <=? 13)%N) || (n =? 32)%N.

(** [str(z)], for an integer that Python converts (4300 digits at most
    on CPython 3.11 and later) *)
Definition str_of_Z (z : Z) : string := NilZero.string_of_int (Z.to_int z).

(** [int(s)] of an ASCII numeral that Python converts: blanks around, an
    optional sign, then decimal digits that single underscores may
    separate. *)
Fixpoint lstrip (s : string) : string :=
  match s with
  | String c s' => if is_space c then lstrip s' else s
  | EmptyString => EmptyString
  end.

Fixpoint rstrip (s : string) : string :=
  match s with
  | EmptyString => EmptyString
  | String c s' =>
      match rstrip s' with
      | EmptyString => if is_space c then EmptyString else String c EmptyString
      | t => String c t
      end
  end.

(** [after_digit] tells whether the character before is a digit: an
    underscore is accepted only between two digits. *)
Fixpoint digits_value (after_digit : bool) (acc : Z) (s : string) : option Z :=
  match s with
  | EmptyString => if after_digit then Some acc else None
  | String c s' =>
      if is_digit c then
        digits_value true (10 * acc + Z.of_N (N_of_ascii c - 48)) s'
      else if Ascii.eqb c "_" then
        match s' with
        | String c' _ =>
            if after_digit && is_digit c' then digits_value false acc s'
            else None
        | EmptyString => None
        end
      else None
  end.

Definition py_int (s : string) : option Z :=
  match rstrip (lstrip s) with
  | String "-" t => option_map Z.opp (digits_value false 0 t)
  | String "+" t => digits_value false 0 t
  | t => digits_value false 0 t
  end.

(* ================================================================= *)
(** ** Regular expressions of the script

    [re.match] anchors at the start; [$] matches at the end of the
    string and also just before a newline that ends the string. *)

Definition newline : ascii := "010"%char.

Definition at_dollar (s : string) : bool :=
  match s with
  | EmptyString => true
  | String c EmptyString => Ascii.eqb c newline
  | _ => false
  end.

(** [n] characters of the class [cls], then the rest *)
Fixpoint run_of (cls : ascii -> bool) (n : nat) (s : string) : option string :=
  match n with
  | O => Some s
  | S n' =>
      match s with
      | String c s' => if cls c then run_of cls n' s' else None
      | EmptyString => None
      end
  end.

Definition literal (c : ascii) (s : string) : option string :=
  match s with
  | String c' s' => if Ascii.eqb c c' then Some s' else None
  | EmptyString => None
  end.

Definition and_then {A B} (o : option A) (f : A -> option B) : option B :=
  match o with Some a => f a | None => None end.

Definition is_hex (c : ascii) : bool := is_digit c || is_hex_letter c.

(** [re.match(r"^[a-f0-9]{40}$", s, re.IGNORECASE)] *)
Definition sha_format_ok (s : string) : bool :=
  match run_of is_hex 40 s with
  | Some rest => at_dollar rest
  | None => false
  end.

(** [re.match(r"^\d{4}-\d{2}-\d{2}$", s)] *)
Definition date_yyyy_mm_dd (s : string) : bool :=
  match
    and_then (run_of is_digit 4 s) (fun s1 =>
    and_then (literal "-" s1) (fun s2 =>
    and_then (run_of is_digit 2 s2) (fun s3 =>
    and_then (literal "-" s3) (fun s4 =>
    run_of is_digit 2 s4))))
  with
  | Some rest => at_dollar rest
  | None => false
  end.

(* ================================================================= *)
(** ** What the script prints *)

Inductive diag : Type :=
| RequestsUnavailable
| ApiError (status : Z) (endpoint text : string)
| ApiException
| ParseError (analysis_file : string)
| InvalidShaFormat (commit_sha : value)
| CommitNotFound (commit_sha : string)
| AuthorMismatch (expected actual : value)
| InvalidDateFormat (commit_date : value)
| MissingParameter (param : string)
| MissingField (field param : string)
| ValueMismatch (param : string) (exp_before exp_after got_before got_after : value)
| NoChange (param : string)
| NotInRange (param : string) (before_val min_before max_before : value)
| UnknownMode (mode : string)
| IssueListNotList
| IssueListEmpty
| InvalidIssueNumber (issue_num : value)
| IssueNotFound (issue_num : value)
| IssueMissingKeywords (issue_num : value) (keywords : list string)
| MissingIssues (missing : list value)
| ExtraIssues (extra : list value)
| NoTokenWarning
| RequestsNotInstalled
| AnalysisNotFound.

Inductive event : Type :=
| Stderr (d : diag)
| Stdout (line : string).

(* ================================================================= *)
(** ** The monad of the script's functions *)

Inductive outcome (A : Type) : Type :=
| Ret (a : A)
| Raise (e : exn)
| Diverge.
Arguments Ret {A} a.
Arguments Raise {A} e.
Arguments Diverge {A}.

Definition M (A : Type) : Type := outcome A * list event.

Definition ret {A} (a : A) : M A := (Ret a, []).
Definition raise {A} (e : exn) : M A := (Raise e, []).
Definition diverge {A} : M A := (Diverge, []).

(** [print(f"...", file=sys.stderr)]: the line is the diagnostic with
    the values of its fields, which are taken to be printable. *)
Definition print_err (d : diag) : M unit := (Ret tt, [Stderr d]).
Definition print (line : string) : M unit := (Ret tt, [Stdout line]).

Definition bind {A B} (m : M A) (f : A -> M B) : M B :=
  match m with
  | (Ret a, w) => let (r, w') := f a in (r, w ++ w')
  | (Raise e, w) => (Raise e, w)
  | (Diverge, w) => (Diverge, w)
  end.

(** [try: m except Exception: h] *)
Definition try_except {A} (m : M A) (h : exn -> M A) : M A :=
  match m with
  | (Raise e, w) => let (r, w') := h e in (r, w ++ w')
  | _ => m
  end.

Declare Scope py_scope.
Delimit Scope py_scope with py.
Notation "x <- m ;; k" := (bind m (fun x => k))
  (at level 61, m at next level, right associativity) : py_scope.
Notation "m ;;; k" := (bind m (fun _ => k))
  (at level 61, right associativity) : py_scope.
Local Open Scope py_scope.

Definition lift {A} (r : exn + A) : M A :=
  match r with inl e => raise e | inr a => ret a end.

(** The result and the printed lines of a run *)
Definition result {A} (m : M A) : outcome A := fst m.
Definition printed {A} (m : M A) : list event := snd m.

Definition stderr_of (w : list event) : list diag :=
  flat_map (fun e => match e with Stderr d => [d] | Stdout _ => [] end) w.

(* ================================================================= *)
(** ** Operations on values that can raise *)

(** [v.get(k, default)] *)
Definition py_get (v : value) (k : string) (default : value) : M value :=
  match v with
  | VDict d => ret (match lookup k d with Some x => x | None => default end)
  | _ => raise AttributeError
  end.

(** [v[k]] for a string [k] *)
Definition subscript (v : value) (k : string) : M value :=
  match v with
  | VDict d => match lookup k d with Some x => ret x | None => raise KeyError end
  | _ => raise TypeError
  end.

(** [k in v] for a string [k] *)
Definition py_in (k : string) (v : value) : M bool :=
  match v with
  | VDict d => ret (has_key k d)
  | VList l => ret (existsb (py_eq (VStr k)) l)
  | VStr s => ret (contains k s)
  | _ => raise TypeError
  end.

(** [a + b] on strings *)
Definition str_add (a b : value) : M string :=
  match a, b with
  | VStr s, VStr t => ret (s ++ t)%string
  | _, _ => raise TypeError
  end.

(** Sets of hashable values, kept without duplicates up to [==] *)
Definition pyset : Type := list value.

Definition hashable (v : value) : bool :=
  match v with VList _ | VDict _ => false | _ => true end.

Definition set_mem (v : value) (s : pyset) : bool := existsb (py_eq v) s.

Definition set_add (v : value) (s : pyset) : M pyset :=
  if hashable v then ret (if set_mem v s then s else s ++ [v])
  else raise TypeError.

Fixpoint set_of_list (l : list value) (s : pyset) : M pyset :=
  match l with
  | [] => ret s
  | v :: l' => s' <- set_add v s ;; set_of_list l' s'
  end.

Definition set_subset (a b : pyset) : bool := forallb (fun v => set_mem v b) a.
Definition set_eq (a b : pyset) : bool := set_subset a b && set_subset b a.
Definition set_diff (a b : pyset) : pyset := filter (fun v => negb (set_mem v b)) a.

(** [for item in v]: the elements of a list, the keys of a dict, the
    characters of a string (here its bytes: each is a one-character
    string for the tests the script applies to it). *)
Definition py_iter (v : value) : M (list value) :=
  match v with
  | VList l => ret l
  | VDict d => ret (map (fun kv => VStr (fst kv)) d)
  | VStr s => ret (map (fun c => VStr (String c EmptyString)) (list_ascii_of_string s))
  | _ => raise TypeError
  end.

(** [v.items()] *)
Definition py_items (v : value) : M (list (string * value)) :=
  match v with
  | VDict d => ret d
  | _ => raise AttributeError
  end.

(** [isinstance(v, int)]: a [bool] is an [int] *)
Definition is_int (v : value) : bool :=
  match v with VInt _ | VBool _ => true | _ => false end.

Definition is_list (v : value) : bool :=
  match v with VList _ => true | _ => false end.

(** [len(v)] of a list *)
Definition list_len (v : value) : Z :=
  match v with VList l => Z.of_nat (List.length l) | _ => 0 end.

(** [f"{v}"] for a printable [int] or a [bool] *)
Definition str_of_int_value (v : value) : string :=
  match v with
  | VInt z => str_of_Z z
  | VBool true => "True"
  | VBool false => "False"
  | _ => ""
  end.

(** [f"{token}"] for an optional string *)
Definition str_of_token (token : option string) : string :=
  match token with Some t => t | None => "None" end.

(* ================================================================= *)
(** ** The library, the network and the module-level tables *)

(** [base64] and [json], and the decoding of UTF-8.  [b64encode] gives
    the text of the encoding (it is ASCII); a decoder answers [None]
    where the library raises. *)
Record PyLib : Type := {
  b64encode : string -> string;
  b64decode : string -> option string;
  utf8_decode : string -> option string;
  json_dumps : value -> string;
  json_loads : string -> option value
}.

(** The answer to [requests.get]: [json] is [None] when [resp.json()]
    raises. *)
Record Response : Type := {
  status_code : Z;
  text : string;
  json : option value
}.

(** [requests.get(url, headers=headers, timeout=10)]; [None] when the
    call raises.  The answer is a function of the request: within a run
    the remote side answers a repeated request in the same way. *)
Definition Requests : Type := string -> list (string * string) -> option Response.

Record Expected : Type := { exp_before : value; exp_after : value }.

(** [CONFIG], with the pattern [DATE_FORMAT] given by the strings that
    [re.match] accepts for it. *)
Record Config : Type := {
  GITHUB_TOKEN_VAR : string;
  REPO_OWNER_VAR : string;
  REPO_NAME_VAR : string;
  ENV_FILE_PATH : string;
  TARGET_FILE_PATH : string;
  ANALYSIS_FILE_NAME : string;
  ANALYSIS_FILE_FORMAT : string;
  REQUIRED_PARAMETERS : list string;
  VALIDATION_MODE : string;
  EXPECTED_VALUES : list (string * Expected);
  RANGE_CONFIG : string;
  KEYWORDS : list string;
  INCLUDE_PR : string;
  ALLOW_EMPTY_ISSUES : string;
  STRICT_ISSUE_MATCH : string;
  VERIFY_COMMIT : string;
  VERIFY_PARAMETERS : string;
  VERIFY_ISSUES : string;
  DATE_FORMAT : string -> bool
}.

Definition quote : string := String "034"%char EmptyString.
Definition quoted (s : string) : string := (quote ++ s ++ quote)%string.

Definition CONFIG : Config := {|
  GITHUB_TOKEN_VAR := "MCP_GITHUB_TOKEN";
  REPO_OWNER_VAR := "REPO_OWNER";
  REPO_NAME_VAR := "REPO_NAME";
  ENV_FILE_PATH := ".env";
  TARGET_FILE_PATH := "analysis_results.json";
  ANALYSIS_FILE_NAME := "analysis_results.json";
  ANALYSIS_FILE_FORMAT := "json";
  REQUIRED_PARAMETERS :=
    ["micro_batch_size_per_device_for_update";
     "micro_batch_size_per_device_for_experience"];
  VALIDATION_MODE := "exact";
  EXPECTED_VALUES :=
    [("micro_batch_size_per_device_for_update",
      {| exp_before := VInt 4; exp_after := VInt 2 |});
     ("micro_batch_size_per_device_for_experience",
      {| exp_before := VInt 8; exp_after := VInt 4 |})];
  RANGE_CONFIG :=
    ("{" ++ quoted "micro_batch_size_per_device_for_update" ++ ": {"
         ++ quoted "min_before" ++ ": 1, "
         ++ quoted "max_before" ++ ": 16}}")%string;
  KEYWORDS := ["oom"; "memory"; "显存"];
  INCLUDE_PR := "false";
  ALLOW_EMPTY_ISSUES := "false";
  STRICT_ISSUE_MATCH := "true";
  VERIFY_COMMIT := "true";
  VERIFY_PARAMETERS := "true";
  VERIFY_ISSUES := "true";
  DATE_FORMAT := date_yyyy_mm_dd
|}.

Definition SAMPLE_ANALYSIS : value :=
  VDict
    [("target_commit_sha", VStr "0f4b0c1e2a3b4c5d6e7f8a9b0c1d2e3f4a5b6c7d");
     ("commit_author", VStr "example-author");
     ("commit_date", VStr "2025-09-10");
     ("parameter_changes",
      VDict
        [("micro_batch_size_per_device_for_update",
          VDict [("before", VInt 4); ("after", VInt 2); ("line_number", VInt 120)]);
         ("micro_batch_size_per_device_for_experience",
          VDict [("before", VInt 8); ("after", VInt 4); ("line_number", VInt 130)])]);
     ("related_issue_number_list", VList [VInt 101; VInt 102])].

(** The two issues of the offline fixture *)
Definition issue_101 : value :=
  VDict [("number", VInt 101); ("title", VStr "oom on large batch");
         ("body", VStr "遇到 OOM 问题")].
Definition issue_102 : value :=
  VDict [("number", VInt 102); ("title", VStr "显存不足");
         ("body", VStr "memory usage spike")].

(** [s.lower() == "true"], the test of a toggle *)
Definition toggle (s : string) : bool := String.eqb (lower s) "true".

(** [os.getenv] *)
Definition Environ : Type := string -> option string.

Definition getenv (environ : Environ) (name : string) (default : option string)
  : option string :=
  match environ name with Some v => Some v | None => default end.

(** [not token] *)
Definition token_missing (token : option string) : bool :=
  match token with Some t => String.eqb t "" | None => true end.

(* ================================================================= *)
(** ** The functions of the script *)

Section Script.

Context (lib : PyLib).
(** [cfg] is the table bound to [CONFIG], [sample] the one bound to
    [SAMPLE_ANALYSIS], and [requests] the module, [None] when its import
    failed. *)
Context (cfg : Config) (sample : value) (requests : option Requests).

Definition get_github_credentials (environ : Environ)
  : option string * string * string :=
  let token := getenv environ (GITHUB_TOKEN_VAR cfg) None in
  let owner := getenv environ (REPO_OWNER_VAR cfg) (Some "example-owner") in
  let repo := getenv environ (REPO_NAME_VAR cfg) (Some "example-repo") in
  (token, match owner with Some o => o | None => "" end,
   match repo with Some r => r | None => "" end).

(** [requests.get(...)] followed by the reading of the answer, inside
    the [try] of the adapter *)
Definition http_get (get : Requests) (endpoint url : string)
    (headers : list (string * string)) : M (bool * value) :=
  match get url headers with
  | None => raise RequestException
  | Some resp =>
      if status_code resp =? 200 then
        match json resp with
        | Some v => ret (true, v)
        | None => raise ValueError
        end
      else if status_code resp =? 404 then ret (false, VNone)
      else
        print_err (ApiError (status_code resp) endpoint (text resp)) ;;;
        ret (false, VNone)
  end.

Definition github_api_request (endpoint : string) (token : option string)
    (owner repo : string) (mock : bool) : M (bool * value) :=
  if mock then
    if startswith endpoint "contents/" then
      let payload := b64encode lib (json_dumps lib sample) in
      ret (true, VDict [("content", VStr payload)])
    else if startswith endpoint "commits/" then
      sha <- subscript sample "target_commit_sha" ;;
      author <- subscript sample "commit_author" ;;
      date <- subscript sample "commit_date" ;;
      ret (true,
           VDict [("sha", sha);
                  ("author", VDict [("login", author)]);
                  ("commit", VDict [("author", VDict [("date", date)])])])
    else if startswith endpoint "issues?" then
      ret (true, VList [issue_101; issue_102])
    else if startswith endpoint "issues/" then
      match py_int (last_segment endpoint) with
      | None => raise ValueError
      | Some num =>
          if num =? 101 then ret (true, issue_101)
          else if num =? 102 then ret (true, issue_102)
          else ret (false, VNone)
      end
    else ret (false, VNone)
  else
    match requests with
    | None => print_err RequestsUnavailable ;;; ret (false, VNone)
    | Some get =>
        let url :=
          ("https://api.github.com/repos/" ++ owner ++ "/" ++ repo ++ "/"
             ++ endpoint)%string in
        let headers :=
          [("Authorization", ("token " ++ str_of_token token)%string);
           ("Accept", "application/vnd.github.v3+json")] in
        try_except (http_get get endpoint url headers)
          (fun _ => print_err ApiException ;;; ret (false, VNone))
    end.

(** [base64.b64decode(v).decode("utf-8")] *)
Definition decode_content (v : value) : M string :=
  match v with
  | VStr s =>
      match b64decode lib s with
      | Some raw =>
          match utf8_decode lib raw with
          | Some content => ret content
          | None => raise ValueError
          end
      | None => raise ValueError
      end
  | _ => raise TypeError
  end.

(** [json.loads(s)] *)
Definition loads (s : string) : M value :=
  match json_loads lib s with
  | Some v => ret v
  | None => raise ValueError
  end.

Definition load_analysis_results (token : option string) (owner repo : string)
    (mock : bool) : M value :=
  let analysis_file := ANALYSIS_FILE_NAME cfg in
  r <- github_api_request ("contents/" ++ analysis_file)%string token owner repo mock ;;
  let (success, file_data) := r in
  if negb success || negb (truthy file_data) then ret VNone
  else
    try_except
      (content_encoded <- py_get file_data "content" (VStr "") ;;
       content <- decode_content content_encoded ;;
       if String.eqb (ANALYSIS_FILE_FORMAT cfg) "json" then loads content
       else ret VNone)
      (fun _ => print_err (ParseError analysis_file) ;;; ret VNone).

(** [re.match(CONFIG[...]["DATE_FORMAT"], v)] *)
Definition match_date (v : value) : M bool :=
  match v with
  | VStr s => ret (DATE_FORMAT cfg s)
  | _ => raise TypeError
  end.

Definition verify_commit_data (results : value) (token : option string)
    (owner repo : string) (mock : bool) : M bool :=
  commit_sha <- py_get results "target_commit_sha" VNone ;;
  match commit_sha with
  | VStr sha =>
      if negb (sha_format_ok sha) then
        print_err (InvalidShaFormat commit_sha) ;;; ret false
      else
        r <- github_api_request ("commits/" ++ sha)%string token owner repo mock ;;
        let (success, commit_data) := r in
        if negb success || negb (truthy commit_data) then
          print_err (CommitNotFound sha) ;;; ret false
        else
          expected_author <- py_get results "commit_author" VNone ;;
          author <- py_get commit_data "author" (VDict []) ;;
          login <- py_get author "login" VNone ;;
          actual_author <-
            (if negb (truthy login) then
               commit <- py_get commit_data "commit" (VDict []) ;;
               commit_author <- py_get commit "author" (VDict []) ;;
               py_get commit_author "name" VNone
             else ret login) ;;
          if negb (py_eq expected_author actual_author) then
            print_err (AuthorMismatch expected_author actual_author) ;;; ret false
          else
            commit_date <- py_get results "commit_date" (VStr "") ;;
            ok <- match_date commit_date ;;
            if negb ok then
              print_err (InvalidDateFormat commit_date) ;;; ret false
            else ret true
  | _ => print_err (InvalidShaFormat commit_sha) ;;; ret false
  end.

(** The loops of [verify_parameter_changes].  Each answers [false] where
    the script leaves with [return False], and [true] where the loop
    runs to its end. *)
Fixpoint check_fields (change : value) (param : string) (fields : list string)
  : M bool :=
  match fields with
  | [] => ret true
  | field :: fields' =>
      present <- py_in field change ;;
      if negb present then print_err (MissingField field param) ;;; ret false
      else check_fields change param fields'
  end.

Fixpoint check_required (param_changes : value) (params : list string) : M bool :=
  match params with
  | [] => ret true
  | param :: params' =>
      present <- py_in param param_changes ;;
      if negb present then print_err (MissingParameter param) ;;; ret false
      else
        change <- subscript param_changes param ;;
        ok <- check_fields change param ["before"; "after"; "line_number"] ;;
        if negb ok then ret false else check_required param_changes params'
  end.

(** [actual.get("after")] raises exactly when [actual.get("before")]
    does, so both are read before the comparison. *)
Fixpoint check_exact (param_changes : value) (expected : list (string * Expected))
  : M bool :=
  match expected with
  | [] => ret true
  | (param, e) :: expected' =>
      actual <- py_get param_changes param (VDict []) ;;
      before <- py_get actual "before" VNone ;;
      after <- py_get actual "after" VNone ;;
      if negb (py_eq before (exp_before e)) || negb (py_eq after (exp_after e)) then
        print_err (ValueMismatch param (exp_before e) (exp_after e) before after) ;;;
        ret false
      else check_exact param_changes expected'
  end.

Fixpoint check_any (param_changes : value) (params : list string) : M bool :=
  match params with
  | [] => ret true
  | param :: params' =>
      actual <- py_get param_changes param (VDict []) ;;
      before <- py_get actual "before" VNone ;;
      after <- py_get actual "after" VNone ;;
      if py_eq before after then print_err (NoChange param) ;;; ret false
      else check_any param_changes params'
  end.

(** [not (ranges["min_before"] <= before_val <= ranges["max_before"])]:
    the upper bound is read only when the lower comparison holds. *)
Definition out_of_range (ranges before_val : value) : M bool :=
  lo <- subscript ranges "min_before" ;;
  above_lo <- lift (py_le lo before_val) ;;
  if above_lo then
    hi <- subscript ranges "max_before" ;;
    below_hi <- lift (py_le before_val hi) ;;
    ret (negb below_hi)
  else ret true.

Fixpoint check_range (param_changes : value) (items : list (string * value))
  : M bool :=
  match items with
  | [] => ret true
  | (param, ranges) :: items' =>
      actual <- py_get param_changes param (VDict []) ;;
      before_val <- py_get actual "before" VNone ;;
      bad <- match before_val with
             | VNone => ret true
             | _ => out_of_range ranges before_val
             end ;;
      if bad then
        lo <- subscript ranges "min_before" ;;
        hi <- subscript ranges "max_before" ;;
        print_err (NotInRange param before_val lo hi) ;;; ret false
      else check_range param_changes items'
  end.

Definition verify_parameter_changes (results : value) : M bool :=
  param_changes <- py_get results "parameter_changes" (VDict []) ;;
  let required_params := REQUIRED_PARAMETERS cfg in
  complete <- check_required param_changes required_params ;;
  if negb complete then ret false
  else
    let mode := VALIDATION_MODE cfg in
    if String.eqb mode "exact" then
      check_exact param_changes (EXPECTED_VALUES cfg)
    else if String.eqb mode "any" then
      check_any param_changes required_params
    else if String.eqb mode "range" then
      range_config <- loads (RANGE_CONFIG cfg) ;;
      items <- py_items range_config ;;
      check_range param_changes items
    else print_err (UnknownMode mode) ;;; ret false.

(** [(item.get("title", "") + " " + (item.get("body") or "")).lower()] *)
Definition issue_text (item : value) : M string :=
  title <- py_get item "title" (VStr "") ;;
  body <- py_get item "body" VNone ;;
  head <- str_add title (VStr " ") ;;
  full <- str_add (VStr head) (if truthy body then body else VStr "") ;;
  ret (lower full).

(** Some keyword, lowered, occurs in the text *)
Definition has_keyword (keywords : list string) (text : string) : bool :=
  existsb (fun kw => contains (lower kw) text) keywords.

(** The body of the [for item in data] loop *)
Definition scan_item (include_pr : bool) (keywords : list string)
    (issues : pyset) (item : value) : M pyset :=
  skip <- (if negb include_pr then py_in "pull_request" item else ret false) ;;
  if skip then ret issues
  else
    number <- py_get item "number" VNone ;;
    text <- issue_text item ;;
    if has_keyword keywords text then set_add number issues else ret issues.

Fixpoint scan_items (include_pr : bool) (keywords : list string)
    (issues : pyset) (items : list value) : M pyset :=
  match items with
  | [] => ret issues
  | item :: items' =>
      issues' <- scan_item include_pr keywords issues item ;;
      scan_items include_pr keywords issues' items'
  end.

Definition page_endpoint (page : Z) : string :=
  ("issues?state=all&per_page=100&page=" ++ str_of_Z page)%string.

(** The [while True] loop; [fuel] bounds the number of pages fetched. *)
Fixpoint get_relevant_issues_loop (fuel : nat) (token : option string)
    (owner repo : string) (mock : bool) (page : Z) (issues : pyset) : M pyset :=
  match fuel with
  | O => diverge
  | S fuel' =>
      r <- github_api_request (page_endpoint page) token owner repo mock ;;
      let (success, data) := r in
      if negb success || negb (truthy data) then ret issues
      else
        items <- py_iter data ;;
        issues' <- scan_items (toggle (INCLUDE_PR cfg)) (KEYWORDS cfg) issues items ;;
        if is_list data && (list_len data <? 100) then ret issues'
        else get_relevant_issues_loop fuel' token owner repo mock (page + 1) issues'
  end.

Definition get_relevant_issues (fuel : nat) (token : option string)
    (owner repo : string) (mock : bool) : M pyset :=
  get_relevant_issues_loop fuel token owner repo mock 1 [].

(** The [for issue_num in issue_list] loop *)
Fixpoint check_issues (token : option string) (owner repo : string) (mock : bool)
    (issue_list : list value) : M bool :=
  match issue_list with
  | [] => ret true
  | issue_num :: issue_list' =>
      bad <- (if negb (is_int issue_num) then ret true
              else lift (py_le issue_num (VInt 0))) ;;
      if bad then print_err (InvalidIssueNumber issue_num) ;;; ret false
      else
        r <- github_api_request ("issues/" ++ str_of_int_value issue_num)%string
               token owner repo mock ;;
        let (success, issue_data) := r in
        if negb success || negb (truthy issue_data) then
          print_err (IssueNotFound issue_num) ;;; ret false
        else
          text <- issue_text issue_data ;;
          if negb (has_keyword (KEYWORDS cfg) text) then
            print_err (IssueMissingKeywords issue_num (KEYWORDS cfg)) ;;; ret false
          else check_issues token owner repo mock issue_list'
  end.

Definition nonempty (s : pyset) : bool :=
  match s with [] => false | _ => true end.

(** Lines 289-301: the comparison of the two sets *)
Definition reconcile (provided_issues expected_issues : pyset) : M bool :=
  if negb (set_eq provided_issues expected_issues) then
    let missing := set_diff expected_issues provided_issues in
    let extra := set_diff provided_issues expected_issues in
    (if nonempty missing then print_err (MissingIssues missing) else ret tt) ;;;
    (if nonempty extra then print_err (ExtraIssues extra) else ret tt) ;;;
    if toggle (STRICT_ISSUE_MATCH cfg) then ret false else ret true
  else ret true.

Definition verify_issues (fuel : nat) (results : value) (token : option string)
    (owner repo : string) (mock : bool) : M bool :=
  issue_list <- py_get results "related_issue_number_list" (VList []) ;;
  match issue_list with
  | VList l =>
      if (Z.of_nat (List.length l) =? 0) && negb (toggle (ALLOW_EMPTY_ISSUES cfg)) then
        print_err IssueListEmpty ;;; ret false
      else
        ok <- check_issues token owner repo mock l ;;
        if negb ok then ret false
        else
          expected_issues <- get_relevant_issues fuel token owner repo mock ;;
          provided_issues <- set_of_list l [] ;;
          reconcile provided_issues expected_issues
  | _ => print_err IssueListNotList ;;; ret false
  end.

(** One stage of [main]: the validator runs when its toggle is set, and
    the stage tells whether [all_passed] survives it. *)
Definition stage (enabled : string) (title done : string) (check : M bool) : M bool :=
  if toggle enabled then
    print title ;;;
    ok <- check ;;
    if negb ok then ret false else print done ;;; ret true
  else ret true.

Definition banner : string :=
  String newline (String.concat "" (repeat "=" 60)).

(** Lines 331-358 of [main]: the three stages on the loaded document and
    the exit status. *)
Definition main_checks (fuel : nat) (results : value) (token : option string)
    (owner repo : string) (mock : bool) : M Z :=
  commit_ok <- stage (VERIFY_COMMIT cfg) "2. Verifying commit data..."
                 "✅ Commit data verified"
                 (verify_commit_data results token owner repo mock) ;;
  parameters_ok <- stage (VERIFY_PARAMETERS cfg) "3. Verifying parameter changes..."
                 "✅ Parameter changes verified"
                 (verify_parameter_changes results) ;;
  issues_ok <- stage (VERIFY_ISSUES cfg) "4. Verifying related issues..."
                 "✅ Related issues verified"
                 (verify_issues fuel results token owner repo mock) ;;
  let all_passed := commit_ok && parameters_ok && issues_ok in
  print banner ;;;
  if all_passed then print "✅ All verification checks passed!" ;;; ret 0
  else print "❌ Some verification checks failed" ;;; ret 1.

(** [main]; the answer is the status given to [sys.exit]. *)
Definition main (fuel : nat) (environ : Environ) (args_mock : bool) : M Z :=
  let '(token, owner, repo) := get_github_credentials environ in
  mock <- (if token_missing token && negb args_mock then
             print_err NoTokenWarning ;;; ret true
           else ret args_mock) ;;
  if negb mock && match requests with None => true | Some _ => false end then
    print_err RequestsNotInstalled ;;; ret 1
  else
    print "🔍 Starting GitHub configuration analysis verification..." ;;;
    results <- load_analysis_results token owner repo mock ;;
    if negb (truthy results) then print_err AnalysisNotFound ;;; ret 1
    else
      print "✅ Loaded analysis results" ;;;
      main_checks fuel results token owner repo mock.

End Script.

(* ================================================================= *)
(** ** An instance of the library

    [pylib] implements the part of [base64] and [json] that the script's
    own data exercises, so that the script can be run on its fixture:
    canonical base64 text; JSON made of objects, lists, strings, integers
    and the three literals.  [dumps] writes a non-ASCII character as it
    is and a float by its exact decimal expansion; [loads] answers
    [None] on a number with a fraction or an exponent. *)

Module PyRef.

Definition b64_alphabet : string :=
  "ABCDEFGHIJKLMNOPQRSTUVWXYZabcdefghijklmnopqrstuvwxyz0123456789+/".

Definition b64_char (n : N) : ascii :=
  match String.get (N.to_nat n) b64_alphabet with
  | Some c => c
  | None => "="%char
  end.

Definition b64_index (c : ascii) : option N :=
  let n := N_of_ascii c in
  if (65 <=? n)%N && (n <=? 90)%N then Some (n - 65)%N
  else if (97 <=? n)%N && (n <=? 122)%N then Some (n - 71)%N
  else if (48 <=? n)%N && (n <=? 57)%N then Some (n + 4)%N
  else if (n =? 43)%N then Some 62%N
  else if (n =? 47)%N then Some 63%N
  else None.

Definition sextets (x : N) (k : nat) : string :=
  string_of_list_ascii
    (map (fun i => b64_char (N.land (N.shiftr x (6 * N.of_nat i)) 63))
       (rev (seq (4 - k) k))).

Fixpoint encode64 (s : string) : string :=
  match s with
  | String a (String b (String c s')) =>
      (sextets (N_of_ascii a * 65536 + N_of_ascii b * 256 + N_of_ascii c) 4
         ++ encode64 s')%string
  | String a (String b EmptyString) =>
      (sextets (N_of_ascii a * 65536 + N_of_ascii b * 256) 3 ++ "=")%string
  | String a EmptyString =>
      (sextets (N_of_ascii a * 65536) 2 ++ "==")%string
  | EmptyString => EmptyString
  end.

Definition octets (x : N) (k : nat) : string :=
  string_of_list_ascii
    (map (fun i => ascii_of_N (N.land (N.shiftr x (8 * N.of_nat i)) 255))
       (rev (seq (3 - k) k))).

Definition pack (a b c d : N) : N := (a * 262144 + b * 4096 + c * 64 + d)%N.

Fixpoint decode64 (s : string) : option string :=
  match s with
  | EmptyString => Some EmptyString
  | String a (String b (String c (String d s'))) =>
      match b64_index a, b64_index b with
      | Some x, Some y =>
          match b64_index c, b64_index d, s' with
          | Some z, Some w, _ =>
              option_map (String.append (octets (pack x y z w) 3)) (decode64 s')
          | Some z, None, EmptyString =>
              if Ascii.eqb d "=" then Some (octets (pack x y z 0) 2) else None
          | None, None, EmptyString =>
              if Ascii.eqb c "=" && Ascii.eqb d "=" then Some (octets (pack x y 0 0) 1)
              else None
          | _, _, _ => None
          end
      | _, _ => None
      end
  | _ => None
  end.

(** UTF-8: the well-formed byte sequences *)
Definition in_range (lo hi : N) (c : ascii) : bool :=
  let n := N_of_ascii c in (lo <=? n)%N && (n <=? hi)%N.

Fixpoint utf8_valid (fuel : nat) (s : string) : bool :=
  match fuel with
  | O => match s with EmptyString => true | _ => false end
  | S fuel' =>
      match s with
      | EmptyString => true
      | String a s1 =>
          if in_range 0 127 a then utf8_valid fuel' s1
          else
            match s1 with
            | String b s2 =>
                if in_range 194 223 a && in_range 128 191 b then utf8_valid fuel' s2
                else
                  match s2 with
                  | String c s3 =>
                      if (in_range 224 224 a && in_range 160 191 b
                          || in_range 225 236 a && in_range 128 191 b
                          || in_range 237 237 a && in_range 128 159 b
                          || in_range 238 239 a && in_range 128 191 b)
                         && in_range 128 191 c
                      then utf8_valid fuel' s3
                      else
                        match s3 with
                        | String d s4 =>
                            (in_range 240 240 a && in_range 144 191 b
                             || in_range 241 243 a && in_range 128 191 b
                             || in_range 244 244 a && in_range 128 143 b)
                            && in_range 128 191 c && in_range 128 191 d
                            && utf8_valid fuel' s4
                        | EmptyString => false
                        end
                  | EmptyString => false
                  end
            | EmptyString => false
            end
      end
  end.

Definition decode_utf8 (s : string) : option string :=
  if utf8_valid (String.length s) s then Some s else None.

(** [json.dumps] *)
Definition backslash : string := "\".

Definition hex_char (n : N) : ascii :=
  match String.get (N.to_nat n) "0123456789abcdef" with
  | Some c => c
  | None => "0"%char
  end.

Definition escape_char (c : ascii) : string :=
  let n := N_of_ascii c in
  if (n =? 34)%N then (backslash ++ quote)%string
  else if (n =? 92)%N then (backslash ++ backslash)%string
  else if (n =? 8)%N then "\b"
  else if (n =? 9)%N then "\t"
  else if (n =? 10)%N then "\n"
  else if (n =? 12)%N then "\f"
  else if (n =? 13)%N then "\r"
  else if (n <? 32)%N then
    ("\u00" ++ String (hex_char (n / 16)) (String (hex_char (n mod 16)) ""))%string
  else String c "".

Fixpoint escape (s : string) : string :=
  match s with
  | EmptyString => EmptyString
  | String c s' => (escape_char c ++ escape s')%string
  end.

Definition zeros (n : nat) : string := String.concat "" (repeat "0" n).

Definition dumps_float (f : pyfloat) : string :=
  match f with
  | FInf false => "Infinity"
  | FInf true => "-Infinity"
  | FFin m e =>
      if 0 <=? e then (str_of_Z (m * 2 ^ e) ++ ".0")%string
      else
        let k := - e in
        let a := Z.abs m in
        let digits := str_of_Z ((a mod 2 ^ k) * 5 ^ k) in
        ((if (m <? 0)%Z then "-" else "") ++ str_of_Z (a / 2 ^ k) ++ "."
           ++ zeros (Z.to_nat k - String.length digits)%nat ++ digits)%string
  end.

Fixpoint dumps (v : value) : string :=
  match v with
  | VNone => "null"
  | VBool true => "true"
  | VBool false => "false"
  | VInt z => str_of_Z z
  | VFloat f => dumps_float f
  | VStr s => quoted (escape s)
  | VList l =>
      ("["
         ++ (fix items (l : list value) : string :=
               match l with
               | [] => ""
               | x :: l' =>
                   dumps x ++ match l' with [] => "" | _ => ", " ++ items l' end
               end) l
         ++ "]")%string
  | VDict d =>
      ("{"
         ++ (fix members (d : list (string * value)) : string :=
               match d with
               | [] => ""
               | (k, x) :: d' =>
                   quoted (escape k) ++ ": " ++ dumps x
                     ++ match d' with [] => "" | _ => ", " ++ members d' end
               end) d
         ++ "}")%string
  end.

(** [json.loads] *)
Definition is_json_space (c : ascii) : bool :=
  let n := N_of_ascii c in
  (n =? 32)%N || (n =? 9)%N || (n =? 10)%N || (n =? 13)%N.

Fixpoint skip_ws (s : string) : string :=
  match s with
  | String c s' => if is_json_space c then skip_ws s' else s
  | EmptyString => EmptyString
  end.

Definition hex_value (c : ascii) : option N :=
  let n := N_of_ascii (lower_ascii c) in
  if is_digit c then Some (n - 48)%N
  else if is_hex_letter c then Some (n - 87)%N
  else None.

Definition unescape (c : ascii) : option ascii :=
  let n := N_of_ascii c in
  if (n =? 34)%N || (n =? 92)%N || (n =? 47)%N then Some c
  else if Ascii.eqb c "b" then Some (ascii_of_N 8)
  else if Ascii.eqb c "f" then Some (ascii_of_N 12)
  else if Ascii.eqb c "n" then Some (ascii_of_N 10)
  else if Ascii.eqb c "r" then Some (ascii_of_N 13)
  else if Ascii.eqb c "t" then Some (ascii_of_N 9)
  else None.

(** The text of a string up to its closing quote, and what follows *)
Fixpoint string_body (s : string) : option (string * string) :=
  match s with
  | EmptyString => None
  | String c s' =>
      if (N_of_ascii c =? 34)%N then Some (EmptyString, s')
      else if (N_of_ascii c <? 32)%N then None
      else if (N_of_ascii c =? 92)%N then
        match s' with
        | String "u" (String h1 (String h2 (String h3 (String h4 s'')))) =>
            match hex_value h1, hex_value h2, hex_value h3, hex_value h4 with
            | Some 0%N, Some 0%N, Some x, Some y =>
                if (x <? 8)%N then
                  option_map (fun p => (String (ascii_of_N (16 * x + y)) (fst p), snd p))
                    (string_body s'')
                else None
            | _, _, _, _ => None
            end
        | String e s'' =>
            match unescape e with
            | Some c' =>
                option_map (fun p => (String c' (fst p), snd p)) (string_body s'')
            | None => None
            end
        | EmptyString => None
        end
      else option_map (fun p => (String c (fst p), snd p)) (string_body s')
  end.

Fixpoint take_digits (acc : Z) (s : string) : Z * string :=
  match s with
  | String c s' =>
      if is_digit c then take_digits (10 * acc + Z.of_N (N_of_ascii c - 48)) s'
      else (acc, s)
  | EmptyString => (acc, s)
  end.

(** An integer: no leading zero, and no fraction or exponent after it *)
Definition natural (s : string) : option (Z * string) :=
  match s with
  | String c s' =>
      if is_digit c then
        let (z, rest) :=
          if Ascii.eqb c "0" then (0, s') else take_digits 0 s in
        match rest with
        | String d _ =>
            if is_digit d || Ascii.eqb d "." || Ascii.eqb d "e" || Ascii.eqb d "E"
            then None else Some (z, rest)
        | EmptyString => Some (z, rest)
        end
      else None
  | EmptyString => None
  end.

Definition keyword (k : string) (v : value) (s : string) : option (value * string) :=
  if String.prefix k s
  then Some (v, String.substring (String.length k) (String.length s - String.length k)%nat s)
  else None.

Definition scalar (s : string) : option (value * string) :=
  match s with
  | String c s' =>
      if (N_of_ascii c =? 34)%N then
        option_map (fun p => (VStr (fst p), snd p)) (string_body s')
      else if Ascii.eqb c "-" then
        match keyword "Infinity" (VFloat (FInf true)) s' with
        | Some r => Some r
        | None => option_map (fun p => (VInt (- fst p), snd p)) (natural s')
        end
      else if Ascii.eqb c "n" then keyword "null" VNone s
      else if Ascii.eqb c "t" then keyword "true" (VBool true) s
      else if Ascii.eqb c "f" then keyword "false" (VBool false) s
      else if Ascii.eqb c "I" then keyword "Infinity" (VFloat (FInf false)) s
      else option_map (fun p => (VInt (fst p), snd p)) (natural s)
  | EmptyString => None
  end.

(** A repeated key keeps its place and takes the last value. *)
Fixpoint dict_set (k : string) (v : value) (d : list (string * value))
  : list (string * value) :=
  match d with
  | [] => [(k, v)]
  | (k', v') :: d' =>
      if String.eqb k k' then (k, v) :: d' else (k', v') :: dict_set k v d'
  end.

Section Containers.

Variable parse : string -> option (value * string).

Fixpoint elements (n : nat) (acc : list value) (s : string)
  : option (list value * string) :=
  match n with
  | O => None
  | S n' =>
      match parse s with
      | Some (v, r) =>
          match skip_ws r with
          | String "," r' => elements n' (acc ++ [v]) r'
          | String "]" r' => Some (acc ++ [v], r')
          | _ => None
          end
      | None => None
      end
  end.

Fixpoint members (n : nat) (acc : list (string * value)) (s : string)
  : option (list (string * value) * string) :=
  match n with
  | O => None
  | S n' =>
      match skip_ws s with
      | String c s1 =>
          if (N_of_ascii c =? 34)%N then
            match string_body s1 with
            | Some (k, s2) =>
                match skip_ws s2 with
                | String ":" s3 =>
                    match parse s3 with
                    | Some (v, r) =>
                        match skip_ws r with
                        | String "," r' => members n' (dict_set k v acc) r'
                        | String "}" r' => Some (dict_set k v acc, r')
                        | _ => None
                        end
                    | None => None
                    end
                | _ => None
                end
            | None => None
            end
          else None
      | EmptyString => None
      end
  end.

End Containers.

(** [depth] bounds the nesting of lists and objects. *)
Fixpoint parse_value (depth : nat) (s : string) : option (value * string) :=
  match depth with
  | O => None
  | S depth' =>
      match skip_ws s with
      | String "[" r =>
          match skip_ws r with
          | String "]" r' => Some (VList [], r')
          | _ =>
              option_map (fun p => (VList (fst p), snd p))
                (elements (parse_value depth') (String.length r) [] r)
          end
      | String "{" r =>
          match skip_ws r with
          | String "}" r' => Some (VDict [], r')
          | _ =>
              option_map (fun p => (VDict (fst p), snd p))
                (members (parse_value depth') (String.length r) [] r)
          end
      | t => scalar t
      end
  end.

Definition loads (s : string) : option value :=
  match parse_value (S (String.length s)) s with
  | Some (v, r) =>
      match skip_ws r with EmptyString => Some v | _ => None end
  | None => None
  end.

Definition pylib : PyLib := {|
  b64encode := encode64;
  b64decode := decode64;
  utf8_decode := decode_utf8;
  json_dumps := dumps;
  json_loads := loads
|}.

End PyRef.

(* ================================================================= *)
(** ** Definitions used by the statements *)

(** The loader's decoding chain returns the document that the offline
    adapter encodes. *)
Definition library_round_trip (lib : PyLib) (doc : value) : Prop :=
  and_then (b64decode lib (b64encode lib (json_dumps lib doc)))
    (fun raw => and_then (utf8_decode lib raw) (json_loads lib)) = Some doc.

(** [doc] with the field [k] set to [v] *)
Fixpoint set_binding (k : string) (v : value) (d : list (string * value))
  : list (string * value) :=
  match d with
  | [] => [(k, v)]
  | (k', v') :: d' =>
      if String.eqb k k' then (k, v) :: d' else (k', v') :: set_binding k v d'
  end.

Definition set_field (k : string) (v : value) (doc : value) : value :=
  match doc with
  | VDict d => VDict (set_binding k v d)
  | _ => doc
  end.

Definition no_environ : Environ := fun _ => None.

(** The sample with another author *)
Definition altered_sample : value :=
  set_field "commit_author" (VStr "someone-else") SAMPLE_ANALYSIS.

(** The sample with a newline after its commit id *)
Definition newline_sha : string :=
  String.append "0f4b0c1e2a3b4c5d6e7f8a9b0c1d2e3f4a5b6c7d" (String newline EmptyString).

Definition newline_sample : value :=
  set_field "target_commit_sha" (VStr newline_sha) SAMPLE_ANALYSIS.

(** The characters of a string *)
Definition chars (s : string) : list ascii := list_ascii_of_string s.

(** The text that the loader decodes from the adapter's payload:
    [base64.b64decode(file_data.get("content", "")).decode("utf-8")],
    [None] where one of the steps raises. *)
Definition decoded_content (lib : PyLib) (file_data : value) : option string :=
  match file_data with
  | VDict d =>
      match (match lookup "content" d with Some x => x | None => VStr "" end) with
      | VStr s => and_then (b64decode lib s) (utf8_decode lib)
      | _ => None
      end
  | _ => None
  end.

(** *** The parameter validator, said in terms of the document *)

(** Every change recorded in [parameter_changes] is an object. *)
Definition entries_are_dicts (pc : list (string * value)) : bool :=
  forallb (fun kv => match snd kv with VDict _ => true | _ => false end) pc.

(** [param_changes.get(param, {}).get(field)] *)
Definition field_of (pc : list (string * value)) (param field : string) : value :=
  match lookup param pc with
  | Some (VDict c) => match lookup field c with Some v => v | None => VNone end
  | _ => VNone
  end.

(** The completeness pass: every required parameter is recorded with its
    three fields. *)
Definition complete (required : list string) (pc : list (string * value)) : bool :=
  forallb
    (fun param =>
       match lookup param pc with
       | Some (VDict c) =>
           has_key "before" c && has_key "after" c && has_key "line_number" c
       | _ => false
       end) required.

(** [before] and [after] equal the expected ones under [==] *)
Definition as_expected (pc : list (string * value)) (pe : string * Expected) : bool :=
  py_eq (field_of pc (fst pe) "before") (exp_before (snd pe))
  && py_eq (field_of pc (fst pe) "after") (exp_after (snd pe)).

(** A bound of a range, when it is a number *)
Definition bound (ranges : value) (k : string) : option pyfloat :=
  match ranges with
  | VDict r => and_then (lookup k r) as_num
  | _ => None
  end.

(** [before] is a number with [min_before <= before <= max_before] *)
Definition in_range (pc : list (string * value)) (item : string * value) : bool :=
  match as_num (field_of pc (fst item) "before"),
        bound (snd item) "min_before", bound (snd item) "max_before" with
  | Some b, Some lo, Some hi => num_leb lo b && num_leb b hi
  | _, _, _ => false
  end.

Definition numeric_ranges (items : list (string * value)) : bool :=
  forallb
    (fun item =>
       match bound (snd item) "min_before", bound (snd item) "max_before" with
       | Some _, Some _ => true
       | _, _ => false
       end) items.

(** The [before] of every ranged parameter is a number or is missing. *)
Definition numeric_befores (pc : list (string * value))
    (items : list (string * value)) : bool :=
  forallb
    (fun item =>
       match field_of pc (fst item) "before" with
       | VNone => true
       | v => match as_num v with Some _ => true | None => false end
       end) items.

(** A validator answers [b], and prints one diagnostic exactly when it
    answers [False]. *)
Definition verdict (m : M bool) (b : bool) : Prop :=
  if b then m = (Ret true, []) else exists d, m = (Ret false, [Stderr d]).

Definition with_mode (mode : string) (c : Config) : Config := {|
  GITHUB_TOKEN_VAR := GITHUB_TOKEN_VAR c;
  REPO_OWNER_VAR := REPO_OWNER_VAR c;
  REPO_NAME_VAR := REPO_NAME_VAR c;
  ENV_FILE_PATH := ENV_FILE_PATH c;
  TARGET_FILE_PATH := TARGET_FILE_PATH c;
  ANALYSIS_FILE_NAME := ANALYSIS_FILE_NAME c;
  ANALYSIS_FILE_FORMAT := ANALYSIS_FILE_FORMAT c;
  REQUIRED_PARAMETERS := REQUIRED_PARAMETERS c;
  VALIDATION_MODE := mode;
  EXPECTED_VALUES := EXPECTED_VALUES c;
  RANGE_CONFIG := RANGE_CONFIG c;
  KEYWORDS := KEYWORDS c;
  INCLUDE_PR := INCLUDE_PR c;
  ALLOW_EMPTY_ISSUES := ALLOW_EMPTY_ISSUES c;
  STRICT_ISSUE_MATCH := STRICT_ISSUE_MATCH c;
  VERIFY_COMMIT := VERIFY_COMMIT c;
  VERIFY_PARAMETERS := VERIFY_PARAMETERS c;
  VERIFY_ISSUES := VERIFY_ISSUES c;
  DATE_FORMAT := DATE_FORMAT c
|}.

(** The parameter changes of the sample with [before] as given *)
Definition changes_with_before (update experience : value) : list (string * value) :=
  [("micro_batch_size_per_device_for_update",
    VDict [("before", update); ("after", VInt 2); ("line_number", VInt 120)]);
   ("micro_batch_size_per_device_for_experience",
    VDict [("before", experience); ("after", VInt 4); ("line_number", VInt 130)])].

Definition document_with_before (update experience : value) : list (string * value) :=
  [("parameter_changes", VDict (changes_with_before update experience))].

(** 4.0 and 8.0 *)
Definition four_point_zero : value := VFloat (FFin 1 2).
Definition eight_point_zero : value := VFloat (FFin 1 3).

(** *** Issues and pages *)

(** An issue object whose title, when present, is text and whose body,
    when present and not empty, is text. *)
Definition text_ok (d : list (string * value)) : bool :=
  match lookup "title" d with
  | None | Some (VStr _) => true
  | _ => false
  end
  && match lookup "body" d with
     | None | Some (VStr _) => true
     | Some v => negb (truthy v)
     end.


(** An item of the issue listing: an issue object with a hashable number *)
Definition listed_issue (v : value) : bool :=
  match v with
  | VDict d =>
      text_ok d
      && match lookup "number" d with Some n => hashable n | None => true end
  | _ => false
  end.

(** The lowered text of an issue object *)
Definition text_of (d : list (string * value)) : string :=
  lower
    ((match lookup "title" d with Some (VStr t) => t | _ => "" end ++ " ")
     ++ match lookup "body" d with Some (VStr b) => b | _ => "" end)%string.

(** The answer of the adapter ends the pagination: the fetch failed, the
    payload is empty, or it is a list of fewer than 100 items. *)
Definition stops_at (answer : M (bool * value)) : bool :=
  match answer with
  | (Ret (success, data), _) =>
      negb success || negb (truthy data)
      || (is_list data && (list_len data <? 100))
  | _ => false
  end.

(** The answer is a list of at least 100 listed issues. *)
Definition full_page (answer : M (bool * value)) : bool :=
  match answer with
  | (Ret (true, VList l), _) =>
      (100 <=? Z.of_nat (List.length l)) && forallb listed_issue l
  | _ => false
  end.

(** [m] after the lines [w] *)
Definition prepend {A} (w : list event) (m : M A) : M A := (fst m, w ++ snd m).

(** A run that ends, with a result or an exception *)
Definition terminates {A} (m : M A) : Prop := result m <> Diverge.

(** A [requests] module for a listing of two pages: the first answer is
    an object, not a list; the second is a list of one issue. *)
Definition listing_url (page : string) : string :=
  ("https://api.github.com/repos/o/r/issues?state=all&per_page=100&page=" ++ page)%string.

Definition issue_7 : value :=
  VDict [("number", VInt 7); ("title", VStr "oom again"); ("body", VNone)].

Definition object_then_list : Requests :=
  fun url _ =>
    if String.eqb url (listing_url "1") then
      Some {| status_code := 200; text := "";
              json := Some (VDict [("pull_request", VDict [])]) |}
    else if String.eqb url (listing_url "2") then
      Some {| status_code := 200; text := ""; json := Some (VList [issue_7]) |}
    else Some {| status_code := 404; text := ""; json := None |}.

(** *** The two sets of issues *)

(** [set(issue_list)]: the numbers of the list, duplicates collapsed *)
Definition set_insert (s : pyset) (v : value) : pyset :=
  if set_mem v s then s else s ++ [v].

Definition set_of (l : list value) : pyset := fold_left set_insert l [].

(** What [reconcile] prints for the two differences *)
Definition report (missing extra : pyset) : list event :=
  (if nonempty missing then [Stderr (MissingIssues missing)] else [])
  ++ (if nonempty extra then [Stderr (ExtraIssues extra)] else []).

Definition with_strict_issue_match (strict : string) (c : Config) : Config := {|
  GITHUB_TOKEN_VAR := GITHUB_TOKEN_VAR c;
  REPO_OWNER_VAR := REPO_OWNER_VAR c;
  REPO_NAME_VAR := REPO_NAME_VAR c;
  ENV_FILE_PATH := ENV_FILE_PATH c;
  TARGET_FILE_PATH := TARGET_FILE_PATH c;
  ANALYSIS_FILE_NAME := ANALYSIS_FILE_NAME c;
  ANALYSIS_FILE_FORMAT := ANALYSIS_FILE_FORMAT c;
  REQUIRED_PARAMETERS := REQUIRED_PARAMETERS c;
  VALIDATION_MODE := VALIDATION_MODE c;
  EXPECTED_VALUES := EXPECTED_VALUES c;
  RANGE_CONFIG := RANGE_CONFIG c;
  KEYWORDS := KEYWORDS c;
  INCLUDE_PR := INCLUDE_PR c;
  ALLOW_EMPTY_ISSUES := ALLOW_EMPTY_ISSUES c;
  STRICT_ISSUE_MATCH := strict;
  VERIFY_COMMIT := VERIFY_COMMIT c;
  VERIFY_PARAMETERS := VERIFY_PARAMETERS c;
  VERIFY_ISSUES := VERIFY_ISSUES c;
  DATE_FORMAT := DATE_FORMAT c
|}.

(** A document that lists issue 101 twice and leaves out issue 102 *)
Definition document_101_twice : list (string * value) :=
  [("related_issue_number_list", VList [VInt 101; VInt 101])].

(** *** Inputs of the expected shape *)




(** In range mode the range table parses to numeric bounds and the
    ranged [before] values are numbers or missing. *)
Definition range_ready (lib : PyLib) (cfg : Config) (pc : list (string * value))
  : bool :=
  if String.eqb (VALIDATION_MODE cfg) "range" then
    match json_loads lib (RANGE_CONFIG cfg) with
    | Some (VDict items) => numeric_ranges items && numeric_befores pc items
    | _ => false
    end
  else true.

Definition get_or (k : string) (default : value) (d : list (string * value)) : value :=
  match lookup k d with Some v => v | None => default end.

(** A commit object as [verify_commit_data] reads it: [author] is an
    object, and when it has no login, [commit] and [commit.author] are
    objects. *)
Definition commit_shaped (v : value) : bool :=
  match v with
  | VDict d =>
      match get_or "author" (VDict []) d with
      | VDict a =>
          truthy (get_or "login" VNone a)
          || match get_or "commit" (VDict []) d with
             | VDict c =>
                 match get_or "author" (VDict []) c with
                 | VDict _ => true
                 | _ => false
                 end
             | _ => false
             end
      | _ => false
      end
  | _ => false
  end.


(** [isinstance(v, int) and v > 0] *)
Definition valid_issue_number (v : value) : bool :=
  match v with
  | VInt z => 0 <? z
  | VBool b => b
  | _ => false
  end.





(** A [requests] module that answers every call with a commit whose
    author has no account: [author] is null. *)
Definition commit_without_account : Requests :=
  fun _ _ =>
    Some {| status_code := 200; text := "";
            json := Some (VDict
              [("sha", VStr "0f4b0c1e2a3b4c5d6e7f8a9b0c1d2e3f4a5b6c7d");
               ("author", VNone);
               ("commit",
                VDict [("author",
                        VDict [("name", VStr "example-author");
                               ("date", VStr "2025-09-10")])])]) |}.

(** The fields of an object *)
Definition fields_of (v : value) : list (string * value) :=
  match v with VDict d => d | _ => [] end.

(** The adapter for fixed credentials and mode, and its answer for a
    page of the issue listing *)
Definition adapter (lib : PyLib) (sample : value) (requests : option Requests)
    (token : option string) (owner repo : string) (mock : bool)
    (endpoint : string) : M (bool * value) :=
  github_api_request lib sample requests endpoint token owner repo mock.

Definition fetch_page (lib : PyLib) (sample : value) (requests : option Requests)
    (token : option string) (owner repo : string) (mock : bool)
    (page : Z) : M (bool * value) :=
  adapter lib sample requests token owner repo mock (page_endpoint page).

(** *** The request sent online *)

(** The URL and the headers that the adapter passes to [requests.get] *)
Definition online_url (owner repo endpoint : string) : string :=
  ("https://api.github.com/repos/" ++ owner ++ "/" ++ repo ++ "/" ++ endpoint)%string.

Definition online_headers (token : option string) : list (string * string) :=
  [("Authorization", ("token " ++ str_of_token token)%string);
   ("Accept", "application/vnd.github.v3+json")].

(** *** Decimal numerals *)

(** The number that the digits [d] write after the number [acc] *)
Fixpoint uint_value (acc : Z) (d : Decimal.uint) : Z :=
  match d with
  | Decimal.Nil => acc
  | Decimal.D0 d' => uint_value (10 * acc) d'
  | Decimal.D1 d' => uint_value (10 * acc + 1) d'
  | Decimal.D2 d' => uint_value (10 * acc + 2) d'
  | Decimal.D3 d' => uint_value (10 * acc + 3) d'
  | Decimal.D4 d' => uint_value (10 * acc + 4) d'
  | Decimal.D5 d' => uint_value (10 * acc + 5) d'
  | Decimal.D6 d' => uint_value (10 * acc + 6) d'
  | Decimal.D7 d' => uint_value (10 * acc + 7) d'
  | Decimal.D8 d' => uint_value (10 * acc + 8) d'
  | Decimal.D9 d' => uint_value (10 * acc + 9) d'
  end.

(** The result of the offline single-issue lookup for the number [z] *)
Definition mock_issue (z : Z) : bool * value :=
  if z =? 101 then (true, issue_101)
  else if z =? 102 then (true, issue_102)
  else (false, VNone).

(** The offline issues whose text has a keyword *)
Definition mock_relevant (keywords : list string) : pyset :=
  (if has_keyword keywords (text_of (fields_of issue_101)) then [VInt 101] else [])
  ++ (if has_keyword keywords (text_of (fields_of issue_102)) then [VInt 102] else []).

(** *** The commit validator, said in terms of the document *)

(** The author that the validator compares with [commit_author]: the
    login of the linked account, or without one the name recorded in
    the commit. *)
Definition actual_author (commit_data : value) : value :=
  let login :=
    get_or "login" VNone
      (fields_of (get_or "author" (VDict []) (fields_of commit_data))) in
  if truthy login then login
  else
    get_or "name" VNone
      (fields_of
         (get_or "author" (VDict [])
            (fields_of (get_or "commit" (VDict []) (fields_of commit_data))))).

(** The checks that follow the fetch of the commit, in their order *)
Definition commit_verdict (cfg : Config) (sha : string) (d : list (string * value))
    (success : bool) (payload : value) (date : string) : M bool :=
  if negb success || negb (truthy payload) then
    (Ret false, [Stderr (CommitNotFound sha)])
  else if negb (py_eq (get_or "commit_author" VNone d) (actual_author payload)) then
    (Ret false,
     [Stderr (AuthorMismatch (get_or "commit_author" VNone d) (actual_author payload))])
  else if negb (DATE_FORMAT cfg date) then
    (Ret false, [Stderr (InvalidDateFormat (VStr date))])
  else (Ret true, []).

(** [n] digits *)
Definition digits_n (n : nat) (s : string) : Prop :=
  String.length s = n /\ forallb is_digit (chars s) = true.

Definition date_text (y m dd : string) : string :=
  (y ++ "-" ++ m ++ "-" ++ dd)%string.

(** A [requests] module that answers every call with the given body *)
Definition always_200 (body : value) : Requests :=
  fun _ _ => Some {| status_code := 200; text := ""; json := Some body |}.

(** Two commits of the same author with different ids and dates *)
Definition commit_of (sha date : string) : value :=
  VDict [("sha", VStr sha);
         ("author", VDict [("login", VStr "example-author")]);
         ("commit", VDict [("author", VDict [("date", VStr date)])])].

(** Text of ASCII characters only *)
Definition ascii_text (s : string) : bool :=
  forallb (fun c => (N_of_ascii c <? 128)%N) (chars s).

(** *** The parameter validator in every mode *)

(** [before != after] for a parameter *)
Definition changed (pc : list (string * value)) (param : string) : bool :=
  negb (py_eq (field_of pc param "before") (field_of pc param "after")).

(** A parameter is recorded with its three fields. *)
Definition entry_complete (pc : list (string * value)) (param : string) : bool :=
  complete [param] pc.

(** [parameter_changes] of the document is the object [pc]; a document
    without the key counts as one with an empty object. *)
Definition changes_are (d pc : list (string * value)) : Prop :=
  lookup "parameter_changes" d = Some (VDict pc)
  \/ (lookup "parameter_changes" d = None /\ pc = []).

(** The mode-specific pass *)
Definition mode_pass (lib : PyLib) (cfg : Config) (pc : list (string * value))
  : bool :=
  if String.eqb (VALIDATION_MODE cfg) "exact" then
    forallb (as_expected pc) (EXPECTED_VALUES cfg)
  else if String.eqb (VALIDATION_MODE cfg) "any" then
    forallb (changed pc) (REQUIRED_PARAMETERS cfg)
  else if String.eqb (VALIDATION_MODE cfg) "range" then
    match json_loads lib (RANGE_CONFIG cfg) with
    | Some (VDict items) => forallb (in_range pc) items
    | _ => false
    end
  else false.

(** The sample's changes with null line numbers, an extra field and an
    extra parameter *)
Definition changes_with_noise : list (string * value) :=
  [("micro_batch_size_per_device_for_update",
    VDict [("before", VInt 4); ("after", VInt 2); ("line_number", VNone);
           ("comment", VStr "x")]);
   ("micro_batch_size_per_device_for_experience",
    VDict [("before", VInt 8); ("after", VInt 4); ("line_number", VStr "?")]);
   ("learning_rate", VDict [("before", VInt 1)])].

(** The names of the parameters that the validator looks up: the
    required ones, the ones with expected values and the ranged ones *)
Definition looked_up (lib : PyLib) (cfg : Config) : list string :=
  REQUIRED_PARAMETERS cfg
  ++ map fst (EXPECTED_VALUES cfg)
  ++ match json_loads lib (RANGE_CONFIG cfg) with
     | Some (VDict items) => map fst items
     | _ => []
     end.

(** *** What the listing collects *)

(** [item.get("number")] *)
Definition number_of (item : value) : value :=
  get_or "number" VNone (fields_of item).

(** The number of the item is the integer [n]. *)
Definition numbered (n : Z) (item : value) : bool :=
  match number_of item with
  | VInt m => m =? n
  | _ => false
  end.

Definition int_numbered (item : value) : bool :=
  match number_of item with
  | VInt _ => true
  | _ => false
  end.

(** The item counts: it is not a pull request, unless pull requests are
    included, and a keyword occurs in its lowered title and body. *)
Definition relevant (include_pr : bool) (keywords : list string) (item : value)
  : bool :=
  match item with
  | VDict d =>
      negb (negb include_pr && has_key "pull_request" d)
      && has_keyword keywords (text_of d)
  | _ => false
  end.

(** A page of three items: an issue about memory, a pull request about
    memory and an issue about something else *)
Definition mixed_page : list value :=
  [VDict [("number", VInt 1); ("title", VStr "Out of MEMORY"); ("body", VNone)];
   VDict [("number", VInt 2); ("title", VStr "fix memory leak");
          ("pull_request", VDict [])];
   VDict [("number", VInt 3); ("title", VStr "typo"); ("body", VStr "in readme")]].

Definition with_keywords (keywords : list string) (c : Config) : Config := {|
  GITHUB_TOKEN_VAR := GITHUB_TOKEN_VAR c;
  REPO_OWNER_VAR := REPO_OWNER_VAR c;
  REPO_NAME_VAR := REPO_NAME_VAR c;
  ENV_FILE_PATH := ENV_FILE_PATH c;
  TARGET_FILE_PATH := TARGET_FILE_PATH c;
  ANALYSIS_FILE_NAME := ANALYSIS_FILE_NAME c;
  ANALYSIS_FILE_FORMAT := ANALYSIS_FILE_FORMAT c;
  REQUIRED_PARAMETERS := REQUIRED_PARAMETERS c;
  VALIDATION_MODE := VALIDATION_MODE c;
  EXPECTED_VALUES := EXPECTED_VALUES c;
  RANGE_CONFIG := RANGE_CONFIG c;
  KEYWORDS := keywords;
  INCLUDE_PR := INCLUDE_PR c;
  ALLOW_EMPTY_ISSUES := ALLOW_EMPTY_ISSUES c;
  STRICT_ISSUE_MATCH := STRICT_ISSUE_MATCH c;
  VERIFY_COMMIT := VERIFY_COMMIT c;
  VERIFY_PARAMETERS := VERIFY_PARAMETERS c;
  VERIFY_ISSUES := VERIFY_ISSUES c;
  DATE_FORMAT := DATE_FORMAT c
|}.

(** 101.0 *)
Definition float_101 : value := VFloat (FFin 101 0).

(** *** The driver *)

(** The mode in which [main] runs: offline when asked for, and also when
    there is no token *)
Definition effective_mock (token : option string) (args_mock : bool) : bool :=
  args_mock || token_missing token.

(** The warning printed when the mode is switched *)
Definition preamble (token : option string) (args_mock : bool) : list event :=
  if token_missing token && negb args_mock then [Stderr NoTokenWarning] else [].

Definition no_requests (requests : option Requests) : bool :=
  match requests with None => true | Some _ => false end.

Definition start_line : string :=
  "🔍 Starting GitHub configuration analysis verification...".
Definition loaded_line : string := "✅ Loaded analysis results".

(** A stage counts as passed when it is disabled or its validator
    answers [True]. *)
Definition stage_passed (enabled : string) (b : bool) : bool :=
  negb (toggle enabled) || b.

(** The lines of a stage whose validator printed [w] and answered [b] *)
Definition stage_lines (enabled title done : string) (b : bool) (w : list event)
  : list event :=
  if toggle enabled then
    [Stdout title] ++ w ++ (if b then [Stdout done] else [])
  else [].

Definition closing_lines (all_passed : bool) : list event :=
  [Stdout banner;
   Stdout (if all_passed then "✅ All verification checks passed!"
           else "❌ Some verification checks failed")].

(** An environment with a token *)
Definition token_environ : Environ :=
  fun name => if String.eqb name "MCP_GITHUB_TOKEN" then Some "t" else None.

(** The body of the file-contents answer for the document [{}] *)
Definition empty_document_body : value := VDict [("content", VStr "e30=")].

(** The bundled document with issue 102 left out of its list *)
Definition sample_without_102 : value :=
  set_field "related_issue_number_list" (VList [VInt 101]) SAMPLE_ANALYSIS.

(** A character that is neither white space nor a slash *)
Definition plain (c : ascii) : bool := negb (is_space c) && negb (Ascii.eqb c "/").

(** *** Values that every Python prints, text that [lower] lowers *)

Definition int_max_str_digits : Z := 4300.

(** [printable v]: no integer in [v] has more than 4300 decimal digits,
    so that [str(v)] and an f-string field for [v] do not raise. *)
Fixpoint printable (v : value) : bool :=
  match v with
  | VInt z =>
      Z.of_nat (String.length (str_of_Z (Z.abs z))) <=? int_max_str_digits
  | VList l => forallb printable l
  | VDict d => forallb (fun kv => printable (snd kv)) d
  | _ => true
  end.

(** The three UTF-8 bytes of a CJK ideograph, U+4E00 to U+9FFF: E4 B8 80
    to E9 BF BF.  These characters have no case. *)
Definition is_ideograph (c1 c2 c3 : ascii) : bool :=
  let n1 := N_of_ascii c1 in
  let n2 := N_of_ascii c2 in
  let n3 := N_of_ascii c3 in
  ((228 <=? n1)%N && (n1 <=? 233)%N)
  && ((128 <=? n2)%N && (n2 <=? 191)%N)
  && ((128 <=? n3)%N && (n3 <=? 191)%N)
  && (negb (n1 =? 228)%N || (184 <=? n2)%N).

(** [lower_exact s]: [s] is made of ASCII characters and CJK ideographs;
    on such text [lower] is [str.lower]. *)
Fixpoint lower_exact (s : string) : bool :=
  match s with
  | EmptyString => true
  | String c s1 =>
      if (N_of_ascii c <? 128)%N then lower_exact s1
      else
        match s1 with
        | String c2 (String c3 s3) => is_ideograph c c2 c3 && lower_exact s3
        | _ => false
        end
  end.

(** The text of a listed item is one that [lower] lowers. *)
Definition text_exact (item : value) : bool :=
  match item with
  | VDict d => lower_exact (text_of d)
  | _ => true
  end.

(** The values of the policy that a diagnostic may print *)
Definition expected_printable (cfg : Config) : bool :=
  forallb (fun pe => printable (exp_before (snd pe)) && printable (exp_after (snd pe)))
    (EXPECTED_VALUES cfg).




Definition is_dict (v : value) : bool :=
  match v with VDict _ => true | _ => false end.

(** A document of the expected shape that fails each validator: another
    author, a [before] that is not the expected one, and issue 102 left
    out. *)
Definition failing_document : list (string * value) :=
  set_binding "commit_author" (VStr "someone-else")
    (set_binding "parameter_changes"
       (VDict (changes_with_before (VInt 4) (VInt 3)))
       (set_binding "related_issue_number_list" (VList [VInt 101])
          (fields_of SAMPLE_ANALYSIS))).

(* ================================================================= *)
(** ** The monad *)

Lemma bind_ret_l {A B} (a : A) (f : A -> M B) : bind (ret a) f = f a.
Proof. unfold bind, ret. destruct (f a). reflexivity. Qed.

Lemma bind_ret_r {A} (m : M A) : bind m ret = m.
Proof.
  destruct m as [[a | e |] w]; cbn; [rewrite app_nil_r |..]; reflexivity.
Qed.

Lemma bind_Ret_nil {A B} (a : A) (f : A -> M B) : bind (Ret a, []) f = f a.
Proof. exact (bind_ret_l a f). Qed.

Lemma bind_Ret {A B} (a : A) (w : list event) (f : A -> M B) :
  bind (Ret a, w) f = (fst (f a), w ++ snd (f a)).
Proof. unfold bind. destruct (f a). reflexivity. Qed.

(* ================================================================= *)
(** ** The adapter offline *)

(** C10.  With [mock] set, the adapter's outcome (its pair, or the
    exception of an unreadable issue number) and what it prints are the
    same for any two credential triples, whatever the [requests] module
    is: the fixture depends on the endpoint alone. *)
Theorem mock_request_ignores_credentials :
  forall lib sample requests requests' endpoint
         token owner repo token' owner' repo',
    github_api_request lib sample requests endpoint token owner repo true
    = github_api_request lib sample requests' endpoint token' owner' repo' true.
Proof. intros. reflexivity. Qed.

(* ================================================================= *)
(** ** The format of a commit id *)

Lemma run_of_spec (cls : ascii -> bool) (n : nat) :
  forall s rest,
    run_of cls n s = Some rest <->
    exists h, s = String.append h rest /\ String.length h = n
              /\ forallb cls (chars h) = true.
Proof.
  induction n as [| n IH]; intros s rest; simpl.
  - split.
    + intros [= ->]. exists EmptyString. auto.
    + intros (h & -> & Hlen & _). destruct h; [reflexivity | discriminate].
  - destruct s as [| c s'].
    + split; [discriminate |].
      intros (h & Hs & Hlen & _). destruct h; discriminate.
    + destruct (cls c) eqn:Hc.
      * rewrite IH. split.
        -- intros (h & -> & Hlen & Hall). exists (String c h).
           simpl. rewrite Hc, Hlen. auto.
        -- intros (h & Hs & Hlen & Hall). destruct h as [| c' h]; [discriminate |].
           simpl in *. injection Hs as <- ->. injection Hlen as Hlen.
           exists h. apply andb_true_iff in Hall. tauto.
      * split; [discriminate |].
        intros (h & Hs & Hlen & Hall). destruct h as [| c' h]; [discriminate |].
        simpl in *. injection Hs as <- ->. rewrite Hc in Hall. discriminate.
Qed.

Lemma at_dollar_spec (s : string) :
  at_dollar s = true <-> s = EmptyString \/ s = String newline EmptyString.
Proof.
  destruct s as [| c [| c' s']]; simpl.
  - tauto.
  - rewrite Ascii.eqb_eq. split.
    + intros ->. auto.
    + intros [H | H]; [discriminate | congruence].
  - split; [discriminate | intros [H | H]; discriminate].
Qed.

(** What the check accepts: forty hexadecimal characters, and the same
    followed by one newline. *)
Lemma sha_format_ok_spec (s : string) :
  sha_format_ok s = true <->
  exists h, String.length h = 40%nat /\ forallb is_hex (chars h) = true
            /\ (s = h \/ s = String.append h (String newline EmptyString)).
Proof.
  unfold sha_format_ok. split.
  - destruct (run_of is_hex 40 s) as [rest |] eqn:Hrun; [| discriminate].
    intros Hend. apply run_of_spec in Hrun as (h & -> & Hlen & Hall).
    exists h. repeat split; trivial.
    apply at_dollar_spec in Hend as [-> | ->]; [left | right; reflexivity].
    clear. induction h; simpl; congruence.
  - intros (h & Hlen & Hall & Hs).
    assert (Hrun : exists rest, run_of is_hex 40 s = Some rest /\ at_dollar rest = true).
    { destruct Hs as [-> | ->].
      - exists EmptyString. split; [| reflexivity].
        apply run_of_spec. exists h. repeat split; trivial.
        clear. induction h; simpl; congruence.
      - exists (String newline EmptyString). split; [| reflexivity].
        apply run_of_spec. exists h. auto. }
    destruct Hrun as (rest & -> & Hend). exact Hend.
Qed.

(** C4.  The format check accepts the sample's commit id followed by a
    newline, a string of 41 characters, and offline the commit validator
    then runs to its end and passes the document that carries it. *)
Theorem sha_with_trailing_newline_accepted :
  String.length newline_sha = 41%nat
  /\ sha_format_ok newline_sha = true
  /\ forall lib requests token owner repo,
       verify_commit_data lib CONFIG SAMPLE_ANALYSIS requests
         newline_sample token owner repo true = (Ret true, []).
Proof. repeat split. Qed.

(* ================================================================= *)
(** ** The loader offline and the run on the sample *)

Lemma startswith_append (p s : string) : startswith (String.append p s) p = true.
Proof.
  unfold startswith. induction p as [| c p IH]; simpl.
  - destruct s; reflexivity.
  - destruct (ascii_dec c c); [exact IH | congruence].
Qed.

Lemma load_offline lib cfg sample requests token owner repo :
  ANALYSIS_FILE_FORMAT cfg = "json" ->
  library_round_trip lib sample ->
  load_analysis_results lib cfg sample requests token owner repo true
  = (Ret sample, []).
Proof.
  unfold library_round_trip, load_analysis_results, github_api_request.
  intros Hfmt Hrt. rewrite startswith_append, bind_ret_l.
  cbn [negb truthy orb].
  unfold decode_content, loads, py_get, try_except. cbn [lookup String.eqb Ascii.eqb Bool.eqb].
  rewrite bind_ret_l, Hfmt.
  destruct (b64decode lib _) as [raw |]; [| discriminate]. cbn [and_then] in Hrt.
  destruct (utf8_decode lib raw) as [content |]; [| discriminate]. cbn [and_then] in Hrt.
  rewrite bind_ret_l, Hrt. reflexivity.
Qed.

(** C1.  Offline, with the script's tables and a library that returns
    the sample from its own encoding, [main] loads the sample, each of
    the three validators passes it, nothing is printed on the error
    channel, and the exit status is 0. *)
Theorem sample_run_passes :
  forall lib requests environ fuel,
    library_round_trip lib SAMPLE_ANALYSIS ->
    (1 <= fuel)%nat ->
    let '(token, owner, repo) := get_github_credentials CONFIG environ in
    load_analysis_results lib CONFIG SAMPLE_ANALYSIS requests token owner repo true
      = (Ret SAMPLE_ANALYSIS, [])
    /\ verify_commit_data lib CONFIG SAMPLE_ANALYSIS requests
         SAMPLE_ANALYSIS token owner repo true = (Ret true, [])
    /\ verify_parameter_changes lib CONFIG SAMPLE_ANALYSIS = (Ret true, [])
    /\ verify_issues lib CONFIG SAMPLE_ANALYSIS requests fuel
         SAMPLE_ANALYSIS token owner repo true = (Ret true, [])
    /\ result (main lib CONFIG SAMPLE_ANALYSIS requests fuel environ true) = Ret 0
    /\ stderr_of (printed (main lib CONFIG SAMPLE_ANALYSIS requests fuel environ true)) = [].
Proof.
  intros lib requests environ fuel Hrt Hfuel.
  unfold main.
  destruct (get_github_credentials CONFIG environ) as [[token owner] repo].
  destruct fuel as [| fuel]; [lia |].
  replace (token_missing token && negb true) with false
    by (destruct (token_missing token); reflexivity).
  rewrite bind_ret_l. cbn [negb andb].
  rewrite (load_offline lib CONFIG SAMPLE_ANALYSIS requests token owner repo eq_refl Hrt).
  repeat split.
Qed.

Lemma sample_run_passes_witness :
  let '(token, owner, repo) := get_github_credentials CONFIG no_environ in
  load_analysis_results PyRef.pylib CONFIG SAMPLE_ANALYSIS None token owner repo true
    = (Ret SAMPLE_ANALYSIS, [])
  /\ verify_commit_data PyRef.pylib CONFIG SAMPLE_ANALYSIS None
       SAMPLE_ANALYSIS token owner repo true = (Ret true, [])
  /\ verify_parameter_changes PyRef.pylib CONFIG SAMPLE_ANALYSIS = (Ret true, [])
  /\ verify_issues PyRef.pylib CONFIG SAMPLE_ANALYSIS None 1
       SAMPLE_ANALYSIS token owner repo true = (Ret true, [])
  /\ result (main PyRef.pylib CONFIG SAMPLE_ANALYSIS None 1 no_environ true) = Ret 0
  /\ stderr_of (printed (main PyRef.pylib CONFIG SAMPLE_ANALYSIS None 1 no_environ true)) = [].
Proof.
  apply (sample_run_passes PyRef.pylib None no_environ 1).
  - vm_compute. reflexivity.
  - lia.
Defined.

(* ================================================================= *)
(** ** The sample with another author *)

(** C2, as stated, fails: the offline commit fixture takes its author
    from the bundled sample, so a run on a sample whose author was
    altered still passes the commit validator and exits with 0. *)
Lemma altered_sample_still_passes :
  load_analysis_results PyRef.pylib CONFIG altered_sample None
    None "example-owner" "example-repo" true = (Ret altered_sample, [])
  /\ verify_commit_data PyRef.pylib CONFIG altered_sample None
       altered_sample None "example-owner" "example-repo" true = (Ret true, [])
  /\ result (main PyRef.pylib CONFIG altered_sample None 1 no_environ true) = Ret 0.
Proof. repeat split. Qed.

(** The same holds for every non-empty author: the altered sample is
    loaded, the fixture's commit carries the altered author, and the
    run exits with 0. *)
Lemma altered_sample_passes lib requests environ fuel author :
  author <> "" ->
  library_round_trip lib (set_field "commit_author" (VStr author) SAMPLE_ANALYSIS) ->
  (1 <= fuel)%nat ->
  result (main lib CONFIG (set_field "commit_author" (VStr author) SAMPLE_ANALYSIS)
            requests fuel environ true) = Ret 0.
Proof.
  intros Hne Hrt Hfuel. apply String.eqb_neq in Hne.
  unfold main.
  destruct (get_github_credentials CONFIG environ) as [[token owner] repo].
  destruct fuel as [| fuel]; [lia |].
  replace (token_missing token && negb true) with false
    by (destruct (token_missing token); reflexivity).
  rewrite bind_ret_l. cbn [negb andb].
  rewrite (load_offline lib CONFIG _ requests token owner repo eq_refl Hrt).
  unfold main_checks, stage, verify_commit_data. cbn.
  rewrite Hne. cbn. rewrite String.eqb_refl. reflexivity.
Qed.

(** C2, amended.  A copy of the sample whose author differs from the
    sample's, checked offline against the fixture of the unaltered
    sample: the commit validator fails on the author, the parameter and
    the issue validators pass, and the stages of [main] on that document
    end with status 1. *)
Theorem altered_author_fails_commit_only :
  forall lib requests fuel author token owner repo,
    author <> "example-author" ->
    (1 <= fuel)%nat ->
    let doc := set_field "commit_author" (VStr author) SAMPLE_ANALYSIS in
    verify_commit_data lib CONFIG SAMPLE_ANALYSIS requests doc token owner repo true
      = (Ret false, [Stderr (AuthorMismatch (VStr author) (VStr "example-author"))])
    /\ verify_parameter_changes lib CONFIG doc = (Ret true, [])
    /\ verify_issues lib CONFIG SAMPLE_ANALYSIS requests fuel doc token owner repo true
       = (Ret true, [])
    /\ result (main_checks lib CONFIG SAMPLE_ANALYSIS requests fuel doc
                 token owner repo true) = Ret 1.
Proof.
  intros lib requests fuel author token owner repo Hne Hfuel doc.
  apply String.eqb_neq in Hne.
  destruct fuel as [| fuel]; [lia |].
  assert (Hcommit :
    verify_commit_data lib CONFIG SAMPLE_ANALYSIS requests doc token owner repo true
    = (Ret false, [Stderr (AuthorMismatch (VStr author) (VStr "example-author"))])).
  { unfold verify_commit_data. cbn. rewrite Hne. reflexivity. }
  assert (Hparams : verify_parameter_changes lib CONFIG doc = (Ret true, []))
    by reflexivity.
  assert (Hissues :
    verify_issues lib CONFIG SAMPLE_ANALYSIS requests (S fuel) doc token owner repo true
    = (Ret true, [])) by reflexivity.
  repeat split; trivial.
  unfold main_checks, stage. cbn [toggle CONFIG VERIFY_COMMIT VERIFY_PARAMETERS VERIFY_ISSUES].
  rewrite Hcommit, Hparams, Hissues. reflexivity.
Qed.

Lemma altered_author_fails_commit_only_witness :
  let doc := set_field "commit_author" (VStr "someone-else") SAMPLE_ANALYSIS in
  verify_commit_data PyRef.pylib CONFIG SAMPLE_ANALYSIS None doc None "o" "r" true
    = (Ret false, [Stderr (AuthorMismatch (VStr "someone-else") (VStr "example-author"))])
  /\ verify_parameter_changes PyRef.pylib CONFIG doc = (Ret true, [])
  /\ verify_issues PyRef.pylib CONFIG SAMPLE_ANALYSIS None 1 doc None "o" "r" true
     = (Ret true, [])
  /\ result (main_checks PyRef.pylib CONFIG SAMPLE_ANALYSIS None 1 doc
               None "o" "r" true) = Ret 1.
Proof.
  apply (altered_author_fails_commit_only PyRef.pylib None 1 "someone-else" None "o" "r").
  - intro H. discriminate H.
  - lia.
Defined.

(* ================================================================= *)
(** ** The adapter online and the loader *)

(** Online, no exception leaves the adapter. *)
Lemma online_request_returns lib sample requests endpoint token owner repo :
  exists success payload w,
    github_api_request lib sample requests endpoint token owner repo false
    = (Ret (success, payload), w).
Proof.
  unfold github_api_request, try_except, http_get.
  destruct requests as [get |]; [| cbn; repeat eexists].
  destruct (get _ _) as [resp |]; [| cbn; repeat eexists].
  destruct (status_code resp =? 200).
  - destruct (json resp); cbn; repeat eexists.
  - destruct (status_code resp =? 404); cbn; repeat eexists.
Qed.

Lemma contents_request_returns lib sample requests name token owner repo mock :
  exists success payload w,
    github_api_request lib sample requests (String.append "contents/" name)
      token owner repo mock
    = (Ret (success, payload), w).
Proof.
  destruct mock; [| apply online_request_returns].
  unfold github_api_request. rewrite startswith_append. repeat eexists.
Qed.

(** C9.  The loader never raises.  It returns [None] when the adapter
    reports failure or an empty payload, when the body cannot be decoded
    from base64 and UTF-8, when the decoded text does not parse, and when
    the configured format is not "json"; any other result is the whole
    value parsed from the whole decoded body. *)
Theorem loader_returns_none_or_parsed_document :
  forall lib cfg sample requests token owner repo mock,
  exists success file_data w r w',
    github_api_request lib sample requests
      (String.append "contents/" (ANALYSIS_FILE_NAME cfg)) token owner repo mock
      = (Ret (success, file_data), w)
    /\ load_analysis_results lib cfg sample requests token owner repo mock
       = (Ret r, w')
    /\ (success = false \/ truthy file_data = false -> r = VNone)
    /\ (decoded_content lib file_data = None -> r = VNone)
    /\ (forall content,
          decoded_content lib file_data = Some content ->
          json_loads lib content = None -> r = VNone)
    /\ (ANALYSIS_FILE_FORMAT cfg <> "json" -> r = VNone)
    /\ (r <> VNone ->
        success = true /\ ANALYSIS_FILE_FORMAT cfg = "json"
        /\ exists content,
             decoded_content lib file_data = Some content
             /\ json_loads lib content = Some r).
Proof.
  intros lib cfg sample requests token owner repo mock.
  destruct (contents_request_returns lib sample requests (ANALYSIS_FILE_NAME cfg)
              token owner repo mock) as (success & file_data & w & Hreq).
  exists success, file_data, w.
  unfold load_analysis_results. rewrite Hreq, bind_Ret.
  destruct success; cbn [negb orb].
  2: { exists VNone; eexists. cbn. repeat split; try reflexivity; intros; congruence. }
  destruct (truthy file_data) eqn:Htruthy; cbn [negb].
  2: { exists VNone; eexists. cbn. repeat split; try reflexivity; intros; congruence. }
  unfold decoded_content, decode_content, loads, py_get, try_except.
  destruct file_data as [| b | z | f | s | l | d];
    try (exists VNone; eexists; cbn; repeat split; try reflexivity; intros; congruence).
  rewrite bind_ret_l.
  destruct (match lookup "content" d with Some x => x | None => VStr "" end)
    as [| b | z | f | s | l | d'];
    try (exists VNone; eexists; cbn; repeat split; try reflexivity; intros; congruence).
  destruct (b64decode lib s) as [raw |]; cbn [and_then];
    [| exists VNone; eexists; cbn; repeat split; try reflexivity; intros; congruence].
  destruct (utf8_decode lib raw) as [content |];
    [| exists VNone; eexists; cbn; repeat split; try reflexivity; intros; congruence].
  rewrite bind_ret_l.
  destruct (String.eqb (ANALYSIS_FILE_FORMAT cfg) "json") eqn:Hfmt.
  - apply String.eqb_eq in Hfmt.
    destruct (json_loads lib content) as [v |] eqn:Hloads.
    + exists v; eexists. cbn. repeat split; try reflexivity; try congruence.
      all: try (exists content; auto).
      all: try (intros [? | ?]; discriminate).
    + exists VNone; eexists. cbn. repeat split; try reflexivity; intros; congruence.
  - exists VNone; eexists. cbn. repeat split; try reflexivity; intros; congruence.
Qed.

(* ================================================================= *)
(** ** The parameter validator *)

Arguments bind {A B} m f : simpl never.

Lemma lookup_entry (pc : list (string * value)) (param : string) :
  entries_are_dicts pc = true ->
  lookup param pc = None \/ exists c, lookup param pc = Some (VDict c).
Proof.
  induction pc as [| [k v] pc IH]; simpl; intros H; [now left |].
  apply andb_true_iff in H as [Hv Hpc].
  destruct (String.eqb param k).
  - destruct v; try discriminate. right. eauto.
  - auto.
Qed.

Lemma verdict_false_print (d : diag) :
  verdict (print_err d ;;; ret false) false.
Proof. exists d. reflexivity. Qed.

Lemma check_fields_verdict (c : list (string * value)) (param : string)
    (fields : list string) :
  verdict (check_fields (VDict c) param fields)
    (forallb (fun field => has_key field c) fields).
Proof.
  induction fields as [| field fields IH]; simpl; [reflexivity |].
  rewrite bind_ret_l.
  destruct (has_key field c); simpl; [exact IH | apply verdict_false_print].
Qed.

Lemma check_required_verdict (pc : list (string * value)) (params : list string) :
  entries_are_dicts pc = true ->
  verdict (check_required (VDict pc) params) (complete params pc).
Proof.
  intros Hpc. induction params as [| param params IH]; [reflexivity |].
  cbn [check_required complete forallb]. unfold py_in, subscript, has_key at 1.
  rewrite bind_ret_l.
  destruct (lookup_entry pc param Hpc) as [-> | [c ->]]; cbn [negb andb].
  - apply verdict_false_print.
  - rewrite bind_ret_l.
    pose proof (check_fields_verdict c param ["before"; "after"; "line_number"]) as Hf.
    cbn [forallb] in Hf. rewrite andb_true_r, andb_assoc in Hf.
    destruct (has_key "before" c && has_key "after" c && has_key "line_number" c);
      cbn [verdict andb] in Hf |- *.
    + rewrite Hf, bind_Ret_nil. exact IH.
    + destruct Hf as [d ->]. exists d. reflexivity.
Qed.

Lemma get_entry_then {B} (pc : list (string * value)) (param field : string)
    (k : value -> M B) :
  entries_are_dicts pc = true ->
  (actual <- py_get (VDict pc) param (VDict []) ;;
   v <- py_get actual field VNone ;; k v)
  = k (field_of pc param field).
Proof.
  intros Hpc. unfold field_of, py_get at 1. rewrite bind_ret_l.
  destruct (lookup_entry pc param Hpc) as [-> | [c ->]];
    unfold py_get; rewrite bind_ret_l; reflexivity.
Qed.

Lemma get_entry_dict (pc : list (string * value)) (param : string) :
  entries_are_dicts pc = true ->
  exists c,
    py_get (VDict pc) param (VDict []) = ret (VDict c)
    /\ forall field,
         field_of pc param field
         = match lookup field c with Some v => v | None => VNone end.
Proof.
  intros Hpc. unfold field_of, py_get.
  destruct (lookup_entry pc param Hpc) as [-> | [c ->]]; eexists; split; reflexivity.
Qed.

Lemma check_exact_verdict (pc : list (string * value))
    (expected : list (string * Expected)) :
  entries_are_dicts pc = true ->
  verdict (check_exact (VDict pc) expected) (forallb (as_expected pc) expected).
Proof.
  intros Hpc. induction expected as [| [param e] expected IH]; [reflexivity |].
  cbn [check_exact forallb].
  destruct (get_entry_dict pc param Hpc) as (c & -> & Hfield).
  rewrite bind_ret_l. unfold py_get. rewrite !bind_ret_l.
  unfold as_expected at 1. cbn [fst snd]. rewrite !Hfield.
  destruct (py_eq _ (exp_before e)); destruct (py_eq _ (exp_after e));
    cbn [negb orb andb]; solve [exact IH | apply verdict_false_print].
Qed.

Lemma check_any_verdict (pc : list (string * value)) (params : list string) :
  entries_are_dicts pc = true ->
  verdict (check_any (VDict pc) params)
    (forallb (fun param => negb (py_eq (field_of pc param "before")
                                   (field_of pc param "after"))) params).
Proof.
  intros Hpc. induction params as [| param params IH]; [reflexivity |].
  cbn [check_any forallb].
  destruct (get_entry_dict pc param Hpc) as (c & -> & Hfield).
  rewrite bind_ret_l. unfold py_get. rewrite !bind_ret_l, !Hfield.
  destruct (py_eq _ _); cbn [negb andb]; [apply verdict_false_print | exact IH].
Qed.

(** [<=] on two numbers *)
Lemma py_le_num (a b : value) (x y : pyfloat) :
  as_num a = Some x -> as_num b = Some y -> py_le a b = inr (num_leb x y).
Proof.
  destruct a; try discriminate; destruct b; try discriminate; simpl; congruence.
Qed.

Lemma num_leb_int (a b : Z) : num_leb (FFin a 0) (FFin b 0) = (a <=? b).
Proof.
  unfold num_leb, num_compare. cbn. rewrite !Z.mul_1_r.
  unfold Z.leb. destruct (a ?= b); reflexivity.
Qed.

Lemma num_eqb_int (a b : Z) : num_eqb (FFin a 0) (FFin b 0) = (a =? b).
Proof.
  unfold num_eqb, num_compare. cbn. rewrite !Z.mul_1_r.
  unfold Z.eqb. destruct a, b; try reflexivity; cbn;
    try (destruct (_ ?= _)%positive eqn:E; try reflexivity).
  all: try (apply Pos.compare_eq in E; subst; symmetry; apply Pos.eqb_refl).
  all: try (rewrite Pos.compare_antisym in E).
  all: try (symmetry; apply Pos.eqb_neq; intros ->;
            rewrite Pos.compare_refl in E; discriminate).
  all: try (destruct (_ ?= _)%positive eqn:E'; try discriminate).
  all: try (apply Pos.compare_eq in E'; subst; symmetry; apply Pos.eqb_refl).
  all: try (symmetry; apply Pos.eqb_neq; intros ->;
            rewrite Pos.compare_refl in E'; discriminate).
Qed.

Lemma bound_inv (ranges : value) (k : string) (x : pyfloat) :
  bound ranges k = Some x ->
  exists r v, ranges = VDict r /\ lookup k r = Some v /\ as_num v = Some x.
Proof.
  unfold bound. destruct ranges; try discriminate.
  destruct (lookup k d) as [v |] eqn:Hk; [| discriminate].
  cbn [and_then]. eauto.
Qed.

Lemma out_of_range_num (ranges v : value) (lo hi b : pyfloat) :
  bound ranges "min_before" = Some lo ->
  bound ranges "max_before" = Some hi ->
  as_num v = Some b ->
  out_of_range ranges v = ret (negb (num_leb lo b && num_leb b hi)).
Proof.
  intros Hlo Hhi Hb.
  apply bound_inv in Hlo as (r & vlo & -> & Hlo & Hnlo).
  apply bound_inv in Hhi as (r' & vhi & [= <-] & Hhi & Hnhi).
  unfold out_of_range, subscript. rewrite Hlo, Hhi, bind_ret_l.
  rewrite (py_le_num vlo v lo b Hnlo Hb). cbn [lift]. rewrite bind_ret_l.
  destruct (num_leb lo b); cbn [andb negb]; [| reflexivity].
  rewrite bind_ret_l, (py_le_num v vhi b hi Hb Hnhi). cbn [lift].
  rewrite bind_ret_l. reflexivity.
Qed.

Lemma range_report (param : string) (ranges before_val : value) (lo hi : pyfloat) :
  bound ranges "min_before" = Some lo ->
  bound ranges "max_before" = Some hi ->
  verdict
    (lo <- subscript ranges "min_before" ;;
     hi <- subscript ranges "max_before" ;;
     print_err (NotInRange param before_val lo hi) ;;; ret false) false.
Proof.
  intros Hlo Hhi.
  apply bound_inv in Hlo as (r & vlo & -> & Hlo & _).
  apply bound_inv in Hhi as (r' & vhi & [= <-] & Hhi & _).
  unfold subscript. rewrite Hlo, Hhi, !bind_ret_l. apply verdict_false_print.
Qed.

Lemma check_range_verdict (pc : list (string * value))
    (items : list (string * value)) :
  entries_are_dicts pc = true ->
  numeric_ranges items = true ->
  numeric_befores pc items = true ->
  verdict (check_range (VDict pc) items) (forallb (in_range pc) items).
Proof.
  intros Hpc. induction items as [| [param ranges] items IH]; [reflexivity |].
  cbn [numeric_ranges numeric_befores forallb fst snd].
  intros Hr Hb.
  apply andb_true_iff in Hr as [Hr Hrs]. apply andb_true_iff in Hb as [Hb Hbs].
  specialize (IH Hrs Hbs).
  destruct (bound ranges "min_before") as [lo |] eqn:Hlo; [| discriminate].
  destruct (bound ranges "max_before") as [hi |] eqn:Hhi; [| discriminate].
  cbn [check_range]. rewrite get_entry_then by exact Hpc.
  unfold in_range at 1. cbn [fst snd]. rewrite Hlo, Hhi.
  pose proof (range_report param ranges (field_of pc param "before") lo hi Hlo Hhi)
    as Hreport.
  destruct (field_of pc param "before") as [| x | x | x | x | x | x] eqn:Hfield;
    try discriminate Hb.
  - rewrite bind_ret_l. exact Hreport.
  - erewrite out_of_range_num; [| eassumption | eassumption | reflexivity].
    rewrite bind_ret_l. cbn [as_num].
    destruct (num_leb lo _ && num_leb _ hi); cbn [negb]; [exact IH | exact Hreport].
  - erewrite out_of_range_num; [| eassumption | eassumption | reflexivity].
    rewrite bind_ret_l. cbn [as_num].
    destruct (num_leb lo _ && num_leb _ hi); cbn [negb]; [exact IH | exact Hreport].
  - erewrite out_of_range_num; [| eassumption | eassumption | reflexivity].
    rewrite bind_ret_l. cbn [as_num].
    destruct (num_leb lo _ && num_leb _ hi); cbn [negb]; [exact IH | exact Hreport].
Qed.

Lemma verdict_then (m1 m2 : M bool) (b1 b2 : bool) :
  verdict m1 b1 -> verdict m2 b2 ->
  verdict (ok <- m1 ;; if negb ok then ret false else m2) (b1 && b2).
Proof.
  destruct b1; cbn [verdict andb].
  - intros -> H2. rewrite bind_Ret_nil. exact H2.
  - intros [d ->] _. exists d. reflexivity.
Qed.

(** C5, as stated, fails: in exact mode the floats 4.0 and 8.0 satisfy
    the integer expectations 4 and 8. *)
Lemma exact_mode_accepts_equal_floats :
  VALIDATION_MODE CONFIG = "exact"
  /\ verify_parameter_changes PyRef.pylib CONFIG
       (VDict (document_with_before four_point_zero eight_point_zero))
     = (Ret true, [])
  /\ four_point_zero <> VInt 4.
Proof. repeat split. discriminate. Qed.

Lemma result_of_verdict (m : M bool) (b : bool) : verdict m b -> result m = Ret b.
Proof. destruct b; cbn [verdict]; [intros -> | intros [d ->]]; reflexivity. Qed.

Lemma passes_iff (m : M bool) (b : bool) :
  verdict m b -> (result m = Ret true <-> b = true).
Proof.
  intros H. rewrite (result_of_verdict m b H).
  split; [intros [= ->] | intros ->]; reflexivity.
Qed.

(** C5, amended.  In exact mode, on a document whose recorded changes are
    objects, the validator passes exactly when the completeness pass
    holds and, for every expected parameter, [before] and [after] equal
    the expected values under Python's [==] ([py_eq]: numbers of the
    types [bool], [int] and [float] are equal when their values are,
    everything else by type and content); when the recorded and the
    expected values are printable, any disagreement gives [False] with
    one diagnostic. *)
Theorem exact_mode_compares_by_value :
  forall lib cfg d pc,
    VALIDATION_MODE cfg = "exact" ->
    lookup "parameter_changes" d = Some (VDict pc) ->
    entries_are_dicts pc = true ->
    let agree :=
      complete (REQUIRED_PARAMETERS cfg) pc
      && forallb (as_expected pc) (EXPECTED_VALUES cfg) in
    (result (verify_parameter_changes lib cfg (VDict d)) = Ret true <-> agree = true)
    /\ (printable (VDict pc) = true ->
        expected_printable cfg = true ->
        verdict (verify_parameter_changes lib cfg (VDict d)) agree).
Proof.
  intros lib cfg d pc Hmode Hd Hpc agree.
  assert (Hverdict : verdict (verify_parameter_changes lib cfg (VDict d)) agree).
  { unfold verify_parameter_changes, py_get. rewrite Hd, bind_ret_l, Hmode.
    cbn [String.eqb Ascii.eqb Bool.eqb].
    apply verdict_then.
    - apply check_required_verdict, Hpc.
    - apply check_exact_verdict, Hpc. }
  split; [apply passes_iff, Hverdict | intros _ _; exact Hverdict].
Qed.

(** The expected 8 recorded as 3: [False] with one diagnostic. *)
Lemma exact_mode_compares_by_value_witness :
  verdict (verify_parameter_changes PyRef.pylib CONFIG
             (VDict (document_with_before (VInt 4) (VInt 3))))
    false.
Proof.
  apply (proj2 (exact_mode_compares_by_value PyRef.pylib CONFIG
                  (document_with_before (VInt 4) (VInt 3))
                  (changes_with_before (VInt 4) (VInt 3))
                  eq_refl eq_refl eq_refl));
    reflexivity.
Defined.

(** [==] on two integers is their equality, and an integer equals the
    float of the same value. *)
Lemma py_eq_int (a b : Z) : py_eq (VInt a) (VInt b) = (a =? b).
Proof. apply num_eqb_int. Qed.

Lemma py_eq_int_float (a : Z) : py_eq (VInt a) (VFloat (FFin a 0)) = true.
Proof. cbn. rewrite num_eqb_int. apply Z.eqb_refl. Qed.

(** C8.  In range mode, with numeric bounds and with every ranged
    [before] a number or missing, the validator passes exactly when the
    completeness pass holds and every ranged parameter has a [before]
    with [min_before <= before <= max_before], both bounds included, so
    that a missing [before], and one below [min_before] or above
    [max_before], does not pass; when the recorded values and the bounds
    are printable, it then answers [False] with one diagnostic. *)
Theorem range_mode_inclusive_bounds :
  forall lib cfg d pc items,
    VALIDATION_MODE cfg = "range" ->
    json_loads lib (RANGE_CONFIG cfg) = Some (VDict items) ->
    lookup "parameter_changes" d = Some (VDict pc) ->
    entries_are_dicts pc = true ->
    numeric_ranges items = true ->
    numeric_befores pc items = true ->
    let within :=
      complete (REQUIRED_PARAMETERS cfg) pc && forallb (in_range pc) items in
    (result (verify_parameter_changes lib cfg (VDict d)) = Ret true <-> within = true)
    /\ (printable (VDict pc) = true ->
        printable (VDict items) = true ->
        verdict (verify_parameter_changes lib cfg (VDict d)) within)
    /\ (forall param r lo hi b,
          lookup "min_before" r = Some (VInt lo) ->
          lookup "max_before" r = Some (VInt hi) ->
          field_of pc param "before" = VInt b ->
          in_range pc (param, VDict r) = (lo <=? b) && (b <=? hi))
    /\ (forall param ranges,
          field_of pc param "before" = VNone ->
          in_range pc (param, ranges) = false).
Proof.
  intros lib cfg d pc items Hmode Hloads Hd Hpc Hr Hb within.
  assert (Hverdict : verdict (verify_parameter_changes lib cfg (VDict d)) within).
  { unfold verify_parameter_changes, py_get. rewrite Hd, bind_ret_l, Hmode.
    cbn [String.eqb Ascii.eqb Bool.eqb].
    apply verdict_then.
    - apply check_required_verdict, Hpc.
    - unfold loads. rewrite Hloads, bind_ret_l. cbn [py_items].
      rewrite bind_ret_l. apply check_range_verdict; assumption. }
  split; [apply passes_iff, Hverdict |].
  split; [intros _ _; exact Hverdict |].
  split.
  - intros param r lo hi b Hlo Hhi Hbefore.
    unfold in_range, bound. cbn [fst snd]. rewrite Hbefore, Hlo, Hhi.
    cbn [as_num and_then]. rewrite !num_leb_int. reflexivity.
  - intros param ranges Hbefore. unfold in_range. cbn [fst snd].
    rewrite Hbefore. reflexivity.
Qed.

(** One above the upper bound 16 of the script's range table: [False]
    with one diagnostic. *)
Lemma range_mode_inclusive_bounds_witness :
  verdict (verify_parameter_changes PyRef.pylib (with_mode "range" CONFIG)
             (VDict (document_with_before (VInt 17) (VInt 8))))
    false.
Proof.
  apply (proj1 (proj2 (range_mode_inclusive_bounds PyRef.pylib
                         (with_mode "range" CONFIG)
                         (document_with_before (VInt 17) (VInt 8))
                         (changes_with_before (VInt 17) (VInt 8))
                         [("micro_batch_size_per_device_for_update",
                           VDict [("min_before", VInt 1); ("max_before", VInt 16)])]
                         eq_refl eq_refl eq_refl eq_refl eq_refl eq_refl)));
    reflexivity.
Defined.

(** The range table of the script: 1 and 16 pass, 0 and 17 and a missing
    value fail. *)
Example range_mode_at_the_bounds :
  let run before :=
    result (verify_parameter_changes PyRef.pylib (with_mode "range" CONFIG)
              (VDict (document_with_before before (VInt 8)))) in
  run (VInt 1) = Ret true /\ run (VInt 16) = Ret true
  /\ run (VInt 0) = Ret false /\ run (VInt 17) = Ret false
  /\ run VNone = Ret false.
Proof. repeat split. Qed.

(* ================================================================= *)
(** ** Runs that end *)

Lemma bind_terminates {A B} (m : M A) (f : A -> M B) :
  terminates m ->
  (forall a w, m = (Ret a, w) -> terminates (f a)) ->
  terminates (bind m f).
Proof.
  unfold terminates. destruct m as [[a | e |] w]; cbn; intros Hm Hf.
  - specialize (Hf a w eq_refl). unfold bind. destruct (f a); exact Hf.
  - discriminate.
  - contradiction.
Qed.

Lemma ret_terminates {A} (a : A) : terminates (ret a).
Proof. discriminate. Qed.

Lemma raise_terminates {A} (e : exn) : terminates (@raise A e).
Proof. discriminate. Qed.

Lemma print_err_terminates (d : diag) : terminates (print_err d).
Proof. discriminate. Qed.

Lemma lift_terminates {A} (r : exn + A) : terminates (lift r).
Proof. destruct r; discriminate. Qed.

Lemma try_except_terminates {A} (m : M A) (h : exn -> M A) :
  terminates m -> (forall e, terminates (h e)) -> terminates (try_except m h).
Proof.
  unfold terminates, try_except. destruct m as [[a | e |] w]; cbn; intros Hm Hh.
  - discriminate.
  - specialize (Hh e). destruct (h e); exact Hh.
  - contradiction.
Qed.

Create HintDb ends.

#[local] Hint Resolve ret_terminates raise_terminates print_err_terminates
  lift_terminates : ends.

(** Splits a run into its steps and closes the steps that end at once. *)
Ltac ends :=
  repeat first
    [ solve [auto with ends]
    | apply bind_terminates; [| intros ? ? _]
    | apply try_except_terminates; [| intros ?]
    | match goal with
      | |- terminates (if ?c then _ else _) => destruct c
      | |- terminates (match ?x with _ => _ end) => destruct x
      | |- terminates (let (_, _) := ?x in _) => destruct x
      end ].

Lemma py_get_terminates v k default : terminates (py_get v k default).
Proof. unfold py_get. ends. Qed.

Lemma subscript_terminates v k : terminates (subscript v k).
Proof. unfold subscript. ends. Qed.

Lemma py_in_terminates k v : terminates (py_in k v).
Proof. unfold py_in. ends. Qed.

Lemma str_add_terminates a b : terminates (str_add a b).
Proof. unfold str_add. ends. Qed.

Lemma set_add_terminates v s : terminates (set_add v s).
Proof. unfold set_add. ends. Qed.

Lemma py_iter_terminates v : terminates (py_iter v).
Proof. unfold py_iter. ends. Qed.

#[local] Hint Resolve py_get_terminates subscript_terminates py_in_terminates
  str_add_terminates set_add_terminates py_iter_terminates : ends.

Lemma issue_text_terminates item : terminates (issue_text item).
Proof. unfold issue_text. ends. Qed.

#[local] Hint Resolve issue_text_terminates : ends.

Lemma scan_item_terminates include_pr keywords issues item :
  terminates (scan_item include_pr keywords issues item).
Proof. unfold scan_item. ends. Qed.

#[local] Hint Resolve scan_item_terminates : ends.

Lemma scan_items_terminates include_pr keywords items :
  forall issues, terminates (scan_items include_pr keywords issues items).
Proof.
  induction items as [| item items IH]; intros issues; cbn [scan_items]; ends.
Qed.

Lemma github_api_request_terminates lib sample requests endpoint token owner repo mock :
  terminates (github_api_request lib sample requests endpoint token owner repo mock).
Proof. unfold github_api_request, http_get. ends. Qed.

#[local] Hint Resolve scan_items_terminates github_api_request_terminates : ends.

(* ================================================================= *)
(** ** Scanning issue objects *)

Lemma issue_text_shaped (d : list (string * value)) :
  text_ok d = true -> issue_text (VDict d) = ret (text_of d).
Proof.
  unfold text_ok. intros H. apply andb_true_iff in H as [Ht Hb].
  unfold issue_text, text_of, py_get. rewrite !bind_ret_l.
  destruct (lookup "title" d) as [[| | | | t | |] |]; try discriminate Ht;
    cbn [str_add]; rewrite bind_ret_l;
    destruct (lookup "body" d) as [[| x | x | x | b | x | x] |];
    cbn [truthy] in Hb |- *;
    try (rewrite (proj1 (negb_true_iff _) Hb));
    try (destruct (String.eqb b "") eqn:Hempty; cbn [negb];
         [apply String.eqb_eq in Hempty; subst b |]);
    cbn [str_add]; rewrite bind_ret_l; reflexivity.
Qed.

Lemma scan_item_shaped include_pr keywords issues item :
  listed_issue item = true ->
  exists issues', scan_item include_pr keywords issues item = ret issues'.
Proof.
  destruct item as [| | | | | | d]; try discriminate. cbn [listed_issue].
  intros H. apply andb_true_iff in H as [Htext Hnum].
  unfold scan_item.
  assert (Hskip : exists skip,
             (if negb include_pr then py_in "pull_request" (VDict d) else ret false)
             = ret skip) by (destruct include_pr; cbn; eauto).
  destruct Hskip as [skip ->]. rewrite bind_ret_l.
  destruct skip; [eauto |].
  unfold py_get. rewrite bind_ret_l, (issue_text_shaped d Htext), bind_ret_l.
  destruct (has_keyword keywords (text_of d)); [| eauto].
  unfold set_add. destruct (lookup "number" d) as [n |].
  - rewrite Hnum. eauto.
  - cbn. eauto.
Qed.

Lemma scan_items_shaped include_pr keywords items :
  forallb listed_issue items = true ->
  forall issues,
  exists issues', scan_items include_pr keywords issues items = ret issues'.
Proof.
  induction items as [| item items IH]; cbn [forallb scan_items]; intros H issues.
  - eauto.
  - apply andb_true_iff in H as [Hitem Hitems].
    destruct (scan_item_shaped include_pr keywords issues item Hitem) as [s ->].
    rewrite bind_ret_l. apply IH, Hitems.
Qed.

(* ================================================================= *)
(** ** The pagination loop *)

Section Pagination.

Context (lib : PyLib) (cfg : Config) (sample : value) (requests : option Requests).
Context (token : option string) (owner repo : string) (mock : bool).

Local Abbreviation fetch := (fetch_page lib sample requests token owner repo mock).
Local Abbreviation loop fuel :=
  (get_relevant_issues_loop lib cfg sample requests fuel token owner repo mock).
Local Abbreviation scan := (scan_items (toggle (INCLUDE_PR cfg)) (KEYWORDS cfg)).

Lemma loop_step fuel page issues success data w :
  fetch page = (Ret (success, data), w) ->
  loop (S fuel) page issues
  = prepend w
      (if negb success || negb (truthy data) then ret issues
       else
         items <- py_iter data ;;
         issues' <- scan issues items ;;
         if is_list data && (list_len data <? 100) then ret issues'
         else loop fuel (page + 1) issues').
Proof.
  intros Hfetch. unfold fetch_page, adapter in Hfetch.
  cbn [get_relevant_issues_loop]. rewrite Hfetch, bind_Ret. reflexivity.
Qed.

Lemma loop_terminates (n : nat) :
  forall fuel page issues,
    stops_at (fetch (page + Z.of_nat n)) = true ->
    (n < fuel)%nat ->
    terminates (loop fuel page issues).
Proof.
  induction n as [| n IH]; intros fuel page issues Hstop Hfuel;
    (destruct fuel as [| fuel]; [lia |]);
    cbn [get_relevant_issues_loop];
    (apply bind_terminates; [ends |]);
    intros [success data] w Hfetch;
    change (fetch page = (Ret (success, data), w)) in Hfetch.
  - rewrite Z.add_0_r in Hstop. unfold stops_at in Hstop. rewrite Hfetch in Hstop.
    destruct (negb success || negb (truthy data)); [ends |].
    cbn [orb] in Hstop.
    apply bind_terminates; [ends |]. intros items _ _.
    apply bind_terminates; [ends |]. intros issues' _ _.
    rewrite Hstop. ends.
  - destruct (negb success || negb (truthy data)); [ends |].
    apply bind_terminates; [ends |]. intros items _ _.
    apply bind_terminates; [ends |]. intros issues' _ _.
    destruct (is_list data && (list_len data <? 100)); [ends |].
    apply IH; [| lia].
    replace (page + 1 + Z.of_nat n) with (page + Z.of_nat (S n)) by lia.
    exact Hstop.
Qed.

Lemma loop_needs_more_fuel :
  forall fuel n page issues,
    (forall k, (k < n)%nat -> full_page (fetch (page + Z.of_nat k)) = true) ->
    (fuel <= n)%nat ->
    result (loop fuel page issues) = Diverge.
Proof.
  induction fuel as [| fuel IH]; intros n page issues Hfull Hfuel; [reflexivity |].
  destruct n as [| n]; [lia |].
  pose proof (Hfull O ltac:(lia)) as H0. rewrite Z.add_0_r in H0.
  unfold full_page in H0.
  destruct (fetch page) as [[[success data] | e |] w] eqn:Hfetch; try discriminate.
  destruct success; [| discriminate].
  destruct data as [| | | | | l |]; try discriminate.
  apply andb_true_iff in H0 as [Hlen Hshape]. apply Z.leb_le in Hlen.
  rewrite (loop_step fuel page issues true (VList l) w Hfetch).
  assert (Htruthy : truthy (VList l) = true) by (destruct l; [cbn in Hlen; lia | reflexivity]).
  rewrite Htruthy. cbn [negb orb py_iter]. rewrite bind_ret_l.
  destruct (scan_items_shaped (toggle (INCLUDE_PR cfg)) (KEYWORDS cfg) l Hshape issues)
    as [issues' Hscan].
  rewrite Hscan, bind_ret_l.
  replace (is_list (VList l) && (list_len (VList l) <? 100)) with false
    by (symmetry; cbn; apply Z.ltb_ge; exact Hlen).
  unfold prepend, result. cbn [fst].
  apply (IH n); [| lia].
  intros k Hk. replace (page + 1 + Z.of_nat k) with (page + Z.of_nat (S k)) by lia.
  apply Hfull. lia.
Qed.

(** C6, amended.  One turn of the loop on the answer of the adapter:
    - a failed fetch or an empty payload ends the loop with the issues
      collected so far;
    - a list of fewer than 100 items is scanned and ends the loop;
    - any other payload, a list of 100 items or more and also a payload
      that is not a list, does not end it: its items are scanned (which
      may raise) and the next page is fetched.
    The loop ends, with a result or an exception, as soon as some page
    answers with a failure, an empty payload or a short list; while the
    pages are lists of 100 issues or more it goes on, and no number of
    fetches is enough. *)
Theorem pagination_stops_and_advances :
  (forall fuel page issues success data w,
      fetch page = (Ret (success, data), w) ->
      success = false \/ truthy data = false ->
      loop (S fuel) page issues = (Ret issues, w))
  /\ (forall fuel page issues l w,
        fetch page = (Ret (true, VList l), w) ->
        l <> [] -> (List.length l < 100)%nat ->
        loop (S fuel) page issues = prepend w (scan issues l))
  /\ (forall fuel page issues data w,
        fetch page = (Ret (true, data), w) ->
        truthy data = true ->
        is_list data && (list_len data <? 100) = false ->
        loop (S fuel) page issues
        = prepend w
            (items <- py_iter data ;;
             issues' <- scan issues items ;;
             loop fuel (page + 1) issues'))
  /\ (forall n fuel page issues,
        stops_at (fetch (page + Z.of_nat n)) = true ->
        (n < fuel)%nat ->
        terminates (loop fuel page issues))
  /\ (forall n fuel page issues,
        (forall k, (k < n)%nat -> full_page (fetch (page + Z.of_nat k)) = true) ->
        (fuel <= n)%nat ->
        result (loop fuel page issues) = Diverge).
Proof.
  repeat split.
  - intros fuel page issues success data w Hfetch Habsent.
    rewrite (loop_step fuel page issues success data w Hfetch).
    replace (negb success || negb (truthy data)) with true
      by (destruct Habsent as [-> | ->]; [| destruct success]; reflexivity).
    unfold prepend. cbn. rewrite app_nil_r. reflexivity.
  - intros fuel page issues l w Hfetch Hl Hlen.
    rewrite (loop_step fuel page issues true (VList l) w Hfetch).
    replace (truthy (VList l)) with true by (destruct l; [contradiction | reflexivity]).
    cbn [negb orb py_iter is_list list_len andb]. rewrite bind_ret_l.
    replace (Z.of_nat (List.length l) <? 100) with true
      by (symmetry; apply Z.ltb_lt; lia).
    rewrite bind_ret_r. reflexivity.
  - intros fuel page issues data w Hfetch Htruthy Hgo.
    rewrite (loop_step fuel page issues true data w Hfetch), Htruthy, Hgo.
    reflexivity.
  - intros n fuel page issues. apply loop_terminates.
  - intros n fuel page issues. apply loop_needs_more_fuel.
Qed.

End Pagination.

(** C6, as stated, fails: a page that is an object and not a list does
    not stop the loop.  Here it is skipped, the second page is fetched
    and its issue is collected. *)
Lemma object_page_does_not_stop :
  is_list (VDict [("pull_request", VDict [])]) = false
  /\ github_api_request PyRef.pylib SAMPLE_ANALYSIS (Some object_then_list)
       (page_endpoint 1) (Some "t") "o" "r" false
     = (Ret (true, VDict [("pull_request", VDict [])]), [])
  /\ get_relevant_issues PyRef.pylib CONFIG SAMPLE_ANALYSIS (Some object_then_list)
       1 (Some "t") "o" "r" false = (Diverge, [])
  /\ get_relevant_issues PyRef.pylib CONFIG SAMPLE_ANALYSIS (Some object_then_list)
       2 (Some "t") "o" "r" false = (Ret [VInt 7], []).
Proof. repeat split. Qed.

(* ================================================================= *)
(** ** The issue validator *)

Lemma bind_inv_Ret {A B} (m : M A) (f : A -> M B) (b : B) (w : list event) :
  bind m f = (Ret b, w) ->
  exists a w1 w2, m = (Ret a, w1) /\ f a = (Ret b, w2) /\ w = w1 ++ w2.
Proof.
  destruct m as [[a | e |] w1]; unfold bind; [| discriminate | discriminate].
  destruct (f a) as [r w2] eqn:Hf. intros H. injection H as -> <-.
  exists a, w1, w2. auto.
Qed.

Lemma set_add_hashable (v : value) (s : pyset) :
  hashable v = true -> set_add v s = ret (set_insert s v).
Proof. unfold set_add. intros ->. reflexivity. Qed.

Lemma set_of_list_hashable (l : list value) :
  forallb hashable l = true ->
  forall s, set_of_list l s = ret (fold_left set_insert l s).
Proof.
  induction l as [| v l IH]; cbn [forallb set_of_list fold_left]; intros H s.
  - reflexivity.
  - apply andb_true_iff in H as [Hv Hl].
    rewrite (set_add_hashable v s Hv), bind_ret_l. apply IH, Hl.
Qed.

Lemma is_int_hashable (v : value) : is_int v = true -> hashable v = true.
Proof. destruct v; try discriminate; reflexivity. Qed.

Lemma check_issues_passed_ints lib cfg sample requests token owner repo mock :
  forall l w,
    check_issues lib cfg sample requests token owner repo mock l = (Ret true, w) ->
    forallb is_int l = true.
Proof.
  induction l as [| issue_num l IH]; intros w; cbn [check_issues forallb];
    [reflexivity |].
  intros H. apply bind_inv_Ret in H as (bad & w1 & w2 & Hbad & H & _).
  destruct (is_int issue_num); [| injection Hbad as <- _; discriminate H].
  destruct bad; [discriminate H |].
  apply bind_inv_Ret in H as ([success data] & w3 & w4 & _ & H & _).
  destruct (negb success || negb (truthy data)); [discriminate H |].
  apply bind_inv_Ret in H as (text & w5 & w6 & _ & H & _).
  destruct (negb (has_keyword (KEYWORDS cfg) text)); [discriminate H |].
  apply IH in H. exact H.
Qed.

Lemma subset_false_diff (a b : pyset) :
  set_subset a b = false -> set_diff a b <> [].
Proof.
  unfold set_subset, set_diff.
  induction a as [| v a IH]; cbn [forallb filter]; [discriminate |].
  destruct (set_mem v b); cbn [negb andb]; [exact IH | discriminate].
Qed.


Lemma reconcile_differ cfg (provided expected : pyset) :
  set_eq provided expected = false ->
  reconcile cfg provided expected
  = (Ret (negb (toggle (STRICT_ISSUE_MATCH cfg))),
     report (set_diff expected provided) (set_diff provided expected))
  /\ (set_diff expected provided <> [] \/ set_diff provided expected <> []).
Proof.
  intros Hne. split.
  - unfold reconcile, report. rewrite Hne. cbn [negb].
    destruct (nonempty (set_diff expected provided));
      destruct (nonempty (set_diff provided expected));
      destruct (toggle (STRICT_ISSUE_MATCH cfg)); reflexivity.
  - unfold set_eq in Hne. apply andb_false_iff in Hne as [H | H];
      apply subset_false_diff in H; auto.
Qed.

(** C7.  When the listed issues pass the content check and the set of
    the document's numbers differs from the set computed from the
    listing, the validator prints the non-empty ones of the two
    differences and answers [False] when STRICT_ISSUE_MATCH is set,
    [True] when it is not. *)
Theorem issue_set_mismatch_follows_strictness :
  forall lib cfg sample requests fuel d l token owner repo mock w1 expected w2,
    lookup "related_issue_number_list" d = Some (VList l) ->
    l <> [] \/ toggle (ALLOW_EMPTY_ISSUES cfg) = true ->
    check_issues lib cfg sample requests token owner repo mock l = (Ret true, w1) ->
    get_relevant_issues lib cfg sample requests fuel token owner repo mock
      = (Ret expected, w2) ->
    set_eq (set_of l) expected = false ->
    let missing := set_diff expected (set_of l) in
    let extra := set_diff (set_of l) expected in
    verify_issues lib cfg sample requests fuel (VDict d) token owner repo mock
      = (Ret (negb (toggle (STRICT_ISSUE_MATCH cfg))),
         w1 ++ w2 ++ report missing extra)
    /\ (missing <> [] \/ extra <> []).
Proof.
  intros lib cfg sample requests fuel d l token owner repo mock w1 expected w2
    Hd Hempty Hcheck Hexpected Hne missing extra.
  destruct (reconcile_differ cfg (set_of l) expected Hne) as [Hrec Hdiff].
  split; [| exact Hdiff].
  unfold verify_issues, py_get. rewrite Hd, bind_ret_l.
  replace ((Z.of_nat (List.length l) =? 0) && negb (toggle (ALLOW_EMPTY_ISSUES cfg)))
    with false.
  2: { destruct Hempty as [Hl | ->]; [| now rewrite andb_false_r].
       destruct l; [contradiction | reflexivity]. }
  rewrite Hcheck, bind_Ret. cbn [negb]. rewrite Hexpected, bind_Ret.
  rewrite (set_of_list_hashable l), bind_ret_l.
  - fold (set_of l). rewrite Hrec. reflexivity.
  - apply check_issues_passed_ints in Hcheck.
    rewrite forallb_forall in *. intros v Hv. apply is_int_hashable, Hcheck, Hv.
Qed.

(** Offline, a document that lists 101 twice: issue 102 is reported as
    missing and the validator answers [False], the toggle being set. *)
Lemma issue_set_mismatch_follows_strictness_witness :
  verify_issues PyRef.pylib CONFIG SAMPLE_ANALYSIS None 1
    (VDict document_101_twice) None "o" "r" true
  = (Ret false, [Stderr (MissingIssues [VInt 102])]).
Proof.
  apply (issue_set_mismatch_follows_strictness PyRef.pylib CONFIG SAMPLE_ANALYSIS
           None 1 document_101_twice [VInt 101; VInt 101] None "o" "r" true
           [] [VInt 101; VInt 102] []).
  - reflexivity.
  - left. discriminate.
  - reflexivity.
  - reflexivity.
  - reflexivity.
Defined.

(** The same document with the toggle off: the same report, and [True]. *)
Example issue_set_mismatch_not_strict :
  verify_issues PyRef.pylib (with_strict_issue_match "false" CONFIG)
    SAMPLE_ANALYSIS None 1 (VDict document_101_twice) None "o" "r" true
  = (Ret true, [Stderr (MissingIssues [VInt 102])]).
Proof. reflexivity. Qed.

(* ================================================================= *)
(** ** Validators on inputs of the expected shape *)











Lemma issue_number_test (v : value) :
  (if negb (is_int v) then ret true else lift (py_le v (VInt 0)))
  = ret (negb (valid_issue_number v)).
Proof.
  destruct v as [| b | z | | | |]; try reflexivity.
  - destruct b; reflexivity.
  - cbn [is_int negb py_le as_num lift valid_issue_number].
    rewrite num_leb_int, Z.ltb_antisym, negb_involutive. reflexivity.
Qed.

Section Shaped.

Context (lib : PyLib) (cfg : Config) (sample : value) (requests : option Requests).
Context (token : option string) (owner repo : string) (mock : bool).

Local Abbreviation request := (adapter lib sample requests token owner repo mock).
Local Abbreviation fetch := (fetch_page lib sample requests token owner repo mock).






End Shaped.


(** What the three validators answer on that document: [False], each
    with its diagnostic. *)
Example failing_document_verdicts :
  verify_commit_data PyRef.pylib CONFIG SAMPLE_ANALYSIS None
    (VDict failing_document) None "o" "r" true
  = (Ret false, [Stderr (AuthorMismatch (VStr "someone-else") (VStr "example-author"))])
  /\ verify_parameter_changes PyRef.pylib CONFIG (VDict failing_document)
     = (Ret false,
        [Stderr (ValueMismatch "micro_batch_size_per_device_for_experience"
                   (VInt 8) (VInt 4) (VInt 3) (VInt 4))])
  /\ verify_issues PyRef.pylib CONFIG SAMPLE_ANALYSIS None 1
       (VDict failing_document) None "o" "r" true
     = (Ret false, [Stderr (MissingIssues [VInt 102])]).
Proof. repeat split; vm_compute; reflexivity. Qed.


(* ================================================================= *)
(** ** More on the adapter *)

Lemma online_request_cases lib sample get endpoint token owner repo :
  exists success payload w,
    github_api_request lib sample (Some get) endpoint token owner repo false
      = (Ret (success, payload), w)
    /\ (success = true <->
        exists resp,
          get (online_url owner repo endpoint) (online_headers token) = Some resp
          /\ status_code resp = 200 /\ json resp = Some payload)
    /\ (success = false -> payload = VNone)
    /\ (w = [] <->
        success = true
        \/ exists resp,
             get (online_url owner repo endpoint) (online_headers token) = Some resp
             /\ status_code resp = 404).
Proof.
  unfold github_api_request, http_get, try_except.
  fold (online_url owner repo endpoint). fold (online_headers token).
  destruct (get (online_url owner repo endpoint) (online_headers token))
    as [resp |] eqn:Hget.
  - destruct (status_code resp =? 200) eqn:H200.
    + apply Z.eqb_eq in H200. destruct (json resp) as [v |] eqn:Hjson.
      * exists true, v, []. split; [reflexivity |]. split; [| split].
        -- split; [intros _; exists resp; auto | reflexivity].
        -- discriminate.
        -- split; [left; reflexivity | reflexivity].
      * exists false, VNone, [Stderr ApiException].
        split; [reflexivity |]. split; [| split].
        -- split; [discriminate |]. intros (resp' & Hr & _ & H).
           injection Hr as <-. congruence.
        -- reflexivity.
        -- split; [discriminate |].
           intros [H | (resp' & Hr & H)]; [discriminate |].
           injection Hr as <-. lia.
    + apply Z.eqb_neq in H200. destruct (status_code resp =? 404) eqn:H404.
      * apply Z.eqb_eq in H404. exists false, VNone, [].
        split; [reflexivity |]. split; [| split].
        -- split; [discriminate |]. intros (resp' & Hr & H & _).
           injection Hr as <-. contradiction.
        -- reflexivity.
        -- split; [intros _; right; exists resp; auto | reflexivity].
      * apply Z.eqb_neq in H404.
        exists false, VNone,
          [Stderr (ApiError (status_code resp) endpoint (text resp))].
        split; [reflexivity |]. split; [| split].
        -- split; [discriminate |]. intros (resp' & Hr & H & _).
           injection Hr as <-. contradiction.
        -- reflexivity.
        -- split; [discriminate |].
           intros [H | (resp' & Hr & H)]; [discriminate |].
           injection Hr as <-. contradiction.
  - exists false, VNone, [Stderr ApiException].
    split; [reflexivity |]. split; [| split].
    + split; [discriminate |]. intros (resp & H & _). discriminate.
    + reflexivity.
    + split; [discriminate |]. intros [H | (resp & H & _)]; discriminate.
Qed.

(** X1.  Online, the adapter answers [(True, body)] exactly when the call
    returns status 200 with a body that decodes, and [(False, None)]
    otherwise; it never raises.  It prints nothing exactly when it
    succeeds or the status is 404: every other failure is reported. *)
Theorem online_adapter_outcomes :
  forall lib sample get endpoint token owner repo,
  exists success payload w,
    github_api_request lib sample (Some get) endpoint token owner repo false
      = (Ret (success, payload), w)
    /\ (success = true <->
        exists resp,
          get (online_url owner repo endpoint) (online_headers token) = Some resp
          /\ status_code resp = 200 /\ json resp = Some payload)
    /\ (success = false -> payload = VNone)
    /\ (w = [] <->
        success = true
        \/ exists resp,
             get (online_url owner repo endpoint) (online_headers token) = Some resp
             /\ status_code resp = 404).
Proof. intros. apply online_request_cases. Qed.

Lemma failure_payload (m : M (bool * value)) :
  (exists (b : bool) (v : value) (w : list event),
     m = (Ret (b, v), w) /\ (b = false -> v = VNone))
  \/ (exists e w, m = (Raise e, w)) ->
  forall payload w, m = (Ret (false, payload), w) -> payload = VNone.
Proof.
  intros [(b & v & w' & -> & H) | (e & w' & ->)] payload w Heq.
  - injection Heq as -> -> _. auto.
  - discriminate.
Qed.

(** X2.  In either mode, an answer of the adapter that reports failure
    carries no payload. *)
Theorem adapter_failure_has_no_payload :
  forall lib sample requests endpoint token owner repo mock payload w,
    github_api_request lib sample requests endpoint token owner repo mock
      = (Ret (false, payload), w) ->
    payload = VNone.
Proof.
  intros lib sample requests endpoint token owner repo mock.
  apply failure_payload.
  destruct mock.
  - unfold github_api_request, subscript.
    destruct (startswith endpoint "contents/");
      [left; repeat eexists; discriminate |].
    destruct (startswith endpoint "commits/").
    { destruct sample as [| | | | | | d];
        try (right; repeat eexists; fail).
      destruct (lookup "target_commit_sha" d); [| right; repeat eexists].
      rewrite bind_ret_l.
      destruct (lookup "commit_author" d); [| right; repeat eexists].
      rewrite bind_ret_l.
      destruct (lookup "commit_date" d); [| right; repeat eexists].
      rewrite bind_ret_l. left. repeat eexists. discriminate. }
    destruct (startswith endpoint "issues?");
      [left; repeat eexists; discriminate |].
    destruct (startswith endpoint "issues/"); [| left; repeat eexists].
    destruct (py_int (last_segment endpoint)) as [num |]; [| right; repeat eexists].
    destruct (num =? 101); [left; repeat eexists; discriminate |].
    destruct (num =? 102); [left; repeat eexists; discriminate |].
    left. repeat eexists.
  - destruct requests as [get |].
    + destruct (online_request_cases lib sample get endpoint token owner repo)
        as (success & p & w & -> & _ & H & _).
      left. exists success, p, w. auto.
    + left. exists false, VNone, [Stderr RequestsUnavailable].
      split; [reflexivity | auto].
Qed.

Lemma adapter_failure_has_no_payload_witness :
  github_api_request PyRef.pylib SAMPLE_ANALYSIS None "issues/7" None "o" "r" true
    = (Ret (false, VNone), [])
  /\ VNone = VNone.
Proof.
  split; [reflexivity |].
  apply (adapter_failure_has_no_payload PyRef.pylib SAMPLE_ANALYSIS None
           "issues/7" None "o" "r" true VNone []).
  reflexivity.
Defined.

(* ================================================================= *)
(** ** [int(str(z))] *)

Lemma uint_value_of_uint_acc (d : Decimal.uint) :
  forall p, Z.pos (Pos.of_uint_acc d p) = uint_value (Z.pos p) d.
Proof.
  induction d; intros p; cbn [Pos.of_uint_acc uint_value];
    try reflexivity; rewrite IHd; f_equal; lia.
Qed.

Lemma uint_value_of_uint (d : Decimal.uint) :
  Z.of_N (Pos.of_uint d) = uint_value 0 d.
Proof.
  induction d; cbn [Pos.of_uint uint_value Z.of_N];
    try reflexivity; try exact IHd;
    rewrite uint_value_of_uint_acc; reflexivity.
Qed.

Lemma uint_value_to_uint (p : positive) : uint_value 0 (Pos.to_uint p) = Z.pos p.
Proof.
  rewrite <- uint_value_of_uint, DecimalPos.Unsigned.of_to. reflexivity.
Qed.

(** The digits of a numeral read back as its value. *)
Lemma digits_value_string_of_uint (d : Decimal.uint) :
  forall after_digit acc,
    d <> Decimal.Nil \/ after_digit = true ->
    digits_value after_digit acc (NilEmpty.string_of_uint d)
    = Some (uint_value acc d).
Proof.
  induction d; intros after_digit acc H.
  1: destruct H as [H | ->]; [contradiction | reflexivity].
  all: cbn [NilEmpty.string_of_uint digits_value uint_value].
  all: match goal with
       | |- context [is_digit ?c] => change (is_digit c) with true
       end; cbv iota.
  all: rewrite IHd by (right; reflexivity).
  all: match goal with
       | |- Some (uint_value ?a _) = Some (uint_value ?b _) =>
           replace a with b by (cbn; lia)
       end; reflexivity.
Qed.


Lemma lstrip_plain (s : string) : forallb plain (chars s) = true -> lstrip s = s.
Proof.
  destruct s as [| c s]; cbn; [reflexivity |].
  intros H. apply andb_true_iff in H as [H _]. unfold plain in H.
  apply andb_true_iff in H as [H _]. apply negb_true_iff in H. rewrite H. reflexivity.
Qed.

Lemma rstrip_plain (s : string) : forallb plain (chars s) = true -> rstrip s = s.
Proof.
  induction s as [| c s IH]; cbn [chars list_ascii_of_string forallb rstrip];
    [reflexivity |].
  intros H. apply andb_true_iff in H as [Hc Hs]. rewrite (IH Hs).
  unfold plain in Hc. apply andb_true_iff in Hc as [Hc _].
  apply negb_true_iff in Hc. rewrite Hc. destruct s; reflexivity.
Qed.

Lemma last_segment_from_plain (s acc : string) :
  forallb plain (chars s) = true -> last_segment_from acc s = acc.
Proof.
  revert acc. induction s as [| c s IH];
    cbn [chars list_ascii_of_string forallb last_segment_from]; intros acc H;
    [reflexivity |].
  apply andb_true_iff in H as [Hc Hs]. unfold plain in Hc.
  apply andb_true_iff in Hc as [_ Hc]. apply negb_true_iff in Hc.
  rewrite Hc. apply IH, Hs.
Qed.

Lemma string_of_uint_plain (d : Decimal.uint) :
  forallb plain (chars (NilEmpty.string_of_uint d)) = true.
Proof. induction d; cbn; auto. Qed.

Lemma str_of_Z_plain (z : Z) : forallb plain (chars (str_of_Z z)) = true.
Proof.
  unfold str_of_Z, NilZero.string_of_int, NilZero.string_of_uint.
  destruct z as [| p | p]; cbn [Z.to_int]; [reflexivity | |];
    remember (Pos.to_uint p) as d; destruct d;
    try apply (string_of_uint_plain (Decimal.Nil));
    try (cbn [chars list_ascii_of_string forallb];
         rewrite <- ?Heqd; try reflexivity).
  all: try (match goal with
            | |- forallb plain (chars (NilEmpty.string_of_uint ?x)) = true =>
                apply (string_of_uint_plain x)
            end).
  all: try (match goal with
            | |- plain _ && forallb plain (list_ascii_of_string (NilEmpty.string_of_uint ?x)) = true =>
                apply (string_of_uint_plain x) ||
                (change (plain "-" && forallb plain (chars (NilEmpty.string_of_uint x)) = true);
                 rewrite string_of_uint_plain; reflexivity)
            end).
Qed.

Lemma py_int_digits (d : Decimal.uint) :
  d <> Decimal.Nil ->
  py_int (NilEmpty.string_of_uint d) = Some (uint_value 0 d)
  /\ py_int (String "-" (NilEmpty.string_of_uint d)) = Some (- uint_value 0 d).
Proof.
  intros Hd.
  assert (Hplain := string_of_uint_plain d).
  assert (Hminus : forallb plain (chars (String "-" (NilEmpty.string_of_uint d))) = true)
    by (cbn [chars list_ascii_of_string forallb]; apply andb_true_iff; split;
        [reflexivity | exact Hplain]).
  unfold py_int.
  rewrite (lstrip_plain _ Hplain), (rstrip_plain _ Hplain),
    (lstrip_plain _ Hminus), (rstrip_plain _ Hminus).
  pose proof (digits_value_string_of_uint d false 0 (or_introl Hd)) as Hval.
  split.
  - rewrite <- Hval. destruct d; reflexivity || contradiction.
  - rewrite Hval. reflexivity.
Qed.

(** [int(str(z)) == z] *)
Lemma py_int_str_of_Z (z : Z) : py_int (str_of_Z z) = Some z.
Proof.
  unfold str_of_Z, NilZero.string_of_int, NilZero.string_of_uint.
  destruct z as [| p | p]; cbn [Z.to_int]; [reflexivity | |];
    pose proof (DecimalPos.Unsigned.to_uint_nonnil p) as Hd;
    destruct (py_int_digits (Pos.to_uint p) Hd) as [Hpos Hneg];
    rewrite uint_value_to_uint in *;
    destruct (Pos.to_uint p); try contradiction; assumption.
Qed.

Lemma last_segment_issue (z : Z) :
  last_segment ("issues/" ++ str_of_Z z) = str_of_Z z.
Proof.
  unfold last_segment. cbn [String.append last_segment_from Ascii.eqb Bool.eqb].
  apply last_segment_from_plain, str_of_Z_plain.
Qed.

(** X3.  Offline, the lookup of the issue numbered [z], written in decimal,
    finds it exactly when [z] is 101 or 102, for every integer [z] of at
    most 4300 digits: the fixture reads the number back from the
    endpoint. *)
Theorem mock_issue_lookup :
  forall lib sample requests token owner repo z,
    printable (VInt z) = true ->
    github_api_request lib sample requests ("issues/" ++ str_of_Z z)%string
      token owner repo true
    = ret (mock_issue z)
    /\ (fst (mock_issue z) = true <-> z = 101 \/ z = 102).
Proof.
  intros lib sample requests token owner repo z _. split.
  - unfold github_api_request.
    change (startswith ("issues/" ++ str_of_Z z) "contents/") with false.
    change (startswith ("issues/" ++ str_of_Z z) "commits/") with false.
    change (startswith ("issues/" ++ str_of_Z z) "issues?") with false.
    rewrite (startswith_append "issues/" (str_of_Z z)).
    rewrite last_segment_issue, py_int_str_of_Z. unfold mock_issue.
    destruct (z =? 101); [reflexivity |]. destruct (z =? 102); reflexivity.
  - unfold mock_issue.
    destruct (z =? 101) eqn:H1; [apply Z.eqb_eq in H1; cbn; tauto |].
    destruct (z =? 102) eqn:H2; [apply Z.eqb_eq in H2; cbn; tauto |].
    apply Z.eqb_neq in H1, H2. cbn. split; [discriminate | lia].
Qed.

(** Issue 102 is found; issue 7 is not. *)
Lemma mock_issue_lookup_witness :
  github_api_request PyRef.pylib SAMPLE_ANALYSIS None "issues/102" None "o" "r" true
  = ret (true, issue_102)
  /\ github_api_request PyRef.pylib SAMPLE_ANALYSIS None "issues/7" None "o" "r" true
     = ret (false, VNone).
Proof.
  split.
  - apply (mock_issue_lookup PyRef.pylib SAMPLE_ANALYSIS None None "o" "r" 102).
    reflexivity.
  - apply (mock_issue_lookup PyRef.pylib SAMPLE_ANALYSIS None None "o" "r" 7).
    reflexivity.
Defined.

(* ================================================================= *)
(** ** The issue listing offline *)

Lemma mock_page lib sample requests token owner repo page :
  fetch_page lib sample requests token owner repo true page
  = (Ret (true, VList [issue_101; issue_102]), []).
Proof.
  unfold fetch_page, adapter, github_api_request, page_endpoint.
  change (startswith (_ ++ str_of_Z page) "contents/") with false.
  change (startswith (_ ++ str_of_Z page) "commits/") with false.
  change (startswith (_ ++ str_of_Z page) "issues?") with true. reflexivity.
Qed.

Lemma mock_scan include_pr keywords :
  scan_items include_pr keywords [] [issue_101; issue_102]
  = ret (mock_relevant keywords).
Proof.
  destruct include_pr; cbv -[has_keyword];
    destruct (has_keyword keywords _); destruct (has_keyword keywords _);
    reflexivity.
Qed.

(** X4.  Offline, the issue listing ends after its first page, for every
    policy whose keywords are text that [lower] lowers: with any budget
    of one page or more the expected set is the set of the fixture's
    issues 101 and 102 whose text contains a keyword, nothing is printed
    and nothing raises. *)
Theorem offline_listing_one_page :
  forall lib cfg sample requests fuel token owner repo,
    (1 <= fuel)%nat ->
    forallb lower_exact (KEYWORDS cfg) = true ->
    get_relevant_issues lib cfg sample requests fuel token owner repo true
    = (Ret (mock_relevant (KEYWORDS cfg)), []).
Proof.
  intros lib cfg sample requests fuel token owner repo Hfuel _.
  destruct fuel as [| fuel]; [lia |].
  unfold get_relevant_issues.
  rewrite (loop_step lib cfg sample requests token owner repo true fuel 1 []
             true (VList [issue_101; issue_102]) []
             (mock_page lib sample requests token owner repo 1)).
  cbn [negb truthy orb py_iter is_list list_len andb List.length].
  rewrite bind_ret_l, mock_scan, bind_ret_l. reflexivity.
Qed.

Lemma offline_listing_one_page_witness :
  get_relevant_issues PyRef.pylib CONFIG SAMPLE_ANALYSIS None 3 None "o" "r" true
  = (Ret [VInt 101; VInt 102], []).
Proof.
  apply (offline_listing_one_page PyRef.pylib CONFIG SAMPLE_ANALYSIS None 3 None "o" "r").
  - lia.
  - reflexivity.
Defined.

(* ================================================================= *)
(** ** The loader offline *)

(** X5.  Offline, the loader returns the bundled sample itself, for every
    sample, file name and credentials, when the configured format is
    "json" and the library decodes what it encodes. *)
Theorem offline_loader_round_trip :
  forall lib cfg sample requests token owner repo,
    ANALYSIS_FILE_FORMAT cfg = "json" ->
    library_round_trip lib sample ->
    load_analysis_results lib cfg sample requests token owner repo true
    = (Ret sample, []).
Proof. intros. apply load_offline; assumption. Qed.

Lemma offline_loader_round_trip_witness :
  load_analysis_results PyRef.pylib CONFIG (VList [VInt 1; VStr "two"; VNone])
    None None "o" "r" true
  = (Ret (VList [VInt 1; VStr "two"; VNone]), []).
Proof.
  apply (offline_loader_round_trip PyRef.pylib CONFIG
           (VList [VInt 1; VStr "two"; VNone]) None None "o" "r").
  - reflexivity.
  - vm_compute. reflexivity.
Defined.

(* ================================================================= *)
(** ** The commit validator *)

Lemma bind_prepend {A B} (a : A) (w : list event) (f : A -> M B) :
  bind (Ret a, w) f = prepend w (f a).
Proof. apply bind_Ret. Qed.

Lemma resolve_author {B} (cd : list (string * value)) (k : value -> M B) :
  commit_shaped (VDict cd) = true ->
  (author <- py_get (VDict cd) "author" (VDict []) ;;
   login <- py_get author "login" VNone ;;
   actual <-
     (if negb (truthy login) then
        commit <- py_get (VDict cd) "commit" (VDict []) ;;
        commit_author <- py_get commit "author" (VDict []) ;;
        py_get commit_author "name" VNone
      else ret login) ;;
   k actual)
  = k (actual_author (VDict cd)).
Proof.
  unfold commit_shaped, actual_author, get_or. cbn [fields_of]. intros Hshape.
  unfold py_get at 1. rewrite bind_ret_l.
  destruct (match lookup "author" cd with Some v => v | None => VDict [] end)
    as [| | | | | | a]; try discriminate.
  unfold py_get at 1. rewrite bind_ret_l. cbn [fields_of].
  destruct (truthy (match lookup "login" a with Some v => v | None => VNone end));
    cbn [negb orb] in *; [rewrite bind_ret_l; reflexivity |].
  unfold py_get at 1. rewrite bind_ret_l.
  destruct (match lookup "commit" cd with Some v => v | None => VDict [] end)
    as [| | | | | | c]; try discriminate.
  unfold py_get at 1. rewrite bind_ret_l. cbn [fields_of].
  destruct (match lookup "author" c with Some v => v | None => VDict [] end)
    as [| | | | | | ca]; try discriminate.
  unfold py_get. rewrite bind_ret_l. reflexivity.
Qed.

Lemma commit_validator_run lib cfg sample requests d token owner repo mock
    sha success payload w date :
  lookup "target_commit_sha" d = Some (VStr sha) ->
  sha_format_ok sha = true ->
  github_api_request lib sample requests ("commits/" ++ sha)%string
    token owner repo mock = (Ret (success, payload), w) ->
  (negb success || negb (truthy payload) = false -> commit_shaped payload = true) ->
  get_or "commit_date" (VStr "") d = VStr date ->
  verify_commit_data lib cfg sample requests (VDict d) token owner repo mock
  = prepend w (commit_verdict cfg sha d success payload date).
Proof.
  intros Hsha Hformat Hreq Hshape Hdate.
  unfold verify_commit_data, commit_verdict, py_get at 1.
  rewrite Hsha, bind_ret_l, Hformat. cbn [negb]. rewrite Hreq, bind_prepend.
  f_equal.
  destruct (negb success || negb (truthy payload)); [reflexivity |].
  specialize (Hshape eq_refl).
  destruct payload as [| | | | | | cd]; try discriminate.
  unfold py_get at 1. rewrite bind_ret_l.
  fold (get_or "commit_author" VNone d).
  rewrite (resolve_author cd _ Hshape).
  destruct (py_eq _ _); cbn [negb]; [| reflexivity].
  unfold py_get. rewrite bind_ret_l. fold (get_or "commit_date" (VStr "") d).
  rewrite Hdate. cbn [match_date]. rewrite bind_ret_l.
  destruct (DATE_FORMAT cfg date); reflexivity.
Qed.

Lemma null_author_raises lib cfg sample requests d token owner repo mock
    sha cd a w :
  lookup "target_commit_sha" d = Some (VStr sha) ->
  sha_format_ok sha = true ->
  github_api_request lib sample requests ("commits/" ++ sha)%string
    token owner repo mock = (Ret (true, VDict cd), w) ->
  cd <> [] ->
  lookup "author" cd = Some a ->
  is_dict a = false ->
  verify_commit_data lib cfg sample requests (VDict d) token owner repo mock
  = (Raise AttributeError, w).
Proof.
  intros Hsha Hformat Hreq Hcd Hauthor Ha.
  unfold verify_commit_data, py_get at 1.
  rewrite Hsha, bind_ret_l, Hformat. cbn [negb]. rewrite Hreq, bind_prepend.
  replace (truthy (VDict cd)) with true by (destruct cd; [contradiction | reflexivity]).
  cbn [negb orb].
  unfold py_get at 1. rewrite bind_ret_l.
  unfold py_get at 1. rewrite Hauthor, bind_ret_l.
  destruct a; try discriminate; unfold prepend; cbn; rewrite app_nil_r; reflexivity.
Qed.

(** X6.  With a well-formed commit id, the commit validator makes one fetch
    and then, on a found commit whose author field is absent or an
    object, applies three checks in this order, each with its own
    diagnostic: the commit is found (a fetch that succeeds with an empty
    payload counts as not found); [commit_author] equals the login of
    the commit's account or, when there is no login, the author name
    recorded in the commit; [commit_date], the empty string when
    missing, matches the date pattern.  It passes only when all hold.
    The two authors are printable.  On a found commit whose author
    field is present and not an object (null, for a commit without an
    account) the validator raises [AttributeError] before it reaches the
    recorded name. *)
Theorem commit_validator_checks_in_order :
  forall lib cfg sample requests d token owner repo mock
         sha success payload w date,
    lookup "target_commit_sha" d = Some (VStr sha) ->
    sha_format_ok sha = true ->
    github_api_request lib sample requests ("commits/" ++ sha)%string
      token owner repo mock = (Ret (success, payload), w) ->
    get_or "commit_date" (VStr "") d = VStr date ->
    ((negb success || negb (truthy payload) = false -> commit_shaped payload = true) ->
     printable (get_or "commit_author" VNone d) = true ->
     printable (actual_author payload) = true ->
     verify_commit_data lib cfg sample requests (VDict d) token owner repo mock
     = prepend w (commit_verdict cfg sha d success payload date))
    /\ (forall cd a,
          success = true ->
          payload = VDict cd ->
          cd <> [] ->
          lookup "author" cd = Some a ->
          is_dict a = false ->
          verify_commit_data lib cfg sample requests (VDict d) token owner repo mock
          = (Raise AttributeError, w)).
Proof.
  intros lib cfg sample requests d token owner repo mock sha success payload w date
         Hsha Hformat Hreq Hdate.
  split.
  - intros Hshape _ _. apply commit_validator_run; assumption.
  - intros cd a -> -> Hcd Hauthor Ha.
    apply (null_author_raises lib cfg sample requests d token owner repo mock
             sha cd a w); assumption.
Qed.

(** Online, a commit without a linked login: the author name recorded in
    the commit is compared, and it differs from the sample's author.
    With a null author the validator raises. *)
Lemma commit_validator_checks_in_order_witness :
  let payload :=
    VDict [("author", VDict []);
           ("commit", VDict [("author", VDict [("name", VStr "Example Author")])])] in
  verify_commit_data PyRef.pylib CONFIG SAMPLE_ANALYSIS (Some (always_200 payload))
    (VDict (fields_of SAMPLE_ANALYSIS)) (Some "t") "o" "r" false
  = (Ret false,
     [Stderr (AuthorMismatch (VStr "example-author") (VStr "Example Author"))])
  /\ verify_commit_data PyRef.pylib CONFIG SAMPLE_ANALYSIS
       (Some commit_without_account)
       (VDict (fields_of SAMPLE_ANALYSIS)) (Some "t") "o" "r" false
     = (Raise AttributeError, []).
Proof.
  intros payload. split.
  - apply (proj1 (commit_validator_checks_in_order PyRef.pylib CONFIG SAMPLE_ANALYSIS
                    (Some (always_200 payload)) (fields_of SAMPLE_ANALYSIS)
                    (Some "t") "o" "r" false
                    "0f4b0c1e2a3b4c5d6e7f8a9b0c1d2e3f4a5b6c7d" true payload []
                    "2025-09-10" eq_refl eq_refl eq_refl eq_refl)); reflexivity.
  - apply (proj2 (commit_validator_checks_in_order PyRef.pylib CONFIG SAMPLE_ANALYSIS
                    (Some commit_without_account) (fields_of SAMPLE_ANALYSIS)
                    (Some "t") "o" "r" false
                    "0f4b0c1e2a3b4c5d6e7f8a9b0c1d2e3f4a5b6c7d" true _ []
                    "2025-09-10" eq_refl eq_refl eq_refl eq_refl)
             _ VNone eq_refl eq_refl); [discriminate | reflexivity | reflexivity].
Defined.

(** X7.  A printable commit id that is missing, is not a string or fails
    the format check is rejected at once: the result does not depend on
    the mode or on the [requests] module, and nothing is fetched. *)
Theorem malformed_sha_fails_before_any_request :
  forall lib cfg sample requests d token owner repo mock,
    (forall sha, lookup "target_commit_sha" d = Some (VStr sha) ->
                 sha_format_ok sha = false) ->
    printable (get_or "target_commit_sha" VNone d) = true ->
    verify_commit_data lib cfg sample requests (VDict d) token owner repo mock
    = (Ret false, [Stderr (InvalidShaFormat (get_or "target_commit_sha" VNone d))]).
Proof.
  intros lib cfg sample requests d token owner repo mock Hbad _.
  unfold verify_commit_data, py_get, get_or. rewrite bind_ret_l.
  destruct (lookup "target_commit_sha" d) as [[| | | | sha | |] |]; try reflexivity.
  rewrite (Hbad sha eq_refl). reflexivity.
Qed.

Lemma malformed_sha_fails_before_any_request_witness :
  verify_commit_data PyRef.pylib CONFIG SAMPLE_ANALYSIS
    (Some commit_without_account)
    (VDict [("target_commit_sha", VStr "0f4b0c1"); ("commit_author", VStr "a")])
    (Some "t") "o" "r" false
  = (Ret false, [Stderr (InvalidShaFormat (VStr "0f4b0c1"))]).
Proof.
  apply (malformed_sha_fails_before_any_request PyRef.pylib CONFIG SAMPLE_ANALYSIS
           (Some commit_without_account)
           [("target_commit_sha", VStr "0f4b0c1"); ("commit_author", VStr "a")]
           (Some "t") "o" "r" false).
  - intros sha H. injection H as <-. reflexivity.
  - reflexivity.
Defined.

(** X8.  The validator compares nothing but the author with the commit it
    fetched: two found commits with the same resolved author give the
    same result and the same diagnostics, whatever id and date they
    carry. *)
Theorem commit_validator_reads_author_only :
  forall lib cfg sample requests requests' d token owner repo mock mock'
         sha payload payload' w date,
    lookup "target_commit_sha" d = Some (VStr sha) ->
    sha_format_ok sha = true ->
    get_or "commit_date" (VStr "") d = VStr date ->
    github_api_request lib sample requests ("commits/" ++ sha)%string
      token owner repo mock = (Ret (true, payload), w) ->
    github_api_request lib sample requests' ("commits/" ++ sha)%string
      token owner repo mock' = (Ret (true, payload'), w) ->
    commit_shaped payload = true ->
    commit_shaped payload' = true ->
    truthy payload = true ->
    truthy payload' = true ->
    actual_author payload = actual_author payload' ->
    verify_commit_data lib cfg sample requests (VDict d) token owner repo mock
    = verify_commit_data lib cfg sample requests' (VDict d) token owner repo mock'.
Proof.
  intros lib cfg sample requests requests' d token owner repo mock mock'
    sha payload payload' w date Hsha Hformat Hdate Hreq Hreq' Hs Hs' Ht Ht' Hauthor.
  rewrite (commit_validator_run lib cfg sample requests d token owner repo mock
             sha true payload w date Hsha Hformat Hreq (fun _ => Hs) Hdate).
  rewrite (commit_validator_run lib cfg sample requests' d token owner repo mock'
             sha true payload' w date Hsha Hformat Hreq' (fun _ => Hs') Hdate).
  unfold commit_verdict. rewrite Ht, Ht', Hauthor. reflexivity.
Qed.

(** Offline against online: the fixture's commit and a commit with
    another id and date, both by the sample's author. *)
Lemma commit_validator_reads_author_only_witness :
  verify_commit_data PyRef.pylib CONFIG SAMPLE_ANALYSIS None
    (VDict (fields_of SAMPLE_ANALYSIS)) (Some "t") "o" "r" true
  = verify_commit_data PyRef.pylib CONFIG SAMPLE_ANALYSIS
      (Some (always_200 (commit_of "ffff" "1999-01-01")))
      (VDict (fields_of SAMPLE_ANALYSIS)) (Some "t") "o" "r" false.
Proof.
  apply (commit_validator_reads_author_only PyRef.pylib CONFIG SAMPLE_ANALYSIS None
           (Some (always_200 (commit_of "ffff" "1999-01-01")))
           (fields_of SAMPLE_ANALYSIS) (Some "t") "o" "r" true false
           "0f4b0c1e2a3b4c5d6e7f8a9b0c1d2e3f4a5b6c7d"
           (commit_of "0f4b0c1e2a3b4c5d6e7f8a9b0c1d2e3f4a5b6c7d" "2025-09-10")
           (commit_of "ffff" "1999-01-01") [] "2025-09-10"); reflexivity.
Defined.

(* ================================================================= *)
(** ** The date pattern *)

Lemma append_nil_r (s : string) : (s ++ "")%string = s.
Proof. induction s; simpl; congruence. Qed.

Lemma append_assoc (a b c : string) : ((a ++ b) ++ c = a ++ (b ++ c))%string.
Proof. induction a; simpl; congruence. Qed.

Lemma literal_spec (c : ascii) (s rest : string) :
  literal c s = Some rest <-> s = String c rest.
Proof.
  unfold literal. destruct s as [| c' s']; [split; discriminate |].
  destruct (Ascii.eqb c c') eqn:Hc.
  - apply Ascii.eqb_eq in Hc. subst c'. split; congruence.
  - apply Ascii.eqb_neq in Hc. split; [discriminate | congruence].
Qed.

Lemma run_of_digits (n : nat) (s rest : string) :
  run_of is_digit n s = Some rest <->
  exists h, digits_n n h /\ s = (h ++ rest)%string.
Proof.
  rewrite run_of_spec. unfold digits_n. split; intros (h & H); exists h; tauto.
Qed.

(** X9.  On ASCII text, the pattern of the script's [DATE_FORMAT] accepts
    four digits, two digits and two digits joined by hyphens, and the
    same followed by one newline; it accepts nothing else, and it does
    not look at the calendar. *)
Theorem date_format_spec :
  forall s,
    ascii_text s = true ->
    DATE_FORMAT CONFIG s = true <->
    exists y m dd,
      digits_n 4 y /\ digits_n 2 m /\ digits_n 2 dd
      /\ (s = date_text y m dd
          \/ s = (date_text y m dd ++ String newline EmptyString)%string).
Proof.
  intros s _. cbn [DATE_FORMAT CONFIG]. unfold date_yyyy_mm_dd, date_text. split.
  - destruct (run_of is_digit 4 s) as [s1 |] eqn:H1; [| discriminate].
    cbn [and_then].
    destruct (literal "-" s1) as [s2 |] eqn:H2; [| discriminate]. cbn [and_then].
    destruct (run_of is_digit 2 s2) as [s3 |] eqn:H3; [| discriminate].
    cbn [and_then].
    destruct (literal "-" s3) as [s4 |] eqn:H4; [| discriminate]. cbn [and_then].
    destruct (run_of is_digit 2 s4) as [rest |] eqn:H5; [| discriminate].
    intros Hend.
    apply run_of_digits in H1 as (y & Hy & ->).
    apply literal_spec in H2 as ->.
    apply run_of_digits in H3 as (m & Hm & ->).
    apply literal_spec in H4 as ->.
    apply run_of_digits in H5 as (dd & Hdd & ->).
    exists y, m, dd. repeat split; try apply Hy; try apply Hm; try apply Hdd.
    apply at_dollar_spec in Hend as [-> | ->].
    + left. rewrite append_nil_r. reflexivity.
    + right. rewrite !append_assoc. reflexivity.
  - intros (y & m & dd & Hy & Hm & Hdd & Hs).
    assert (Hrun : forall rest,
      s = (y ++ "-" ++ m ++ "-" ++ dd ++ rest)%string ->
      and_then (run_of is_digit 4 s) (fun s1 =>
      and_then (literal "-" s1) (fun s2 =>
      and_then (run_of is_digit 2 s2) (fun s3 =>
      and_then (literal "-" s3) (fun s4 =>
      run_of is_digit 2 s4)))) = Some rest).
    { intros rest ->.
      rewrite (proj2 (run_of_digits 4 _ _) (ex_intro _ y (conj Hy eq_refl))).
      cbn [and_then String.append literal]. rewrite Ascii.eqb_refl. cbn [and_then].
      rewrite (proj2 (run_of_digits 2 _ _) (ex_intro _ m (conj Hm eq_refl))).
      cbn [and_then String.append literal]. rewrite Ascii.eqb_refl. cbn [and_then].
      apply run_of_digits. exists dd. auto. }
    destruct Hs as [-> | ->].
    + rewrite (Hrun EmptyString); [reflexivity |].
      rewrite append_nil_r. reflexivity.
    + rewrite (Hrun (String newline EmptyString)); [reflexivity |].
      rewrite !append_assoc. reflexivity.
Qed.

Lemma date_format_spec_witness :
  DATE_FORMAT CONFIG "2025-09-10" = true <->
  exists y m dd,
    digits_n 4 y /\ digits_n 2 m /\ digits_n 2 dd
    /\ ("2025-09-10" = date_text y m dd
        \/ "2025-09-10" = (date_text y m dd ++ String newline EmptyString)%string).
Proof. apply (date_format_spec "2025-09-10"). reflexivity. Defined.

(** No calendar: month 99 and day 00 pass. *)
Example date_format_no_calendar : DATE_FORMAT CONFIG "2025-99-00" = true.
Proof. reflexivity. Qed.

(* ================================================================= *)
(** ** More on the parameter validator *)

Lemma changes_get (d pc : list (string * value)) :
  changes_are d pc ->
  py_get (VDict d) "parameter_changes" (VDict []) = ret (VDict pc).
Proof. unfold py_get. intros [-> | [-> ->]]; reflexivity. Qed.

Lemma check_fields_first_missing (c : list (string * value)) (param : string) :
  forall fs1 field fs2,
    forallb (fun f => has_key f c) fs1 = true ->
    has_key field c = false ->
    check_fields (VDict c) param (fs1 ++ field :: fs2)
    = (Ret false, [Stderr (MissingField field param)]).
Proof.
  induction fs1 as [| f fs1 IH]; intros field fs2 Hfs Hfield;
    cbn [app check_fields py_in forallb] in *; rewrite bind_ret_l.
  - rewrite Hfield. reflexivity.
  - apply andb_true_iff in Hfs as [-> Hfs]. apply IH; assumption.
Qed.

Lemma check_required_skip (pc : list (string * value)) (ps1 ps2 : list string) :
  entries_are_dicts pc = true ->
  complete ps1 pc = true ->
  check_required (VDict pc) (ps1 ++ ps2) = check_required (VDict pc) ps2.
Proof.
  intros Hpc. induction ps1 as [| param ps1 IH]; [reflexivity |].
  cbn [app complete forallb check_required]. intros H.
  apply andb_true_iff in H as [Hparam Hps1].
  unfold py_in, subscript, has_key at 1.
  destruct (lookup param pc) as [[| | | | | | c] |]; try discriminate.
  rewrite !bind_ret_l. cbn [negb].
  pose proof (check_fields_verdict c param ["before"; "after"; "line_number"]) as Hf.
  cbn [forallb] in Hf. rewrite andb_true_r, andb_assoc, Hparam in Hf.
  cbn [verdict] in Hf. rewrite Hf, bind_Ret_nil. cbn [negb]. apply IH, Hps1.
Qed.

(** X10.  On a document whose [parameter_changes] is absent or an object
    of objects, the completeness pass names the first thing that is
    missing, in every mode and before any value is compared: the first
    required parameter without an entry, or the first of [before],
    [after], [line_number] that its entry lacks. *)
Theorem completeness_names_first_missing :
  forall lib cfg d pc ps1 param ps2,
    changes_are d pc ->
    entries_are_dicts pc = true ->
    REQUIRED_PARAMETERS cfg = ps1 ++ param :: ps2 ->
    complete ps1 pc = true ->
    (lookup param pc = None ->
     verify_parameter_changes lib cfg (VDict d)
     = (Ret false, [Stderr (MissingParameter param)]))
    /\ (forall c fs1 field fs2,
          lookup param pc = Some (VDict c) ->
          ["before"; "after"; "line_number"] = fs1 ++ field :: fs2 ->
          forallb (fun f => has_key f c) fs1 = true ->
          has_key field c = false ->
          verify_parameter_changes lib cfg (VDict d)
          = (Ret false, [Stderr (MissingField field param)])).
Proof.
  intros lib cfg d pc ps1 param ps2 Hd Hpc Hreq Hdone.
  unfold verify_parameter_changes.
  rewrite (changes_get d pc Hd), bind_ret_l, Hreq,
    (check_required_skip pc ps1 (param :: ps2) Hpc Hdone).
  cbn [check_required]. unfold py_in, subscript. rewrite bind_ret_l. split.
  - intros Hnone. unfold has_key. rewrite Hnone. reflexivity.
  - intros c fs1 field fs2 Hsome Hfields Hfs1 Hfield.
    unfold has_key at 1. rewrite Hsome. cbn [negb]. rewrite bind_ret_l, Hfields.
    rewrite (check_fields_first_missing c param fs1 field fs2 Hfs1 Hfield).
    reflexivity.
Qed.

(** The second required parameter of the script is missing. *)
Lemma completeness_names_first_missing_witness :
  verify_parameter_changes PyRef.pylib CONFIG
    (VDict [("parameter_changes",
             VDict [("micro_batch_size_per_device_for_update",
                     VDict [("before", VInt 4); ("after", VInt 2);
                            ("line_number", VInt 120)])])])
  = (Ret false, [Stderr (MissingParameter "micro_batch_size_per_device_for_experience")]).
Proof.
  apply (completeness_names_first_missing PyRef.pylib CONFIG
           [("parameter_changes",
             VDict [("micro_batch_size_per_device_for_update",
                     VDict [("before", VInt 4); ("after", VInt 2);
                            ("line_number", VInt 120)])])]
           [("micro_batch_size_per_device_for_update",
             VDict [("before", VInt 4); ("after", VInt 2); ("line_number", VInt 120)])]
           ["micro_batch_size_per_device_for_update"]
           "micro_batch_size_per_device_for_experience" []).
  - left. reflexivity.
  - reflexivity.
  - reflexivity.
  - reflexivity.
  - reflexivity.
Defined.

(** X11.  In any mode ("any"), on a document whose [parameter_changes]
    is absent or an object of objects, the validator passes exactly when
    the completeness pass holds and every required parameter has a
    [before] that differs from its [after] under [==], and answers
    [False] with one diagnostic otherwise; a change from 1 to 1.0 is no
    change. *)
Theorem any_mode_requires_change :
  forall lib cfg d pc,
    VALIDATION_MODE cfg = "any" ->
    changes_are d pc ->
    entries_are_dicts pc = true ->
    verdict (verify_parameter_changes lib cfg (VDict d))
      (complete (REQUIRED_PARAMETERS cfg) pc
       && forallb (changed pc) (REQUIRED_PARAMETERS cfg)).
Proof.
  intros lib cfg d pc Hmode Hd Hpc.
  unfold verify_parameter_changes.
  rewrite (changes_get d pc Hd), bind_ret_l, Hmode.
  cbn [String.eqb Ascii.eqb Bool.eqb].
  apply verdict_then.
  - apply check_required_verdict, Hpc.
  - apply check_any_verdict, Hpc.
Qed.

(** [before] 4 and [after] 4.0 for the first parameter: no change. *)
Lemma any_mode_requires_change_witness :
  exists diag,
    verify_parameter_changes PyRef.pylib (with_mode "any" CONFIG)
      (VDict [("parameter_changes",
               VDict [("micro_batch_size_per_device_for_update",
                       VDict [("before", VInt 4); ("after", four_point_zero);
                              ("line_number", VInt 120)]);
                      ("micro_batch_size_per_device_for_experience",
                       VDict [("before", VInt 8); ("after", VInt 4);
                              ("line_number", VInt 130)])])])
    = (Ret false, [Stderr diag]).
Proof.
  apply (any_mode_requires_change PyRef.pylib (with_mode "any" CONFIG)
           [("parameter_changes",
             VDict [("micro_batch_size_per_device_for_update",
                     VDict [("before", VInt 4); ("after", four_point_zero);
                            ("line_number", VInt 120)]);
                    ("micro_batch_size_per_device_for_experience",
                     VDict [("before", VInt 8); ("after", VInt 4);
                            ("line_number", VInt 130)])])]
           [("micro_batch_size_per_device_for_update",
             VDict [("before", VInt 4); ("after", four_point_zero);
                    ("line_number", VInt 120)]);
            ("micro_batch_size_per_device_for_experience",
             VDict [("before", VInt 8); ("after", VInt 4);
                    ("line_number", VInt 130)])]).
  - reflexivity.
  - left. reflexivity.
  - reflexivity.
Defined.

(** X12.  A mode other than "exact", "any" and "range" never passes,
    whatever the document is.  On a document whose [parameter_changes]
    is absent or an object of objects the validator answers [False] with
    one diagnostic, which names the unknown mode once the completeness
    pass holds. *)
Theorem unknown_mode_always_fails :
  forall lib cfg,
    VALIDATION_MODE cfg <> "exact" ->
    VALIDATION_MODE cfg <> "any" ->
    VALIDATION_MODE cfg <> "range" ->
    (forall results, result (verify_parameter_changes lib cfg results) <> Ret true)
    /\ (forall d pc,
          changes_are d pc ->
          entries_are_dicts pc = true ->
          exists diag,
            verify_parameter_changes lib cfg (VDict d) = (Ret false, [Stderr diag])
            /\ (complete (REQUIRED_PARAMETERS cfg) pc = true ->
                diag = UnknownMode (VALIDATION_MODE cfg))).
Proof.
  intros lib cfg He Ha Hr.
  apply String.eqb_neq in He, Ha, Hr. split.
  - intros results Hpass. unfold result in Hpass.
    destruct (verify_parameter_changes lib cfg results) as [r w] eqn:Hrun.
    cbn [fst] in Hpass. subst r. unfold verify_parameter_changes in Hrun.
    apply bind_inv_Ret in Hrun as (param_changes & w1 & w2 & _ & Hrun & _).
    apply bind_inv_Ret in Hrun as (ok & w3 & w4 & _ & Hrun & _).
    destruct ok; cbn [negb] in Hrun; [| discriminate Hrun].
    rewrite He, Ha, Hr in Hrun. discriminate Hrun.
  - intros d pc Hd Hpc.
    unfold verify_parameter_changes.
    rewrite (changes_get d pc Hd), bind_ret_l, He, Ha, Hr.
    pose proof (check_required_verdict pc (REQUIRED_PARAMETERS cfg) Hpc) as Hc.
    destruct (complete (REQUIRED_PARAMETERS cfg) pc); cbn [verdict] in Hc.
    + rewrite Hc, bind_Ret_nil. cbn [negb]. eexists. split; [reflexivity | auto].
    + destruct Hc as [diag ->]. exists diag. split; [reflexivity | discriminate].
Qed.

(** The mode "Exact" is not "exact": the sample does not pass, and a
    document that is no object does not either. *)
Lemma unknown_mode_always_fails_witness :
  (exists diag,
     verify_parameter_changes PyRef.pylib (with_mode "Exact" CONFIG) SAMPLE_ANALYSIS
       = (Ret false, [Stderr diag])
     /\ (complete (REQUIRED_PARAMETERS (with_mode "Exact" CONFIG))
           (changes_with_before (VInt 4) (VInt 8)) = true ->
         diag = UnknownMode "Exact"))
  /\ result (verify_parameter_changes PyRef.pylib (with_mode "Exact" CONFIG)
               (VDict [("parameter_changes", VInt 5)])) <> Ret true.
Proof.
  assert (Hmode : forall m, m <> "Exact" -> VALIDATION_MODE (with_mode "Exact" CONFIG) <> m)
    by (intros m Hm H; apply Hm; symmetry; exact H).
  split.
  - apply (proj2 (unknown_mode_always_fails PyRef.pylib (with_mode "Exact" CONFIG)
                    (Hmode "exact" ltac:(discriminate))
                    (Hmode "any" ltac:(discriminate))
                    (Hmode "range" ltac:(discriminate)))
             (fields_of SAMPLE_ANALYSIS) (changes_with_before (VInt 4) (VInt 8))).
    + left. reflexivity.
    + reflexivity.
  - apply (proj1 (unknown_mode_always_fails PyRef.pylib (with_mode "Exact" CONFIG)
                    (Hmode "exact" ltac:(discriminate))
                    (Hmode "any" ltac:(discriminate))
                    (Hmode "range" ltac:(discriminate)))).
Defined.

Lemma verify_parameter_changes_result lib cfg d pc :
  changes_are d pc ->
  entries_are_dicts pc = true ->
  range_ready lib cfg pc = true ->
  result (verify_parameter_changes lib cfg (VDict d))
  = Ret (complete (REQUIRED_PARAMETERS cfg) pc && mode_pass lib cfg pc).
Proof.
  intros Hd Hpc Hrange. apply result_of_verdict.
  unfold verify_parameter_changes, mode_pass, range_ready in *.
  rewrite (changes_get d pc Hd), bind_ret_l.
  apply verdict_then; [apply check_required_verdict, Hpc |].
  destruct (String.eqb (VALIDATION_MODE cfg) "exact");
    [apply check_exact_verdict, Hpc |].
  destruct (String.eqb (VALIDATION_MODE cfg) "any");
    [apply check_any_verdict, Hpc |].
  destruct (String.eqb (VALIDATION_MODE cfg) "range");
    [| apply verdict_false_print].
  unfold loads.
  destruct (json_loads lib (RANGE_CONFIG cfg)) as [[| | | | | | items] |];
    try discriminate.
  apply andb_true_iff in Hrange as [Hr Hb].
  rewrite bind_ret_l. cbn [py_items]. rewrite bind_ret_l.
  apply check_range_verdict; assumption.
Qed.

Lemma complete_forallb (ps : list string) (pc : list (string * value)) :
  complete ps pc = forallb (entry_complete pc) ps.
Proof.
  unfold entry_complete, complete. induction ps as [| p ps IH]; cbn [forallb];
    [reflexivity |].
  rewrite andb_true_r, IH. reflexivity.
Qed.

Lemma forallb_same_in {A} (f g : A -> bool) (l : list A) :
  (forall a, In a l -> f a = g a) -> forallb f l = forallb g l.
Proof.
  induction l as [| a l IH]; cbn [forallb]; intros H; [reflexivity |].
  rewrite (H a (or_introl eq_refl)), IH; [reflexivity |].
  intros b Hb. apply H. right. exact Hb.
Qed.

(** X13.  The validator reads nothing of [parameter_changes] but, for the
    parameters it looks up, whether the entry has its three fields and
    the values of [before] and [after]: two documents that agree on
    these get the same answer in every mode.  The value of
    [line_number], further fields and further parameters play no part. *)
Theorem parameter_validator_reads_before_and_after_only :
  forall lib cfg d d' pc pc',
    changes_are d pc ->
    changes_are d' pc' ->
    entries_are_dicts pc = true ->
    entries_are_dicts pc' = true ->
    range_ready lib cfg pc = true ->
    (forall param, In param (looked_up lib cfg) ->
       entry_complete pc param = entry_complete pc' param
       /\ field_of pc param "before" = field_of pc' param "before"
       /\ field_of pc param "after" = field_of pc' param "after") ->
    result (verify_parameter_changes lib cfg (VDict d))
    = result (verify_parameter_changes lib cfg (VDict d')).
Proof.
  intros lib cfg d d' pc pc' Hd Hd' Hpc Hpc' Hrange Hsame.
  unfold looked_up in Hsame.
  assert (Hreq : forall param, In param (REQUIRED_PARAMETERS cfg) ->
            entry_complete pc param = entry_complete pc' param
            /\ field_of pc param "before" = field_of pc' param "before"
            /\ field_of pc param "after" = field_of pc' param "after")
    by (intros param H; apply Hsame, in_or_app; left; exact H).
  assert (Hexp : forall pe, In pe (EXPECTED_VALUES cfg) ->
            as_expected pc pe = as_expected pc' pe).
  { intros pe H. unfold as_expected.
    destruct (Hsame (fst pe)) as (_ & -> & ->); [| reflexivity].
    apply in_or_app. right. apply in_or_app. left. apply in_map, H. }
  assert (Hitems : forall items item,
            json_loads lib (RANGE_CONFIG cfg) = Some (VDict items) ->
            In item items ->
            field_of pc (fst item) "before" = field_of pc' (fst item) "before").
  { intros items item Hloads H. apply Hsame.
    apply in_or_app. right. apply in_or_app. right. rewrite Hloads.
    apply in_map, H. }
  assert (Hrange' : range_ready lib cfg pc' = true).
  { unfold range_ready in *.
    destruct (String.eqb (VALIDATION_MODE cfg) "range"); [| reflexivity].
    destruct (json_loads lib (RANGE_CONFIG cfg)) as [[| | | | | | items] |] eqn:Hloads;
      try discriminate.
    replace (numeric_befores pc' items) with (numeric_befores pc items);
      [exact Hrange |].
    apply forallb_same_in. intros item H.
    rewrite (Hitems items item eq_refl H). reflexivity. }
  rewrite (verify_parameter_changes_result lib cfg d pc Hd Hpc Hrange),
    (verify_parameter_changes_result lib cfg d' pc' Hd' Hpc' Hrange').
  do 2 f_equal.
  - rewrite !complete_forallb. apply forallb_same_in. intros param H.
    apply Hreq, H.
  - unfold mode_pass.
    rewrite (forallb_same_in (as_expected pc) (as_expected pc') _ Hexp).
    rewrite (forallb_same_in (changed pc) (changed pc') (REQUIRED_PARAMETERS cfg)).
    2: { intros param H. unfold changed.
         destruct (Hreq param H) as (_ & -> & ->). reflexivity. }
    destruct (json_loads lib (RANGE_CONFIG cfg)) as [[| | | | | | items] |] eqn:Hloads;
      try reflexivity.
    rewrite (forallb_same_in (in_range pc) (in_range pc') items); [reflexivity |].
    intros item H. unfold in_range. rewrite (Hitems items item eq_refl H).
    reflexivity.
Qed.

(** The sample against one with null and textual line numbers, an extra
    field and an extra parameter. *)
Lemma parameter_validator_reads_before_and_after_only_witness :
  result (verify_parameter_changes PyRef.pylib CONFIG SAMPLE_ANALYSIS)
  = result (verify_parameter_changes PyRef.pylib CONFIG
              (VDict [("parameter_changes", VDict changes_with_noise)])).
Proof.
  apply (parameter_validator_reads_before_and_after_only PyRef.pylib CONFIG
           (fields_of SAMPLE_ANALYSIS)
           [("parameter_changes", VDict changes_with_noise)]
           (changes_with_before (VInt 4) (VInt 8)) changes_with_noise).
  - left. reflexivity.
  - left. reflexivity.
  - reflexivity.
  - reflexivity.
  - reflexivity.
  - vm_compute. intros param H.
    repeat (destruct H as [<- | H]; [repeat split |]). contradiction.
Defined.

(* ================================================================= *)
(** ** What the listing collects *)

Lemma scan_item_result include_pr keywords issues (d : list (string * value)) :
  listed_issue (VDict d) = true ->
  scan_item include_pr keywords issues (VDict d)
  = ret (if relevant include_pr keywords (VDict d)
         then set_insert issues (number_of (VDict d)) else issues).
Proof.
  cbn [listed_issue]. intros H. apply andb_true_iff in H as [Htext Hnum].
  unfold scan_item, relevant, number_of, get_or. cbn [fields_of].
  replace (if negb include_pr then py_in "pull_request" (VDict d) else ret false)
    with (@ret bool (negb include_pr && has_key "pull_request" d))
    by (destruct include_pr; reflexivity).
  rewrite bind_ret_l.
  destruct (negb include_pr && has_key "pull_request" d); cbn [negb andb];
    [reflexivity |].
  unfold py_get. rewrite bind_ret_l, (issue_text_shaped d Htext), bind_ret_l.
  destruct (has_keyword keywords (text_of d)); [| reflexivity].
  apply set_add_hashable. destruct (lookup "number" d); [exact Hnum | reflexivity].
Qed.

Lemma set_mem_insert_int (n m : Z) (s : pyset) :
  set_mem (VInt n) (set_insert s (VInt m)) = set_mem (VInt n) s || (m =? n).
Proof.
  unfold set_insert. destruct (set_mem (VInt m) s) eqn:Hm.
  - destruct (m =? n) eqn:Hmn; [| now rewrite orb_false_r].
    apply Z.eqb_eq in Hmn. subst m. rewrite Hm. reflexivity.
  - unfold set_mem. rewrite existsb_app. cbn [existsb].
    rewrite py_eq_int, orb_false_r, (Z.eqb_sym n m). reflexivity.
Qed.

(** X14.  Scanning a page of issue objects with integer numbers, where the
    keywords and the items' texts are text that [lower] lowers:
    afterwards a number is in the set exactly when it was there before or
    the page has an item with that number that counts, one whose title
    and body, lowered, contain a lowered keyword and that is not a pull
    request unless INCLUDE_PR is set.  Nothing is printed and nothing
    raises. *)
Theorem scan_collects_relevant_numbers :
  forall include_pr keywords items issues,
    forallb listed_issue items = true ->
    forallb int_numbered items = true ->
    forallb lower_exact keywords = true ->
    forallb text_exact items = true ->
    exists collected,
      scan_items include_pr keywords issues items = ret collected
      /\ forall n,
           set_mem (VInt n) collected
           = set_mem (VInt n) issues
             || existsb (fun item => relevant include_pr keywords item && numbered n item)
                  items.
Proof.
  intros include_pr keywords items issues Hshape Hint _ _. revert issues Hshape Hint.
  induction items as [| item items IH]; intros issues Hshape Hint;
    cbn [forallb scan_items existsb] in *.
  - exists issues. split; [reflexivity |]. intros n. now rewrite orb_false_r.
  - apply andb_true_iff in Hshape as [Hitem Hitems].
    apply andb_true_iff in Hint as [Hnum Hnums].
    destruct item as [| | | | | | d]; try discriminate.
    rewrite (scan_item_result include_pr keywords issues d Hitem), bind_ret_l.
    destruct (IH (if relevant include_pr keywords (VDict d)
                  then set_insert issues (number_of (VDict d)) else issues)
                Hitems Hnums) as (collected & -> & Hmem).
    exists collected. split; [reflexivity |]. intros n. rewrite Hmem.
    unfold int_numbered, numbered in *.
    destruct (number_of (VDict d)) as [| | m | | | |]; try discriminate.
    destruct (relevant include_pr keywords (VDict d)); cbn [andb orb].
    + rewrite set_mem_insert_int, orb_assoc. reflexivity.
    + reflexivity.
Qed.

(** The script's keywords on a page with a pull request: only issue 1 is
    collected. *)
Lemma scan_collects_relevant_numbers_witness :
  exists collected,
    scan_items false (KEYWORDS CONFIG) [] mixed_page = ret collected
    /\ forall n,
         set_mem (VInt n) collected
         = set_mem (VInt n) []
           || existsb (fun item => relevant false (KEYWORDS CONFIG) item && numbered n item)
                mixed_page.
Proof.
  apply (scan_collects_relevant_numbers false (KEYWORDS CONFIG) mixed_page []);
    reflexivity.
Defined.

Example scan_mixed_page :
  scan_items false (KEYWORDS CONFIG) [] mixed_page = ret [VInt 1]
  /\ scan_items true (KEYWORDS CONFIG) [] mixed_page = ret [VInt 1; VInt 2].
Proof. split; reflexivity. Qed.

(* ================================================================= *)
(** ** More on the issue validator *)

Lemma prepend_nil {A} (m : M A) : prepend [] m = m.
Proof. destruct m. reflexivity. Qed.

Lemma prepend_prepend {A} (w w' : list event) (m : M A) :
  prepend w (prepend w' m) = prepend (w ++ w') m.
Proof. unfold prepend. cbn. rewrite app_assoc. reflexivity. Qed.

Section Issues.

Context (lib : PyLib) (cfg : Config) (sample : value) (requests : option Requests).
Context (token : option string) (owner repo : string) (mock : bool).

Local Abbreviation request := (adapter lib sample requests token owner repo mock).
Local Abbreviation check := (check_issues lib cfg sample requests token owner repo mock).
Local Abbreviation verify fuel results :=
  (verify_issues lib cfg sample requests fuel results token owner repo mock).

Lemma check_issues_app (l1 l2 : list value) :
  forall w1,
    check l1 = (Ret true, w1) ->
    check (l1 ++ l2) = prepend w1 (check l2).
Proof.
  induction l1 as [| x l1 IH]; intros w1; cbn [app check_issues].
  - intros [= <-]. symmetry. apply prepend_nil.
  - rewrite issue_number_test, !bind_ret_l.
    destruct (negb (valid_issue_number x)); [discriminate |].
    destruct (github_api_request lib sample requests _ token owner repo mock)
      as [[[success data] | e |] w]; [| discriminate | discriminate].
    rewrite !bind_prepend.
    destruct (negb success || negb (truthy data)); [discriminate |].
    destruct (issue_text data) as [[text | e |] wt]; [| discriminate | discriminate].
    rewrite !bind_prepend.
    destruct (negb (has_keyword (KEYWORDS cfg) text)); [discriminate |].
    destruct (check l1) as [[[|] | e |] wr] eqn:Hl1; try discriminate.
    rewrite (IH wr eq_refl). unfold prepend. cbn [fst snd].
    intros [= <-]. rewrite !app_assoc. reflexivity.
Qed.

Lemma verify_issues_failed_check (fuel : nat) (d : list (string * value))
    (l : list value) (w : list event) :
  lookup "related_issue_number_list" d = Some (VList l) ->
  l <> [] ->
  check l = (Ret false, w) ->
  verify fuel (VDict d) = (Ret false, w).
Proof.
  intros Hd Hl Hcheck. unfold verify_issues, py_get. rewrite Hd, bind_ret_l.
  replace (Z.of_nat (List.length l) =? 0) with false
    by (destruct l; [contradiction | reflexivity]).
  cbn [andb]. rewrite Hcheck, bind_prepend. unfold prepend. cbn.
  rewrite app_nil_r. reflexivity.
Qed.

(** X15.  The per-issue loop stops at the first entry that fails, after the
    entries before it have passed, and the validator answers [False]
    with the diagnostic of that entry, when the entry is printable:
    - an entry that is not an integer above zero (a float such as 101.0,
      a string, 0, [false], null) is rejected without a fetch;
    - an issue that the adapter does not find, or finds with an empty
      payload, is reported as not found;
    - an issue whose lowered title and body contain no lowered keyword
      is reported with the keyword list (for keywords and issue text
      that [lower] lowers). *)
Theorem issue_check_stops_at_first_failure :
  forall fuel d l1 x l2 w1,
    lookup "related_issue_number_list" d = Some (VList (l1 ++ x :: l2)) ->
    check l1 = (Ret true, w1) ->
    printable x = true ->
    (valid_issue_number x = false ->
     verify fuel (VDict d) = (Ret false, w1 ++ [Stderr (InvalidIssueNumber x)]))
    /\ (forall success payload w,
          valid_issue_number x = true ->
          request ("issues/" ++ str_of_int_value x)%string = (Ret (success, payload), w) ->
          negb success || negb (truthy payload) = true ->
          verify fuel (VDict d)
          = (Ret false, w1 ++ w ++ [Stderr (IssueNotFound x)]))
    /\ (forall fields w,
          valid_issue_number x = true ->
          request ("issues/" ++ str_of_int_value x)%string
            = (Ret (true, VDict fields), w) ->
          fields <> [] ->
          text_ok fields = true ->
          forallb lower_exact (KEYWORDS cfg) = true ->
          lower_exact (text_of fields) = true ->
          has_keyword (KEYWORDS cfg) (text_of fields) = false ->
          verify fuel (VDict d)
          = (Ret false,
             w1 ++ w ++ [Stderr (IssueMissingKeywords x (KEYWORDS cfg))])).
Proof.
  intros fuel d l1 x l2 w1 Hd Hl1 _.
  assert (Hne : l1 ++ x :: l2 <> []) by (destruct l1; discriminate).
  pose proof (check_issues_app l1 (x :: l2) w1 Hl1) as Happ.
  cbn [check_issues] in Happ. rewrite issue_number_test, bind_ret_l in Happ.
  repeat split.
  - intros Hx. rewrite Hx in Happ.
    apply (verify_issues_failed_check fuel d _ _ Hd Hne). rewrite Happ. reflexivity.
  - intros success payload w Hx Hreq Hmissing. rewrite Hx in Happ.
    unfold adapter in Hreq. cbn [negb] in Happ.
    rewrite Hreq, bind_prepend, Hmissing in Happ.
    apply (verify_issues_failed_check fuel d _ _ Hd Hne). rewrite Happ. reflexivity.
  - intros fields w Hx Hreq Hfields Htext _ _ Hkw. rewrite Hx in Happ.
    unfold adapter in Hreq. cbn [negb] in Happ.
    rewrite Hreq, bind_prepend in Happ.
    replace (truthy (VDict fields)) with true in Happ
      by (destruct fields; [contradiction | reflexivity]).
    cbn [negb orb] in Happ.
    rewrite (issue_text_shaped fields Htext), bind_ret_l, Hkw in Happ.
    apply (verify_issues_failed_check fuel d _ _ Hd Hne). rewrite Happ. reflexivity.
Qed.

(** X16.  When the listed issues pass the content check and the set of the
    document's numbers equals the set computed from the listing, the
    validator passes and prints nothing of its own. *)
Theorem matching_issue_sets_pass :
  forall fuel d l w1 expected w2,
    lookup "related_issue_number_list" d = Some (VList l) ->
    l <> [] \/ toggle (ALLOW_EMPTY_ISSUES cfg) = true ->
    check l = (Ret true, w1) ->
    get_relevant_issues lib cfg sample requests fuel token owner repo mock
      = (Ret expected, w2) ->
    set_eq (set_of l) expected = true ->
    verify fuel (VDict d) = (Ret true, w1 ++ w2).
Proof.
  intros fuel d l w1 expected w2 Hd Hempty Hcheck Hexpected Heq.
  unfold verify_issues, py_get. rewrite Hd, bind_ret_l.
  replace ((Z.of_nat (List.length l) =? 0) && negb (toggle (ALLOW_EMPTY_ISSUES cfg)))
    with false.
  2: { destruct Hempty as [Hl | ->]; [| now rewrite andb_false_r].
       destruct l; [contradiction | reflexivity]. }
  rewrite Hcheck, bind_prepend. cbn [negb]. rewrite Hexpected, bind_prepend.
  rewrite (set_of_list_hashable l), bind_ret_l.
  - fold (set_of l). unfold reconcile. rewrite Heq. unfold prepend. cbn.
    rewrite app_nil_r. reflexivity.
  - apply check_issues_passed_ints in Hcheck.
    rewrite forallb_forall in *. intros v Hv. apply is_int_hashable, Hcheck, Hv.
Qed.

(** X17.  The issue list is examined before anything is fetched: a value that
    is not a list, and an empty or missing list when ALLOW_EMPTY_ISSUES
    is not set, give [False] at once, in either mode.  When the toggle
    is set, an empty or missing list is compared with the expected set:
    it passes when that set is empty or STRICT_ISSUE_MATCH is not set,
    and the expected issues are reported as missing. *)
Theorem issue_list_examined_first :
  forall fuel d,
    (forall v, lookup "related_issue_number_list" d = Some v -> is_list v = false ->
       verify fuel (VDict d) = (Ret false, [Stderr IssueListNotList]))
    /\ (get_or "related_issue_number_list" (VList []) d = VList [] ->
        toggle (ALLOW_EMPTY_ISSUES cfg) = false ->
        verify fuel (VDict d) = (Ret false, [Stderr IssueListEmpty]))
    /\ (forall expected w,
          get_or "related_issue_number_list" (VList []) d = VList [] ->
          toggle (ALLOW_EMPTY_ISSUES cfg) = true ->
          get_relevant_issues lib cfg sample requests fuel token owner repo mock
            = (Ret expected, w) ->
          verify fuel (VDict d)
          = (Ret (negb (nonempty expected && toggle (STRICT_ISSUE_MATCH cfg))),
             w ++ (if nonempty expected then [Stderr (MissingIssues expected)]
                   else []))).
Proof.
  intros fuel d. unfold verify_issues, py_get, get_or. repeat split.
  - intros v -> Hv. rewrite bind_ret_l. destruct v; try reflexivity. discriminate.
  - intros -> Hallow. rewrite bind_ret_l. cbn. rewrite Hallow. reflexivity.
  - intros expected w -> Hallow Hexpected. rewrite bind_ret_l.
    cbn [List.length Z.of_nat Z.eqb andb check_issues]. rewrite Hallow.
    cbn [negb]. rewrite bind_ret_l. cbn [negb].
    rewrite Hexpected, bind_prepend. cbn [set_of_list]. rewrite bind_ret_l.
    unfold reconcile, set_eq, set_subset, set_diff, set_mem. cbn [forallb filter andb].
    unfold prepend.
    destruct expected as [| v expected].
    + cbn. rewrite app_nil_r. reflexivity.
    + cbn [existsb forallb negb andb filter nonempty].
      replace (filter (fun _ : value => true) expected) with expected
        by (clear; induction expected; cbn; congruence).
      destruct (toggle (STRICT_ISSUE_MATCH cfg)); reflexivity.
Qed.

Lemma check_passed_has_keywords (x : value) (l : list value) (w : list event) :
  check (x :: l) = (Ret true, w) -> KEYWORDS cfg <> [].
Proof.
  cbn [check_issues]. intros H Hkw.
  apply bind_inv_Ret in H as (bad & wa & wb & _ & H & _).
  destruct bad; [discriminate |].
  apply bind_inv_Ret in H as ([success data] & wc & wd & _ & H & _).
  destruct (negb success || negb (truthy data)); [discriminate |].
  apply bind_inv_Ret in H as (text & we & wf & _ & H & _).
  rewrite Hkw in H. discriminate.
Qed.

(** X18.  With an empty keyword list no document with a non-empty issue list
    passes the issue validator: the content check of its first issue
    cannot succeed. *)
Theorem no_keywords_no_pass :
  forall fuel d l,
    KEYWORDS cfg = [] ->
    lookup "related_issue_number_list" d = Some (VList l) ->
    l <> [] ->
    result (verify fuel (VDict d)) <> Ret true.
Proof.
  intros fuel d l Hkw Hd Hl Hpass.
  destruct (verify_issues lib cfg sample requests fuel (VDict d) token owner repo mock)
    as [r w] eqn:Hverify.
  cbn in Hpass. subst r. unfold verify_issues, py_get in Hverify.
  rewrite Hd, bind_ret_l in Hverify.
  replace (Z.of_nat (List.length l) =? 0) with false in Hverify
    by (destruct l; [contradiction | reflexivity]).
  cbn [andb] in Hverify.
  apply bind_inv_Ret in Hverify as (ok & wa & wb & Hcheck & H & _).
  destruct ok; [| discriminate].
  destruct l as [| x l]; [contradiction |].
  apply (check_passed_has_keywords x l wa Hcheck Hkw).
Qed.

End Issues.

(** Offline, the list [101, 101.0, 102]: issue 101 passes, the float is
    rejected, issue 102 is not reached. *)
Lemma issue_check_stops_at_first_failure_witness :
  verify_issues PyRef.pylib CONFIG SAMPLE_ANALYSIS None 1
    (VDict [("related_issue_number_list", VList [VInt 101; float_101; VInt 102])])
    None "o" "r" true
  = (Ret false, [Stderr (InvalidIssueNumber float_101)]).
Proof.
  apply (issue_check_stops_at_first_failure PyRef.pylib CONFIG SAMPLE_ANALYSIS None
           None "o" "r" true 1
           [("related_issue_number_list", VList [VInt 101; float_101; VInt 102])]
           [VInt 101] float_101 [VInt 102] []); reflexivity.
Defined.

(** Offline, the list [102, 101, 101]: order and repetition do not
    matter. *)
Lemma matching_issue_sets_pass_witness :
  verify_issues PyRef.pylib CONFIG SAMPLE_ANALYSIS None 1
    (VDict [("related_issue_number_list", VList [VInt 102; VInt 101; VInt 101])])
    None "o" "r" true
  = (Ret true, []).
Proof.
  apply (matching_issue_sets_pass PyRef.pylib CONFIG SAMPLE_ANALYSIS None
           None "o" "r" true 1
           [("related_issue_number_list", VList [VInt 102; VInt 101; VInt 101])]
           [VInt 102; VInt 101; VInt 101] [] [VInt 101; VInt 102] []).
  - reflexivity.
  - left. discriminate.
  - reflexivity.
  - reflexivity.
  - reflexivity.
Defined.

Lemma no_keywords_no_pass_witness :
  result (verify_issues PyRef.pylib (with_keywords [] CONFIG) SAMPLE_ANALYSIS None 1
            SAMPLE_ANALYSIS None "o" "r" true) <> Ret true.
Proof.
  apply (no_keywords_no_pass PyRef.pylib (with_keywords [] CONFIG) SAMPLE_ANALYSIS
           None None "o" "r" true 1 (fields_of SAMPLE_ANALYSIS)
           [VInt 101; VInt 102]).
  - reflexivity.
  - reflexivity.
  - discriminate.
Defined.

(** Offline, with the script's tables: a document without a list. *)
Lemma issue_list_examined_first_witness :
  verify_issues PyRef.pylib CONFIG SAMPLE_ANALYSIS None 1 (VDict []) None
    "example-owner" "example-repo" true
  = (Ret false, [Stderr IssueListEmpty]).
Proof.
  apply (proj1 (proj2 (issue_list_examined_first PyRef.pylib CONFIG SAMPLE_ANALYSIS
                         None None "example-owner" "example-repo" true 1 [])));
    reflexivity.
Defined.

(* ================================================================= *)
(** ** The driver *)

Lemma main_run lib cfg sample requests fuel environ args_mock token owner repo :
  get_github_credentials cfg environ = (token, owner, repo) ->
  main lib cfg sample requests fuel environ args_mock
  = prepend (preamble token args_mock)
      (let mock := effective_mock token args_mock in
       if negb mock && no_requests requests then
         print_err RequestsNotInstalled ;;; ret 1
       else
         print start_line ;;;
         results <- load_analysis_results lib cfg sample requests token owner repo mock ;;
         if negb (truthy results) then print_err AnalysisNotFound ;;; ret 1
         else
           print loaded_line ;;;
           main_checks lib cfg sample requests fuel results token owner repo mock).
Proof.
  intros Hcreds. unfold main, preamble, effective_mock. rewrite Hcreds.
  destruct (token_missing token); destruct args_mock; cbn [andb negb orb];
    rewrite ?bind_ret_l; try (symmetry; apply prepend_nil).
  change (print_err NoTokenWarning ;;; ret true)
    with (@pair (outcome bool) _ (Ret true) [Stderr NoTokenWarning]).
  rewrite bind_prepend. reflexivity.
Qed.

(** X19.  Without a token, a run that was not asked to be offline prints the
    warning and then is the offline run, line for line: the [requests]
    module is never reached. *)
Theorem missing_token_forces_offline :
  forall lib cfg sample requests fuel environ token owner repo,
    get_github_credentials cfg environ = (token, owner, repo) ->
    token_missing token = true ->
    main lib cfg sample requests fuel environ false
    = prepend [Stderr NoTokenWarning]
        (main lib cfg sample requests fuel environ true).
Proof.
  intros lib cfg sample requests fuel environ token owner repo Hcreds Hmissing.
  rewrite (main_run lib cfg sample requests fuel environ false token owner repo Hcreds),
    (main_run lib cfg sample requests fuel environ true token owner repo Hcreds).
  unfold preamble, effective_mock. rewrite Hmissing. cbn [andb negb orb].
  rewrite prepend_nil. reflexivity.
Qed.

Lemma missing_token_forces_offline_witness :
  main PyRef.pylib CONFIG SAMPLE_ANALYSIS (Some commit_without_account) 1
    no_environ false
  = prepend [Stderr NoTokenWarning]
      (main PyRef.pylib CONFIG SAMPLE_ANALYSIS (Some commit_without_account) 1
         no_environ true).
Proof.
  apply (missing_token_forces_offline PyRef.pylib CONFIG SAMPLE_ANALYSIS
           (Some commit_without_account) 1 no_environ None
           "example-owner" "example-repo"); reflexivity.
Defined.

(** X20.  [main] gives up with status 1 before any validator runs
    - online, when the [requests] module is missing: nothing is loaded;
    - in either mode, when the loader returns nothing or a document that
      is empty (null, [{}], [[]], 0, an empty string): the last line is
      the loader's failure. *)
Theorem main_gives_up_before_validation :
  forall lib cfg sample requests fuel environ args_mock token owner repo,
    get_github_credentials cfg environ = (token, owner, repo) ->
    (effective_mock token args_mock = false -> requests = None ->
     main lib cfg sample requests fuel environ args_mock
     = (Ret 1, [Stderr RequestsNotInstalled]))
    /\ (forall results w,
          effective_mock token args_mock = true \/ requests <> None ->
          load_analysis_results lib cfg sample requests token owner repo
            (effective_mock token args_mock) = (Ret results, w) ->
          truthy results = false ->
          main lib cfg sample requests fuel environ args_mock
          = (Ret 1,
             preamble token args_mock ++ [Stdout start_line] ++ w
               ++ [Stderr AnalysisNotFound])).
Proof.
  intros lib cfg sample requests fuel environ args_mock token owner repo Hcreds.
  rewrite (main_run lib cfg sample requests fuel environ args_mock token owner repo Hcreds).
  cbv zeta. split.
  - intros Hmock ->. rewrite Hmock. unfold preamble, effective_mock in *.
    apply orb_false_iff in Hmock as [-> ->]. reflexivity.
  - intros results w Hmode Hload Hempty.
    replace (negb (effective_mock token args_mock) && no_requests requests) with false.
    2: { destruct Hmode as [-> | Hreq]; [reflexivity |].
         destruct requests; [now rewrite andb_false_r | contradiction]. }
    change (print start_line) with (@pair (outcome unit) _ (Ret tt) [Stdout start_line]).
    rewrite bind_prepend, Hload, bind_prepend, Hempty. unfold prepend. cbn.
    reflexivity.
Qed.

(** Online with a token: the file is found and decodes to [{}]. *)
Lemma main_gives_up_before_validation_witness :
  main PyRef.pylib CONFIG SAMPLE_ANALYSIS (Some (always_200 empty_document_body)) 1
    token_environ false
  = (Ret 1, [Stdout start_line; Stderr AnalysisNotFound]).
Proof.
  apply (proj2 (main_gives_up_before_validation PyRef.pylib CONFIG SAMPLE_ANALYSIS
           (Some (always_200 empty_document_body)) 1 token_environ false
           (Some "t") "example-owner" "example-repo" eq_refl) (VDict []) []).
  - right. discriminate.
  - reflexivity.
  - reflexivity.
Defined.

Lemma stage_run enabled title done (check : M bool) b w :
  (toggle enabled = true -> check = (Ret b, w)) ->
  stage enabled title done check
  = (Ret (stage_passed enabled b), stage_lines enabled title done b w).
Proof.
  intros Hcheck. unfold stage, stage_passed, stage_lines.
  destruct (toggle enabled); [| reflexivity].
  rewrite (Hcheck eq_refl).
  change (print title) with (@pair (outcome unit) _ (Ret tt) [Stdout title]).
  rewrite bind_prepend, bind_prepend.
  destruct b; unfold prepend; cbn; rewrite ?app_nil_r; reflexivity.
Qed.

(** X21.  Once a non-empty document is loaded, every enabled validator runs,
    whatever the earlier ones answered, and the exit status is 0 exactly
    when each enabled validator answered [True]; the lines printed are the
    loader's, then for each enabled stage its title, the validator's own
    lines and the stage's confirmation when it passed, then the banner and
    the verdict. *)
Theorem exit_status_is_conjunction_of_enabled_stages :
  forall lib cfg sample requests fuel environ args_mock token owner repo
         results wl bc wc bp wp bi wi,
    get_github_credentials cfg environ = (token, owner, repo) ->
    effective_mock token args_mock = true \/ requests <> None ->
    load_analysis_results lib cfg sample requests token owner repo
      (effective_mock token args_mock) = (Ret results, wl) ->
    truthy results = true ->
    (toggle (VERIFY_COMMIT cfg) = true ->
     verify_commit_data lib cfg sample requests results token owner repo
       (effective_mock token args_mock) = (Ret bc, wc)) ->
    (toggle (VERIFY_PARAMETERS cfg) = true ->
     verify_parameter_changes lib cfg results = (Ret bp, wp)) ->
    (toggle (VERIFY_ISSUES cfg) = true ->
     verify_issues lib cfg sample requests fuel results token owner repo
       (effective_mock token args_mock) = (Ret bi, wi)) ->
    let all_passed :=
      stage_passed (VERIFY_COMMIT cfg) bc
      && stage_passed (VERIFY_PARAMETERS cfg) bp
      && stage_passed (VERIFY_ISSUES cfg) bi in
    main lib cfg sample requests fuel environ args_mock
    = (Ret (if all_passed then 0 else 1),
       preamble token args_mock ++ [Stdout start_line] ++ wl
         ++ [Stdout loaded_line]
         ++ stage_lines (VERIFY_COMMIT cfg) "2. Verifying commit data..."
              "✅ Commit data verified" bc wc
         ++ stage_lines (VERIFY_PARAMETERS cfg) "3. Verifying parameter changes..."
              "✅ Parameter changes verified" bp wp
         ++ stage_lines (VERIFY_ISSUES cfg) "4. Verifying related issues..."
              "✅ Related issues verified" bi wi
         ++ closing_lines all_passed).
Proof.
  intros lib cfg sample requests fuel environ args_mock token owner repo
         results wl bc wc bp wp bi wi Hcreds Hmode Hload Hdoc Hc Hp Hi all_passed.
  rewrite (main_run lib cfg sample requests fuel environ args_mock token owner repo Hcreds).
  cbv zeta.
  replace (negb (effective_mock token args_mock) && no_requests requests) with false.
  2: { destruct Hmode as [-> | Hreq]; [reflexivity |].
       destruct requests; [now rewrite andb_false_r | contradiction]. }
  change (print start_line) with (@pair (outcome unit) _ (Ret tt) [Stdout start_line]).
  rewrite bind_prepend, Hload, bind_prepend, Hdoc. cbn [negb].
  change (print loaded_line) with (@pair (outcome unit) _ (Ret tt) [Stdout loaded_line]).
  rewrite bind_prepend. unfold main_checks.
  rewrite (stage_run _ _ _ _ bc wc Hc), bind_prepend.
  rewrite (stage_run _ _ _ _ bp wp Hp), bind_prepend.
  rewrite (stage_run _ _ _ _ bi wi Hi), bind_prepend.
  fold all_passed.
  change (print banner) with (@pair (outcome unit) _ (Ret tt) [Stdout banner]).
  rewrite bind_prepend.
  unfold closing_lines. destruct all_passed; unfold prepend; cbn [fst snd print bind ret];
    rewrite ?app_nil_r; f_equal; repeat (rewrite <- ?app_assoc; cbn [app]); reflexivity.
Qed.

(** Offline, on the bundled document without issue 102: the first two
    stages pass, the third fails, the status is 1. *)
Lemma exit_status_is_conjunction_of_enabled_stages_witness :
  main PyRef.pylib CONFIG sample_without_102 None 1 no_environ true
  = (Ret 1,
     [Stdout start_line; Stdout loaded_line;
      Stdout "2. Verifying commit data..."; Stdout "✅ Commit data verified";
      Stdout "3. Verifying parameter changes...";
      Stdout "✅ Parameter changes verified";
      Stdout "4. Verifying related issues...";
      Stderr (MissingIssues [VInt 102]);
      Stdout banner; Stdout "❌ Some verification checks failed"]).
Proof.
  apply (exit_status_is_conjunction_of_enabled_stages PyRef.pylib CONFIG
           sample_without_102 None 1 no_environ true None
           "example-owner" "example-repo" sample_without_102 []
           true [] true [] false [Stderr (MissingIssues [VInt 102])]).
  - reflexivity.
  - left. reflexivity.
  - vm_compute. reflexivity.
  - reflexivity.
  - intros _. vm_compute. reflexivity.
  - intros _. vm_compute. reflexivity.
  - intros _. vm_compute. reflexivity.
Defined.

(* ================================================================= *)
(** ** An offline run and its surroundings *)

Lemma bind_same {A B} (m : M A) (f g : A -> M B) :
  (forall a, f a = g a) -> bind m f = bind m g.
Proof.
  intros Hfg. unfold bind. destruct m as [[a | e |] w]; [| reflexivity..].
  rewrite Hfg. reflexivity.
Qed.

Section Offline.

Context (lib : PyLib) (cfg : Config) (sample : value).
Context (requests requests' : option Requests).
Context (token token' : option string) (owner owner' repo repo' : string).

Lemma offline_listing_same fuel :
  forall page issues,
    get_relevant_issues_loop lib cfg sample requests fuel token owner repo true
      page issues
    = get_relevant_issues_loop lib cfg sample requests' fuel token' owner' repo' true
        page issues.
Proof.
  induction fuel as [| fuel IH]; intros page issues; [reflexivity |].
  cbn [get_relevant_issues_loop].
  change (github_api_request lib sample requests (page_endpoint page)
            token owner repo true)
    with (github_api_request lib sample requests' (page_endpoint page)
            token' owner' repo' true).
  apply bind_same. intros [success data].
  destruct (negb success || negb (truthy data)); [reflexivity |].
  apply bind_same. intros items. apply bind_same. intros issues'.
  destruct (is_list data && (list_len data <? 100)); [reflexivity | apply IH].
Qed.

Lemma offline_check_same l :
  check_issues lib cfg sample requests token owner repo true l
  = check_issues lib cfg sample requests' token' owner' repo' true l.
Proof.
  induction l as [| issue_num l IH]; [reflexivity |].
  cbn [check_issues]. apply bind_same. intros bad.
  destruct bad; [reflexivity |].
  change (github_api_request lib sample requests
            ("issues/" ++ str_of_int_value issue_num)%string token owner repo true)
    with (github_api_request lib sample requests'
            ("issues/" ++ str_of_int_value issue_num)%string token' owner' repo' true).
  apply bind_same. intros [success issue_data].
  destruct (negb success || negb (truthy issue_data)); [reflexivity |].
  apply bind_same. intros text.
  destruct (negb (has_keyword (KEYWORDS cfg) text)); [reflexivity | apply IH].
Qed.

Lemma offline_issues_same fuel results :
  verify_issues lib cfg sample requests fuel results token owner repo true
  = verify_issues lib cfg sample requests' fuel results token' owner' repo' true.
Proof.
  unfold verify_issues. apply bind_same. intros issue_list.
  destruct issue_list; try reflexivity.
  match goal with |- (if ?c then _ else _) = _ => destruct c end; [reflexivity |].
  rewrite offline_check_same. apply bind_same. intros ok.
  destruct (negb ok); [reflexivity |].
  unfold get_relevant_issues. rewrite offline_listing_same. reflexivity.
Qed.

Lemma offline_checks_same fuel results :
  main_checks lib cfg sample requests fuel results token owner repo true
  = main_checks lib cfg sample requests' fuel results token' owner' repo' true.
Proof.
  unfold main_checks. rewrite offline_issues_same. reflexivity.
Qed.

End Offline.

(** X22.  An offline run depends on neither the environment nor the [requests]
    module: with [--mock], two runs over the same tables and fixture end
    with the same status and print the same lines, whatever token, owner
    and repository the environment holds and whether or not [requests]
    could be imported. *)
Theorem offline_run_ignores_environment :
  forall lib cfg sample requests requests' fuel environ environ',
    main lib cfg sample requests fuel environ true
    = main lib cfg sample requests' fuel environ' true.
Proof.
  intros lib cfg sample requests requests' fuel environ environ'.
  destruct (get_github_credentials cfg environ) as [[token owner] repo] eqn:Hcreds.
  destruct (get_github_credentials cfg environ') as [[token' owner'] repo'] eqn:Hcreds'.
  rewrite (main_run lib cfg sample requests fuel environ true token owner repo Hcreds),
    (main_run lib cfg sample requests' fuel environ' true token' owner' repo' Hcreds').
  unfold preamble, effective_mock. rewrite !andb_false_r. cbn [orb negb andb].
  rewrite !prepend_nil.
  apply bind_same. intros _.
  change (load_analysis_results lib cfg sample requests token owner repo true)
    with (load_analysis_results lib cfg sample requests' token' owner' repo' true).
  apply bind_same. intros results.
  destruct (negb (truthy results)); [reflexivity |].
  apply bind_same. intros _. apply offline_checks_same.
Qed.
